(** * PocketNavi: search and data-normalization core

    A shallow embedding of the query-construction and row-normalization layer
    of the building catalogue: the Supabase API client
    ([SupabaseApiClient]: [getBuildings], [searchBuildings],
    [getNearbyBuildings], [getSearchSuggestions], [healthCheck],
    [transformBuilding], [getBuildingById]), the slug helpers of [App.tsx]
    ([generateSlug], [extractIdFromSlug]), the hooks [useSupabaseToggle] and
    [useSupabaseBuildings], and the state handlers of the home and detail
    pages.

    Modelling conventions.
    - JavaScript strings are [string]s, read as sequences of 8-bit
      characters; the character classes ([\s], upper case) are the ASCII ones.
    - JavaScript numbers are exact rationals extended with [NaN] and the two
      infinities. An integer that is printed or parsed is rounded to the
      nearest number of 53 significant bits, as [String] and [parseInt] do;
      the arithmetic on coordinates is exact.
    - [data: any] is a JSON-like [value]; a thrown exception is the [Throw]
      branch of [result].
    - The hosted backend is a record [Backend]: the rows of
      [buildings_table_2] with their embedded relations, an optional failure of
      the table endpoint, and the outcome of the [nearby_buildings] procedure.
    - [new Date()] is an explicit [Clock]. *)

From Stdlib Require Import ZArith QArith List String Ascii Bool Lia.
Import ListNotations.

Local Open Scope string_scope.
Local Open Scope Z_scope.

(** ** JavaScript strings *)

Module JsString.

Definition code (c : ascii) : N := N_of_ascii c.

(** The ASCII part of the [\s] class and of [String.prototype.trim]:
    TAB, LF, VT, FF, CR and SPACE. *)
Definition is_space (c : ascii) : bool :=
  ((9 <=? code c) && (code c <=? 13) || (code c =? 32))%N.

Definition is_digit (c : ascii) : bool :=
  ((48 <=? code c) && (code c <=? 57))%N.

Definition is_lower (c : ascii) : bool :=
  ((97 <=? code c) && (code c <=? 122))%N.

Definition is_upper (c : ascii) : bool :=
  ((65 <=? code c) && (code c <=? 90))%N.

Definition lower_char (c : ascii) : ascii :=
  if is_upper c then ascii_of_N (code c + 32) else c.

(** [s.toLowerCase()] *)
Fixpoint toLowerCase (s : string) : string :=
  match s with
  | EmptyString => EmptyString
  | String c s' => String (lower_char c) (toLowerCase s')
  end.

Fixpoint trimStart (s : string) : string :=
  match s with
  | EmptyString => EmptyString
  | String c s' => if is_space c then trimStart s' else s
  end.

Fixpoint trimEnd (s : string) : string :=
  match s with
  | EmptyString => EmptyString
  | String c s' =>
      match trimEnd s' with
      | EmptyString => if is_space c then EmptyString else String c EmptyString
      | t => String c t
      end
  end.

(** [s.trim()] *)
Definition trim (s : string) : string := trimEnd (trimStart s).

(** [s.includes(q)] *)
Fixpoint includes (s q : string) : bool :=
  prefix q s ||
  match s with
  | EmptyString => false
  | String _ s' => includes s' q
  end.

(** [s.split(sep)] for a one-character separator; never empty. *)
Fixpoint split (sep : ascii) (s : string) : list string :=
  match s with
  | EmptyString => [EmptyString]
  | String c s' =>
      if Ascii.eqb c sep then EmptyString :: split sep s'
      else match split sep s' with
           | h :: t => String c h :: t
           | [] => [String c EmptyString]
           end
  end.

(** [s.replace(/[^...]/g, '')]: keep the characters of the class. *)
Fixpoint keep (p : ascii -> bool) (s : string) : string :=
  match s with
  | EmptyString => EmptyString
  | String c s' => if p c then String c (keep p s') else keep p s'
  end.

(** [s.replace(/X+/g, r)]: every maximal run of characters of the class
    [p] becomes the single character [r]. [in_run] tells that the previous
    character belonged to the run being replaced. *)
Fixpoint squeeze_from (p : ascii -> bool) (r : ascii) (in_run : bool)
         (s : string) : string :=
  match s with
  | EmptyString => EmptyString
  | String c s' =>
      if p c then
        if in_run then squeeze_from p r true s'
        else String r (squeeze_from p r true s')
      else String c (squeeze_from p r false s')
  end.

Definition squeeze (p : ascii -> bool) (r : ascii) (s : string) : string :=
  squeeze_from p r false s.

(** [s.substring(0, n)] *)
Definition take (n : nat) (s : string) : string := substring 0 n s.

Definition is_empty (s : string) : bool :=
  match s with EmptyString => true | _ => false end.

End JsString.

(** ** JavaScript numbers *)

Inductive number : Type :=
| NaN
| Inf (negative : bool)
| Fin (q : Q).

Definition of_Z (z : Z) : number := Fin (inject_Z z).

(** [isNaN(x)] *)
Definition isNaN (x : number) : bool :=
  match x with NaN => true | _ => false end.

(** ToBoolean on a number: [0] and [NaN] are falsy. *)
Definition number_truthy (x : number) : bool :=
  match x with
  | NaN => false
  | Inf _ => true
  | Fin q => negb (Qeq_bool q 0)
  end.

Module Digits.
Import JsString.

Definition digit_val (c : ascii) : Z := Z.of_N (code c) - 48.

Definition digit_char (d : Z) : ascii := ascii_of_N (Z.to_N (d + 48)).

(** The longest prefix of decimal digits, and what follows it. *)
Fixpoint span (s : string) : string * string :=
  match s with
  | EmptyString => (EmptyString, EmptyString)
  | String c s' =>
      if is_digit c then let '(ds, r) := span s' in (String c ds, r)
      else (EmptyString, s)
  end.

(** The integer written by a string of digits, most significant first. *)
Fixpoint decimal_from (acc : Z) (ds : string) : Z :=
  match ds with
  | EmptyString => acc
  | String c ds' => decimal_from (10 * acc + digit_val c) ds'
  end.

Definition decimal (ds : string) : Z := decimal_from 0 ds.

(** Decimal digits of a non-negative integer, least significant first. *)
Fixpoint digits_le (fuel : nat) (n : Z) : list Z :=
  match fuel with
  | O => [n mod 10]
  | S f => if n <? 10 then [n] else (n mod 10) :: digits_le f (n / 10)
  end.

Definition render_le (ds : list Z) : string :=
  fold_left (fun acc d => String (digit_char d) acc) ds EmptyString.

(** The decimal digits of a non-negative integer. *)
Definition positional (n : Z) : string :=
  render_le (digits_le (Z.to_nat (Z.log2 n)) n).

(** The number nearest to a non-negative integer, ties to the even
    significand: an integer below 2^53 is a number, a larger one keeps its 53
    leading bits. The exponent is not capped: integers from 2^1024 on, which
    no number holds, are rounded the same way. *)
Definition to_double (n : Z) : Z :=
  if n <? 2 ^ 53 then n
  else
    let e := Z.log2 n - 52 in
    let q := n / 2 ^ e in
    let r := n mod 2 ^ e in
    let half := 2 ^ (e - 1) in
    let up := if r <? half then false
              else if half <? r then true
              else Z.odd q in
    (if up then q + 1 else q) * 2 ^ e.

(** Among the two multiples of [10^j] around the number [x], the one that
    reads back as [x]; the closer one when both do, the one with the even
    digit on a tie. *)
Definition pick (x : Z) (j : nat) : option Z :=
  let q := 10 ^ Z.of_nat j in
  let lo := x / q * q in
  let hi := lo + q in
  match to_double lo =? x, to_double hi =? x with
  | true, true =>
      if x - lo <? hi - x then Some lo
      else if hi - x <? x - lo then Some hi
      else if Z.even (lo / q) then Some lo else Some hi
  | true, false => Some lo
  | false, true => Some hi
  | false, false => None
  end.

(** The decimal with the fewest significant digits that reads back as the
    number [x]: the coarsest grid of powers of ten is tried first. *)
Fixpoint shortest_from (j : nat) (x : Z) : Z :=
  match j with
  | O => x
  | S j' =>
      match pick x j with
      | Some v => v
      | None => shortest_from j' x
      end
  end.

Definition shortest (x : Z) : Z := shortest_from (Z.to_nat (Z.log2 x)) x.

Fixpoint strip_zeros (s : string) : string :=
  match s with
  | EmptyString => EmptyString
  | String c s' =>
      match strip_zeros s' with
      | EmptyString => if Ascii.eqb c "0" then EmptyString else String c EmptyString
      | t => String c t
      end
  end.

(** Exponent notation: the first digit, the further significant digits
    after a point if there are any, and the exponent. *)
Definition exponent_form (v : Z) : string :=
  match positional v with
  | EmptyString => EmptyString
  | String c r =>
      (String c
         match strip_zeros r with
         | EmptyString => EmptyString
         | t => String "." t
         end
       ++ "e+" ++ positional (Z.of_nat (String.length r)))%string
  end.

(** [String(n)] for a non-negative integer-valued number [n]: the shortest
    decimal that reads back as [n], in positional notation below 10^21 and in
    exponent notation from there on. *)
Definition of_nonneg (n : Z) : string :=
  let x := to_double n in
  if x <? 10 ^ 21 then positional (shortest x) else exponent_form (shortest x).

Definition of_int (z : Z) : string :=
  if z <? 0 then String "-" (of_nonneg (- z)) else of_nonneg z.

(** An optional sign in front of a numeric literal. *)
Definition sign (s : string) : bool * string :=
  match s with
  | String c r =>
      if Ascii.eqb c "-" then (true, r)
      else if Ascii.eqb c "+" then (false, r)
      else (false, s)
  | EmptyString => (false, s)
  end.

End Digits.

(** [parseInt(s, 10)] on a string: leading white space, an optional sign,
    then the longest run of decimal digits, read as the nearest number; [NaN]
    when there is none. *)
Definition parseInt_digits (s : string) : option Z :=
  let '(neg, body) := Digits.sign (JsString.trimStart s) in
  let ds := fst (Digits.span body) in
  if JsString.is_empty ds then None
  else
    let n := Digits.to_double (Digits.decimal ds) in
    Some (if neg then - n else n).

Definition parseInt_string (s : string) : number :=
  match parseInt_digits s with
  | Some z => of_Z z
  | None => NaN
  end.

(** [parseFloat(s)] on a string: leading white space, an optional sign, then
    [Infinity] or the longest decimal literal (digits, fraction, exponent);
    [NaN] when there is none. *)
Definition parseFloat_string (s : string) : number :=
  let '(neg, body) := Digits.sign (JsString.trimStart s) in
  if prefix "Infinity" body then Inf neg
  else
    let '(ip, r1) := Digits.span body in
    let '(fp, r2) :=
      match r1 with
      | String "." r => Digits.span r
      | _ => (EmptyString, r1)
      end in
    if JsString.is_empty ip && JsString.is_empty fp then NaN
    else
      let mant : Q :=
        Qmake (Digits.decimal (ip ++ fp))
              (Z.to_pos (10 ^ Z.of_nat (String.length fp))) in
      let expo : Z :=
        match r2 with
        | String c r =>
            if Ascii.eqb c "e" || Ascii.eqb c "E" then
              let '(eneg, r') := Digits.sign r in
              let ed := fst (Digits.span r') in
              if eneg then - Digits.decimal ed else Digits.decimal ed
            else 0
        | EmptyString => 0
        end in
      let q := Qred (mant * Qpower (10 # 1) expo) in
      Fin (if neg then Qopp q else q).

(** ** JavaScript values, exceptions and the clock *)

#[warnings="-register-all"]
Inductive value : Type :=
| VUndefined
| VNull
| VBool (b : bool)
| VNum (n : number)
| VStr (s : string)
| VArr (items : list value)
| VObj (fields : list (string * value)).

Inductive exception : Type :=
| TypeError
| SupabaseApiError (status : Z) (message : string).

Inductive result (A : Type) : Type :=
| Ok (a : A)
| Throw (e : exception).
Arguments Ok {A} a.
Arguments Throw {A} e.

Definition bind {A B : Type} (m : result A) (k : A -> result B) : result B :=
  match m with
  | Ok a => k a
  | Throw e => Throw e
  end.

Declare Scope js_scope.
Delimit Scope js_scope with js.
Notation "x <- m ;; k" := (bind m (fun x => k))
  (at level 61, m at next level, right associativity) : js_scope.
Local Open Scope js_scope.

Fixpoint mapM {A B : Type} (f : A -> result B) (l : list A) : result (list B) :=
  match l with
  | [] => Ok []
  | a :: l' => b <- f a ;; bs <- mapM f l' ;; Ok (b :: bs)
  end.

(** [new Date()]: the calendar year and the ISO-8601 rendering of now. *)
Record Clock : Type := { getFullYear : Z; toISOString : string }.

Module Js.

Fixpoint lookup (k : string) (fs : list (string * value)) : value :=
  match fs with
  | [] => VUndefined
  | (k', v) :: fs' => if String.eqb k k' then v else lookup k fs'
  end.

(** [v.k] where [v] is known not to be [null] or [undefined]; none of the
    names read by the client is a member of a built-in prototype. *)
Definition get (k : string) (v : value) : value :=
  match v with
  | VObj fs => lookup k fs
  | _ => VUndefined
  end.

(** [v.k]: reading a property of [null] or [undefined] throws. *)
Definition prop (v : value) (k : string) : result value :=
  match v with
  | VUndefined | VNull => Throw TypeError
  | _ => Ok (get k v)
  end.

(** ToBoolean *)
Definition truthy (v : value) : bool :=
  match v with
  | VUndefined | VNull => false
  | VBool b => b
  | VNum n => number_truthy n
  | VStr s => negb (JsString.is_empty s)
  | VArr _ | VObj _ => true
  end.

(** [a || b] on values already computed *)
Definition or (a b : value) : value := if truthy a then a else b.

(** [parseInt(v, 10)]: [v] goes through ToString first. A finite number is
    read back from its positional notation, that is truncated; an array
    prints as its elements separated by commas, so only its first element
    can be read. *)
Fixpoint parseInt (v : value) : number :=
  match v with
  | VStr s => parseInt_string s
  | VNum (Fin q) => of_Z (Z.quot (Qnum q) (Zpos (Qden q)))
  | VArr (x :: _) => parseInt x
  | _ => NaN
  end.

(** [parseFloat(v)]: as above; a number is read back as itself. *)
Fixpoint parseFloat (v : value) : number :=
  match v with
  | VStr s => parseFloat_string s
  | VNum n => n
  | VArr (x :: _) => parseFloat x
  | _ => NaN
  end.

End Js.

(** ** The row normalizer: [SupabaseApiClient.transformBuilding] *)

(** [parseCommaSeparated]: a falsy argument gives [[]]; otherwise
    [str.split(',')] is called, which only a string has. *)
Definition parseCommaSeparated (str : value) : result value :=
  if negb (Js.truthy str) then Ok (VArr [])
  else
    match str with
    | VStr s =>
        Ok (VArr (map VStr
                      (filter (fun t => (0 <? String.length t)%nat)
                              (map JsString.trim (JsString.split "," s)))))
    | _ => Throw TypeError
    end.

Definition parseYear (now : Clock) (year : value) : number :=
  if negb (Js.truthy year) then of_Z (getFullYear now)
  else
    let parsed := Js.parseInt year in
    if isNaN parsed then of_Z (getFullYear now) else parsed.

(** The callback of [data.building_architects?.map(...)]. *)
Definition transformArchitect (ba : value) : result value :=
  t1 <- Js.prop ba "architects_table" ;;
  architect_id <- Js.prop t1 "architect_id" ;;
  t2 <- Js.prop ba "architects_table" ;;
  architectJa <- Js.prop t2 "architectJa" ;;
  t3 <- Js.prop ba "architects_table" ;;
  architectEn <- Js.prop t3 "architectEn" ;;
  Ok (VObj [ ("architect_id", architect_id);
             ("architectJa", architectJa);
             ("architectEn", Js.or architectEn architectJa);
             ("websites", VArr []) ]).

(** [xs?.map(f)]: [undefined] when [xs] is nullish; only an array has [map]. *)
Definition optional_map (f : value -> result value) (xs : value) : result value :=
  match xs with
  | VUndefined | VNull => Ok VUndefined
  | VArr l => l' <- mapM f l ;; Ok (VArr l')
  | _ => Throw TypeError
  end.

Definition transformBuilding (now : Clock) (data : value) : result value :=
  id <- Js.prop data "building_id" ;;
  let uid := Js.get "uid" data in
  let title := Js.get "title" data in
  let titleEn := Js.or (Js.get "titleEn" data) (Js.get "title" data) in
  let thumbnailUrl := Js.or (Js.get "thumbnailUrl" data) (VStr EmptyString) in
  let youtubeUrl := Js.or (Js.get "youtubeUrl" data) (VStr EmptyString) in
  let completionYears := parseYear now (Js.get "completionYears" data) in
  parentBuildingTypes <- parseCommaSeparated (Js.get "parentBuildingTypes" data) ;;
  buildingTypes <- parseCommaSeparated (Js.get "buildingTypes" data) ;;
  parentStructures <- parseCommaSeparated (Js.get "parentStructures" data) ;;
  structures <- parseCommaSeparated (Js.get "structures" data) ;;
  let prefectures := Js.get "prefectures" data in
  let areas := Js.get "areas" data in
  let location := Js.get "location" data in
  let architectDetails := Js.or (Js.get "architectDetails" data) (VStr EmptyString) in
  let lat := Js.or (VNum (Js.parseFloat (Js.get "lat" data))) (VNum (of_Z 0)) in
  let lng := Js.or (VNum (Js.parseFloat (Js.get "lng" data))) (VNum (of_Z 0)) in
  mapped <- optional_map transformArchitect (Js.get "building_architects" data) ;;
  let architects := Js.or mapped (VArr []) in
  let created_at := Js.or (Js.get "created_at" data) (VStr (toISOString now)) in
  let updated_at := Js.or (Js.get "updated_at" data) (VStr (toISOString now)) in
  Ok (VObj [ ("id", id);
             ("uid", uid);
             ("title", title);
             ("titleEn", titleEn);
             ("thumbnailUrl", thumbnailUrl);
             ("youtubeUrl", youtubeUrl);
             ("completionYears", VNum completionYears);
             ("parentBuildingTypes", parentBuildingTypes);
             ("buildingTypes", buildingTypes);
             ("parentStructures", parentStructures);
             ("structures", structures);
             ("prefectures", prefectures);
             ("areas", areas);
             ("location", location);
             ("architectDetails", architectDetails);
             ("lat", lat);
             ("lng", lng);
             ("architects", architects);
             ("photos", VArr []);
             ("likes", VNum (of_Z 0));
             ("created_at", created_at);
             ("updated_at", updated_at) ]).

(** ** Schema-typed rows and the canonical Building *)

(** A row of [architects_table]. *)
Module ArchitectRow.
Record t : Type := {
  architect_id : Z;
  architectJa : string;
  architectEn : string
}.
End ArchitectRow.

(** A row of [photos]. *)
Module PhotoRow.
Record t : Type := {
  id : Z;
  building_id : Z;
  url : string;
  thumbnail_url : string;
  likes : Z;
  created_at : string
}.
End PhotoRow.

(** A row of [buildings_table_2] as the [Database] type declares it (the
    columns the client reads), with the relations embedded by [select]:
    [None] is a relation the row does not carry. *)
Module Row.
Record t : Type := {
  building_id : Z;
  uid : string;
  title : string;
  titleEn : option string;
  thumbnailUrl : option string;
  youtubeUrl : option string;
  completionYears : option string;
  parentBuildingTypes : option string;
  buildingTypes : option string;
  parentStructures : option string;
  structures : option string;
  prefectures : option string;
  areas : string;
  location : string;
  architectDetails : option string;
  lat : option Q;
  lng : option Q;
  created_at : string;
  updated_at : string;
  building_architects : option (list ArchitectRow.t);
  photos : option (list PhotoRow.t)
}.
End Row.

Module Architect.
Record t : Type := {
  architect_id : Z;
  architectJa : string;
  architectEn : string;
  websites : list value
}.
End Architect.

(** Modelled from the spec: the [Building] interface is declared in
    [types.ts], which is not among the sources. The fields are those of the
    canonical Building of the data model, which are the fields of the object
    that [transformBuilding] returns; [prefectures] is passed through from a
    nullable column. *)
Module Building.
Record t : Type := {
  id : Z;
  uid : string;
  title : string;
  titleEn : string;
  thumbnailUrl : string;
  youtubeUrl : string;
  completionYears : Z;
  parentBuildingTypes : list string;
  buildingTypes : list string;
  parentStructures : list string;
  structures : list string;
  prefectures : option string;
  areas : string;
  location : string;
  architectDetails : string;
  lat : Q;
  lng : Q;
  architects : list Architect.t;
  photos : list PhotoRow.t;
  likes : Z;
  created_at : string;
  updated_at : string
}.
End Building.

(** The JSON form of rows and Buildings. *)
Module Encode.

Definition text (o : option string) : value :=
  match o with Some s => VStr s | None => VNull end.

Definition num (o : option Q) : value :=
  match o with Some q => VNum (Fin q) | None => VNull end.

Definition relation {A : Type} (f : A -> value) (o : option (list A)) : value :=
  match o with Some l => VArr (map f l) | None => VUndefined end.

Definition architect_row (a : ArchitectRow.t) : value :=
  VObj [ ("architect_id", VNum (of_Z (ArchitectRow.architect_id a)));
         ("architectJa", VStr (ArchitectRow.architectJa a));
         ("architectEn", VStr (ArchitectRow.architectEn a)) ].

(** An element of the [building_architects] join. *)
Definition building_architect (a : ArchitectRow.t) : value :=
  VObj [ ("architects_table", architect_row a) ].

Definition photo (p : PhotoRow.t) : value :=
  VObj [ ("id", VNum (of_Z (PhotoRow.id p)));
         ("building_id", VNum (of_Z (PhotoRow.building_id p)));
         ("url", VStr (PhotoRow.url p));
         ("thumbnail_url", VStr (PhotoRow.thumbnail_url p));
         ("likes", VNum (of_Z (PhotoRow.likes p)));
         ("created_at", VStr (PhotoRow.created_at p)) ].

Definition row (r : Row.t) : value :=
  VObj [ ("building_id", VNum (of_Z (Row.building_id r)));
         ("uid", VStr (Row.uid r));
         ("title", VStr (Row.title r));
         ("titleEn", text (Row.titleEn r));
         ("thumbnailUrl", text (Row.thumbnailUrl r));
         ("youtubeUrl", text (Row.youtubeUrl r));
         ("completionYears", text (Row.completionYears r));
         ("parentBuildingTypes", text (Row.parentBuildingTypes r));
         ("buildingTypes", text (Row.buildingTypes r));
         ("parentStructures", text (Row.parentStructures r));
         ("structures", text (Row.structures r));
         ("prefectures", text (Row.prefectures r));
         ("areas", VStr (Row.areas r));
         ("location", VStr (Row.location r));
         ("architectDetails", text (Row.architectDetails r));
         ("lat", num (Row.lat r));
         ("lng", num (Row.lng r));
         ("created_at", VStr (Row.created_at r));
         ("updated_at", VStr (Row.updated_at r));
         ("building_architects",
           relation building_architect (Row.building_architects r));
         ("photos", relation photo (Row.photos r)) ].

Definition architect (a : Architect.t) : value :=
  VObj [ ("architect_id", VNum (of_Z (Architect.architect_id a)));
         ("architectJa", VStr (Architect.architectJa a));
         ("architectEn", VStr (Architect.architectEn a));
         ("websites", VArr (Architect.websites a)) ].

Definition building (b : Building.t) : value :=
  VObj [ ("id", VNum (of_Z (Building.id b)));
         ("uid", VStr (Building.uid b));
         ("title", VStr (Building.title b));
         ("titleEn", VStr (Building.titleEn b));
         ("thumbnailUrl", VStr (Building.thumbnailUrl b));
         ("youtubeUrl", VStr (Building.youtubeUrl b));
         ("completionYears", VNum (of_Z (Building.completionYears b)));
         ("parentBuildingTypes", VArr (map VStr (Building.parentBuildingTypes b)));
         ("buildingTypes", VArr (map VStr (Building.buildingTypes b)));
         ("parentStructures", VArr (map VStr (Building.parentStructures b)));
         ("structures", VArr (map VStr (Building.structures b)));
         ("prefectures", text (Building.prefectures b));
         ("areas", VStr (Building.areas b));
         ("location", VStr (Building.location b));
         ("architectDetails", VStr (Building.architectDetails b));
         ("lat", VNum (Fin (Building.lat b)));
         ("lng", VNum (Fin (Building.lng b)));
         ("architects", VArr (map architect (Building.architects b)));
         ("photos", VArr (map photo (Building.photos b)));
         ("likes", VNum (of_Z (Building.likes b)));
         ("created_at", VStr (Building.created_at b));
         ("updated_at", VStr (Building.updated_at b)) ].

End Encode.

(** *** The typed reading of [transformBuilding]

    What [transformBuilding] computes on a schema-typed row, field by field;
    [transformBuilding_typed] below proves the agreement. *)
Module Typed.

(** [a || b] on strings *)
Definition or_text (a b : string) : string :=
  if JsString.is_empty a then b else a.

Definition or_null (a : option string) (b : string) : string :=
  match a with Some s => or_text s b | None => b end.

Definition parseCommaSeparated (str : option string) : list string :=
  match str with
  | None => []
  | Some s =>
      if JsString.is_empty s then []
      else filter (fun t => (0 <? String.length t)%nat)
                  (map JsString.trim (JsString.split "," s))
  end.

Definition parseYear (now : Clock) (year : option string) : Z :=
  match year with
  | None => getFullYear now
  | Some s =>
      if JsString.is_empty s then getFullYear now
      else match parseInt_digits s with
           | Some z => z
           | None => getFullYear now
           end
  end.

Definition coordinate (x : option Q) : Q :=
  match x with
  | Some q => if Qeq_bool q 0 then inject_Z 0 else q
  | None => inject_Z 0
  end.

Definition architect (a : ArchitectRow.t) : Architect.t :=
  {| Architect.architect_id := ArchitectRow.architect_id a;
     Architect.architectJa := ArchitectRow.architectJa a;
     Architect.architectEn :=
       or_text (ArchitectRow.architectEn a) (ArchitectRow.architectJa a);
     Architect.websites := [] |}.

Definition transformBuilding (now : Clock) (r : Row.t) : Building.t :=
  {| Building.id := Row.building_id r;
     Building.uid := Row.uid r;
     Building.title := Row.title r;
     Building.titleEn := or_null (Row.titleEn r) (Row.title r);
     Building.thumbnailUrl := or_null (Row.thumbnailUrl r) EmptyString;
     Building.youtubeUrl := or_null (Row.youtubeUrl r) EmptyString;
     Building.completionYears := parseYear now (Row.completionYears r);
     Building.parentBuildingTypes := parseCommaSeparated (Row.parentBuildingTypes r);
     Building.buildingTypes := parseCommaSeparated (Row.buildingTypes r);
     Building.parentStructures := parseCommaSeparated (Row.parentStructures r);
     Building.structures := parseCommaSeparated (Row.structures r);
     Building.prefectures := Row.prefectures r;
     Building.areas := Row.areas r;
     Building.location := Row.location r;
     Building.architectDetails := or_null (Row.architectDetails r) EmptyString;
     Building.lat := coordinate (Row.lat r);
     Building.lng := coordinate (Row.lng r);
     Building.architects :=
       match Row.building_architects r with
       | Some l => map architect l
       | None => []
       end;
     Building.photos := [];
     Building.likes := 0;
     Building.created_at := or_text (Row.created_at r) (toISOString now);
     Building.updated_at := or_text (Row.updated_at r) (toISOString now) |}.

End Typed.

(** ** Slugs ([App.tsx]) *)

Definition slug_char (c : ascii) : bool :=
  JsString.is_lower c || JsString.is_digit c || JsString.is_space c
  || Ascii.eqb c "-".

Definition generateSlug (building : Building.t) : string :=
  let title := Typed.or_text (Building.titleEn building) (Building.title building) in
  (Digits.of_int (Building.id building) ++ "-" ++
   JsString.take 50
     (JsString.trim
        (JsString.squeeze (fun c => Ascii.eqb c "-") "-"
           (JsString.squeeze JsString.is_space "-"
              (JsString.keep slug_char (JsString.toLowerCase title))))))%string.

Definition extractIdFromSlug (slug : string) : number :=
  let id := hd EmptyString (JsString.split "-" slug) in
  parseInt_string id.

(** ** The hosted backend *)

Inductive text_column : Type :=
| col_title | col_titleEn | col_location | col_prefectures
| col_thumbnailUrl | col_youtubeUrl | col_completionYears.

Inductive numeric_column : Type :=
| col_lat | col_lng.

Inductive any_column : Type :=
| TextColumn (c : text_column)
| NumericColumn (c : numeric_column).

(** The filter methods of the query builder that the client calls. The
    client hands [or] a single string, [title.ilike.%q%,titleEn.ilike.%q%,...],
    with the query pasted in; [or_ilike] is that string as the API reads it
    when the query holds none of the characters of the filter grammar (comma,
    parentheses, dot, colon, double quote). *)
Inductive clause : Type :=
| or_ilike (alternatives : list (text_column * string))
| in_ (column : text_column) (values : list string)
| not_is_null (column : any_column)
| gte (column : numeric_column) (bound : Q)
| lte (column : numeric_column) (bound : Q).

Module Sql.

Definition text (c : text_column) (r : Row.t) : option string :=
  match c with
  | col_title => Some (Row.title r)
  | col_titleEn => Row.titleEn r
  | col_location => Some (Row.location r)
  | col_prefectures => Row.prefectures r
  | col_thumbnailUrl => Row.thumbnailUrl r
  | col_youtubeUrl => Row.youtubeUrl r
  | col_completionYears => Row.completionYears r
  end.

Definition numeric (c : numeric_column) (r : Row.t) : option Q :=
  match c with
  | col_lat => Row.lat r
  | col_lng => Row.lng r
  end.

Definition is_null (c : any_column) (r : Row.t) : bool :=
  match c with
  | TextColumn c => match text c r with Some _ => false | None => true end
  | NumericColumn c => match numeric c r with Some _ => false | None => true end
  end.

(** [s LIKE p]: [%] matches any sequence, [_] any one character, and a
    backslash takes the next character literally. *)
Fixpoint like (p s : string) : bool :=
  match p with
  | EmptyString => JsString.is_empty s
  | String c p' =>
      if Ascii.eqb c "%" then
        (fix any (s : string) : bool :=
           like p' s ||
           match s with
           | EmptyString => false
           | String _ s' => any s'
           end) s
      else if Ascii.eqb c "_" then
        match s with
        | EmptyString => false
        | String _ s' => like p' s'
        end
      else if Ascii.eqb c "\" then
        match p' with
        | EmptyString => false
        | String c' p'' =>
            match s with
            | EmptyString => false
            | String d s' => Ascii.eqb c' d && like p'' s'
            end
        end
      else
        match s with
        | EmptyString => false
        | String d s' => Ascii.eqb c d && like p' s'
        end
  end.

(** In the pattern of a [like] or [ilike] filter the API reads [*] as [%]. *)
Fixpoint star_to_percent (p : string) : string :=
  match p with
  | EmptyString => EmptyString
  | String c p' =>
      String (if Ascii.eqb c "*" then "%"%char else c) (star_to_percent p')
  end.

(** The [ilike] filter: [s ILIKE p] *)
Definition ilike (p s : string) : bool :=
  like (JsString.toLowerCase (star_to_percent p)) (JsString.toLowerCase s).

(** A row survives a clause when the clause is true on it; a comparison
    with a null column is not true. *)
Definition holds (r : Row.t) (c : clause) : bool :=
  match c with
  | or_ilike alts =>
      existsb (fun '(col, p) =>
                 match text col r with
                 | Some s => ilike p s
                 | None => false
                 end) alts
  | in_ col vs =>
      match text col r with
      | Some s => existsb (String.eqb s) vs
      | None => false
      end
  | not_is_null col => negb (is_null col r)
  | gte col x =>
      match numeric col r with
      | Some y => Qle_bool x y
      | None => false
      end
  | lte col x =>
      match numeric col r with
      | Some y => Qle_bool y x
      | None => false
      end
  end.

(** Ascending order on a nullable text column, nulls last. *)
Definition text_le (a b : option string) : bool :=
  match a, b with
  | Some x, Some y => String.leb x y
  | None, Some _ => false
  | _, None => true
  end.

Fixpoint insert (c : text_column) (r : Row.t) (l : list Row.t) : list Row.t :=
  match l with
  | [] => [r]
  | r' :: l' =>
      if text_le (text c r) (text c r') then r :: l
      else r' :: insert c r l'
  end.

Definition order_by (c : text_column) (l : list Row.t) : list Row.t :=
  fold_right (insert c) [] l.

End Sql.

(** A query on [buildings_table_2] as the builder accumulates it. *)
Record Query : Type := {
  inner_architects : bool;      (* [building_architects!inner(...)] selected *)
  count_exact : bool;           (* [{ count: 'exact' }] *)
  clauses : list clause;
  range_of : option (Z * Z);
  order_of : option text_column;
  limit_of : option nat
}.

(** What awaiting a query or a procedure call resolves to. *)
Record Response : Type := {
  data : option (list Row.t);
  error : option string;
  count : option Z
}.

Record Backend : Type := {
  buildings_table_2 : list Row.t;
  (** [Some message]: the table endpoint answers every query with an error *)
  table_failure : option string;
  (** the [nearby_buildings] procedure *)
  nearby_buildings : Q -> Q -> Q -> Response
}.

Module Builder.

(** [.select(`*, building_architects!inner(architects_table( * )), photos( * )`, options)] *)
Definition select_joined (count : bool) : Query :=
  {| inner_architects := true; count_exact := count; clauses := [];
     range_of := None; order_of := None; limit_of := None |}.

(** [.select(columns)] without an embedded relation *)
Definition select_columns : Query :=
  {| inner_architects := false; count_exact := false; clauses := [];
     range_of := None; order_of := None; limit_of := None |}.

Definition where_ (c : clause) (q : Query) : Query :=
  {| inner_architects := inner_architects q; count_exact := count_exact q;
     clauses := clauses q ++ [c];
     range_of := range_of q; order_of := order_of q; limit_of := limit_of q |}.

Definition range (from to : Z) (q : Query) : Query :=
  {| inner_architects := inner_architects q; count_exact := count_exact q;
     clauses := clauses q;
     range_of := Some (from, to); order_of := order_of q; limit_of := limit_of q |}.

Definition order (c : text_column) (q : Query) : Query :=
  {| inner_architects := inner_architects q; count_exact := count_exact q;
     clauses := clauses q;
     range_of := range_of q; order_of := Some c; limit_of := limit_of q |}.

Definition limit (n : nat) (q : Query) : Query :=
  {| inner_architects := inner_architects q; count_exact := count_exact q;
     clauses := clauses q;
     range_of := range_of q; order_of := order_of q; limit_of := Some n |}.

Definition has_architects (r : Row.t) : bool :=
  match Row.building_architects r with
  | Some (_ :: _) => true
  | _ => false
  end.

(** The rows a query matches, before ordering and paging. *)
Definition matching (be : Backend) (q : Query) : list Row.t :=
  filter (fun r =>
            (if inner_architects q then has_architects r else true)
            && forallb (Sql.holds r) (clauses q))
         (buildings_table_2 be).

(** Rows [from] to [to] inclusive, counted from zero. *)
Definition slice (from to : Z) (l : list Row.t) : list Row.t :=
  firstn (Z.to_nat (to - from + 1)) (skipn (Z.to_nat from) l).

(** Awaiting the query. The count comes back only when it was asked for. *)
Definition run (be : Backend) (q : Query) : Response :=
  match table_failure be with
  | Some message => {| data := None; error := Some message; count := None |}
  | None =>
      let rows := matching be q in
      let ordered :=
        match order_of q with
        | Some c => Sql.order_by c rows
        | None => rows
        end in
      let ranged :=
        match range_of q with
        | Some (from, to) => slice from to ordered
        | None => ordered
        end in
      let limited :=
        match limit_of q with
        | Some n => firstn n ranged
        | None => ranged
        end in
      {| data := Some limited; error := None;
         count := if count_exact q
                  then Some (Z.of_nat (List.length rows)) else None |}
  end.

End Builder.

(** ** The API client: [SupabaseApiClient] *)

(** Modelled from the spec: the [SearchFilters] interface is declared in
    [types.ts], which is not among the sources. The fields are those of the
    data model, which are the fields of the filter objects built in [App.tsx]
    and in [getNearbyBuildings]; [architects], [buildingTypes] and [areas] are
    carried and never read by [searchBuildings]. *)
Module SearchFilters.
Record location : Type := { lat : Q; lng : Q }.
Record t : Type := {
  query : string;
  radius : Q;
  architects : list string;
  buildingTypes : list string;
  prefectures : list string;
  areas : list string;
  hasPhotos : bool;
  hasVideos : bool;
  currentLocation : option location
}.
End SearchFilters.

Record SearchResult : Type := { buildings : list value; total : Z }.

(** [count || 0] *)
Definition count_or_zero (c : option Z) : Z :=
  match c with
  | Some n => if n =? 0 then 0 else n
  | None => 0
  end.

(** [rows?.map(this.transformBuilding) || []] *)
Definition transformAll (now : Clock) (rows : option (list Row.t))
  : result (list value) :=
  match rows with
  | Some l => mapM (transformBuilding now) (map Encode.row l)
  | None => Ok []
  end.

Definition getBuildings (now : Clock) (be : Backend) (page limit : Z)
  : result SearchResult :=
  let start := (page - 1) * limit in
  let end_ := start + limit - 1 in
  let r := Builder.run be
             (Builder.order col_completionYears
                (Builder.range start end_ (Builder.select_joined false))) in
  match error r with
  | Some message => Throw (SupabaseApiError 500 message)
  | None =>
      transformedBuildings <- transformAll now (data r) ;;
      Ok {| buildings := transformedBuildings; total := count_or_zero (count r) |}
  end.

(** The clauses [searchBuildings] adds for a filter value, in order. *)
Definition searchClauses (filters : SearchFilters.t) : list clause :=
  let pattern := ("%" ++ SearchFilters.query filters ++ "%")%string in
  (if JsString.is_empty (JsString.trim (SearchFilters.query filters)) then []
   else [or_ilike [ (col_title, pattern); (col_titleEn, pattern);
                    (col_location, pattern) ]])
  ++ (if (0 <? List.length (SearchFilters.prefectures filters))%nat
      then [in_ col_prefectures (SearchFilters.prefectures filters)] else [])
  ++ (if SearchFilters.hasPhotos filters
      then [not_is_null (TextColumn col_thumbnailUrl)] else [])
  ++ (if SearchFilters.hasVideos filters
      then [not_is_null (TextColumn col_youtubeUrl)] else [])
  ++ match SearchFilters.currentLocation filters with
     | Some loc =>
         let lat := SearchFilters.lat loc in
         let lng := SearchFilters.lng loc in
         let radius := SearchFilters.radius filters in
         [ gte col_lat (lat - radius * (9 # 1000))%Q;
           lte col_lat (lat + radius * (9 # 1000))%Q;
           gte col_lng (lng - radius * (11 # 1000))%Q;
           lte col_lng (lng + radius * (11 # 1000))%Q ]
     | None => []
     end.

Definition searchQuery (filters : SearchFilters.t) : Query :=
  Builder.order col_completionYears
    (fold_left (fun q c => Builder.where_ c q) (searchClauses filters)
               (Builder.select_joined true)).

Definition searchBuildings (now : Clock) (be : Backend) (filters : SearchFilters.t)
  : result SearchResult :=
  let r := Builder.run be (searchQuery filters) in
  match error r with
  | Some message => Throw (SupabaseApiError 500 message)
  | None =>
      transformedBuildings <- transformAll now (data r) ;;
      Ok {| buildings := transformedBuildings; total := count_or_zero (count r) |}
  end.

(** The filter value of the fallback in [getNearbyBuildings]. *)
Definition nearbyFallback (lat lng radius : Q) : SearchFilters.t :=
  {| SearchFilters.query := EmptyString;
     SearchFilters.radius := radius;
     SearchFilters.architects := [];
     SearchFilters.buildingTypes := [];
     SearchFilters.prefectures := [];
     SearchFilters.areas := [];
     SearchFilters.hasPhotos := false;
     SearchFilters.hasVideos := false;
     SearchFilters.currentLocation :=
       Some {| SearchFilters.lat := lat; SearchFilters.lng := lng |} |}.

Definition getNearbyBuildings (now : Clock) (be : Backend) (lat lng radius : Q)
  : result (list value) :=
  let r := nearby_buildings be lat lng radius in
  match error r with
  | Some _ =>
      result_ <- searchBuildings now be (nearbyFallback lat lng radius) ;;
      Ok (buildings result_)
  | None => transformAll now (data r)
  end.

(** [Set.prototype.add] on a set kept in insertion order. *)
Definition set_add (s : string) (suggestions : list string) : list string :=
  if existsb (String.eqb s) suggestions then suggestions
  else suggestions ++ [s].

(** The body of [data?.forEach(item => ...)]. *)
Definition collectSuggestion (query : string) (suggestions : list string)
           (item : Row.t) : list string :=
  let q := JsString.toLowerCase query in
  let s1 :=
    if JsString.includes (JsString.toLowerCase (Row.title item)) q
    then set_add (Row.title item) suggestions else suggestions in
  match Row.titleEn item with
  | Some titleEn =>
      if JsString.includes (JsString.toLowerCase titleEn) q
      then set_add titleEn s1 else s1
  | None => s1
  end.

Definition suggestionQuery (query : string) : Query :=
  let pattern := ("%" ++ query ++ "%")%string in
  Builder.limit 10
    (Builder.where_ (or_ilike [ (col_title, pattern); (col_titleEn, pattern) ])
                    Builder.select_columns).

Definition getSearchSuggestions (be : Backend) (query : string) : list string :=
  let r := Builder.run be (suggestionQuery query) in
  match error r with
  | Some _ => []
  | None =>
      match data r with
      | Some rows => fold_left (collectSuggestion query) rows []
      | None => []
      end
  end.

Record HealthStatus : Type := { status : string; database : string }.

Definition healthCheck (be : Backend) : result HealthStatus :=
  let r := Builder.run be (Builder.limit 1 Builder.select_columns) in
  match error r with
  | Some _ => Throw (SupabaseApiError 500 "Database connection failed")
  | None => Ok {| status := "ok"; database := "supabase" |}
  end.

(** ** The availability toggle: [useSupabaseToggle] *)

Module Toggle.

Inductive ApiStatus : Type := checking | available | unavailable.

(** The two pieces of hook state, whether the effect is due to run (after
    mounting and after every change of [useApi]), and the number of health
    checks issued so far. *)
Record State : Type := {
  useApi : bool;
  apiStatus : ApiStatus;
  effect_due : bool;
  probes : nat
}.

(** Mounting: [useApi] starts from [VITE_USE_SUPABASE === 'true']. *)
Definition mount (useSupabase : bool) : State :=
  {| useApi := useSupabase; apiStatus := checking;
     effect_due := true; probes := 0 |}.

(** [checkApiStatus], given what the health check does if it is issued. *)
Definition checkApiStatus (probe : result HealthStatus) (s : State) : State :=
  if negb (useApi s) then
    {| useApi := useApi s; apiStatus := unavailable;
       effect_due := false; probes := probes s |}
  else
    match probe with
    | Ok _ =>
        {| useApi := true; apiStatus := available;
           effect_due := false; probes := S (probes s) |}
    | Throw _ =>
        (* [setUseApi(false)] changes the dependency: the effect is due again *)
        {| useApi := false; apiStatus := unavailable;
           effect_due := true; probes := S (probes s) |}
    end.

Inductive Event : Type :=
| RunEffect (probe : result HealthStatus)  (* React runs the pending effect *)
| SetUseApi (b : bool).                    (* the caller uses [setUseApi] *)

Definition step (s : State) (e : Event) : State :=
  match e with
  | RunEffect probe => if effect_due s then checkApiStatus probe s else s
  | SetUseApi b =>
      if Bool.eqb b (useApi s) then s
      else {| useApi := b; apiStatus := apiStatus s;
              effect_due := true; probes := probes s |}
  end.

Definition run (s : State) (es : list Event) : State := fold_left step es s.


Definition isApiAvailable (s : State) : bool :=
  match apiStatus s with available => true | _ => false end.

End Toggle.

(** The same hook with the health check awaited: the effect starts
    [checkApiStatus], which returns at its [await] with the status untouched,
    and the outcome of the health check arrives as an event of its own, so
    that [setUseApi] calls and further runs of the effect can come in
    between. Nothing cancels a check that is under way. *)
Module AsyncToggle.

Record State : Type := {
  hook : Toggle.State;
  awaited : nat  (* health checks started and not yet settled *)
}.

Definition mount (useSupabase : bool) : State :=
  {| hook := Toggle.mount useSupabase; awaited := 0 |}.

Inductive Event : Type :=
| RunEffect                             (* React runs the pending effect *)
| Settle (probe : result HealthStatus)  (* an awaited health check settles *)
| SetUseApi (b : bool).                 (* the caller uses [setUseApi] *)

Definition step (s : State) (e : Event) : State :=
  let h := hook s in
  match e with
  | RunEffect =>
      if Toggle.effect_due h then
        if negb (Toggle.useApi h) then
          {| hook := {| Toggle.useApi := Toggle.useApi h;
                        Toggle.apiStatus := Toggle.unavailable;
                        Toggle.effect_due := false;
                        Toggle.probes := Toggle.probes h |};
             awaited := awaited s |}
        else
          {| hook := {| Toggle.useApi := Toggle.useApi h;
                        Toggle.apiStatus := Toggle.apiStatus h;
                        Toggle.effect_due := false;
                        Toggle.probes := S (Toggle.probes h) |};
             awaited := S (awaited s) |}
      else s
  | Settle probe =>
      match awaited s with
      | O => s
      | S n =>
          match probe with
          | Ok _ =>
              {| hook := {| Toggle.useApi := Toggle.useApi h;
                            Toggle.apiStatus := Toggle.available;
                            Toggle.effect_due := Toggle.effect_due h;
                            Toggle.probes := Toggle.probes h |};
                 awaited := n |}
          | Throw _ =>
              (* [setUseApi(false)] changes the dependency if it was on *)
              {| hook := {| Toggle.useApi := false;
                            Toggle.apiStatus := Toggle.unavailable;
                            Toggle.effect_due := Toggle.useApi h || Toggle.effect_due h;
                            Toggle.probes := Toggle.probes h |};
                 awaited := n |}
          end
      end
  | SetUseApi b =>
      {| hook := Toggle.step h (Toggle.SetUseApi b); awaited := awaited s |}
  end.

Definition run (s : State) (es : list Event) : State := fold_left step es s.

(** Nothing is pending: no run of the effect and no health check. *)
Definition settled (s : State) : bool :=
  negb (Toggle.effect_due (hook s)) && Nat.eqb (awaited s) 0.

(** What the status says is backed by what is pending: [checking] by a run
    of the effect or a health check to come, [useApi] on by a health check
    under way or by an available API. *)
Definition invariant (s : State) : Prop :=
  (Toggle.apiStatus (hook s) = Toggle.checking ->
   Toggle.effect_due (hook s) = true \/ (1 <= awaited s)%nat)
  /\ (Toggle.effect_due (hook s) = false ->
      Toggle.useApi (hook s) = true ->
      (1 <= awaited s)%nat \/ Toggle.apiStatus (hook s) = Toggle.available).

End AsyncToggle.

(** ** The local path: [searchBuildings] of [utils/search] *)

Module Local.

Definition contains_ci (field q : string) : bool :=
  JsString.includes (JsString.toLowerCase field) (JsString.toLowerCase q).

(** Modelled from the spec: [utils/search.ts], which holds the in-memory
    [searchBuildings(buildings, filters)] called on the mock dataset, is not
    among the sources. The predicate follows the rules of the Filter
    Compiler, applied conjunctively: the trimmed free-text query, when not
    empty, is a case-insensitive substring of the title, the English title
    or the location; a non-empty prefecture set contains the building's
    prefecture; [hasPhotos] and [hasVideos] require a non-empty thumbnail
    and video reference; a current location keeps the latitude within
    [radius * 0.009] and the longitude within [radius * 0.011] of it. *)
Definition predicate (filters : SearchFilters.t) (b : Building.t) : bool :=
  let q := JsString.trim (SearchFilters.query filters) in
  (if JsString.is_empty q then true
   else contains_ci (Building.title b) q
        || contains_ci (Building.titleEn b) q
        || contains_ci (Building.location b) q)
  && (if (0 <? List.length (SearchFilters.prefectures filters))%nat then
        match Building.prefectures b with
        | Some p => existsb (String.eqb p) (SearchFilters.prefectures filters)
        | None => false
        end
      else true)
  && (if SearchFilters.hasPhotos filters
      then negb (JsString.is_empty (Building.thumbnailUrl b)) else true)
  && (if SearchFilters.hasVideos filters
      then negb (JsString.is_empty (Building.youtubeUrl b)) else true)
  && match SearchFilters.currentLocation filters with
     | Some loc =>
         let lat := SearchFilters.lat loc in
         let lng := SearchFilters.lng loc in
         let radius := SearchFilters.radius filters in
         Qle_bool (lat - radius * (9 # 1000))%Q (Building.lat b)
         && Qle_bool (Building.lat b) (lat + radius * (9 # 1000))%Q
         && Qle_bool (lng - radius * (11 # 1000))%Q (Building.lng b)
         && Qle_bool (Building.lng b) (lng + radius * (11 # 1000))%Q
     | None => true
     end.

(** Modelled from the spec: the local path keeps the buildings on which
    the predicate holds. *)
Definition searchBuildings (buildings : list Building.t)
           (filters : SearchFilters.t) : list Building.t :=
  filter (predicate filters) buildings.

End Local.

(** [xs.slice(from, to)] *)
Definition js_slice {A : Type} (from to : Z) (xs : list A) : list A :=
  let len := Z.of_nat (List.length xs) in
  let clamp i := if i <? 0 then Z.max (len + i) 0 else Z.min i len in
  firstn (Z.to_nat (clamp to - clamp from)) (skipn (Z.to_nat (clamp from)) xs).

(** The mock branch of [fetchBuildings] in [useSupabaseBuildings]: the
    requested page of the locally filtered mock data, and the number of
    buildings the filter keeps. *)
Definition fetchBuildingsMock (mockBuildings : list Building.t)
           (filters : SearchFilters.t) (page limit : Z)
  : list Building.t * Z :=
  let filtered := Local.searchBuildings mockBuildings filters in
  let startIndex := (page - 1) * limit in
  let paginatedResults := js_slice startIndex (startIndex + limit) filtered in
  (paginatedResults, Z.of_nat (List.length filtered)).

(** The two paths of the Filter Compiler on one dataset: the ids that
    [searchBuildings] returns from a backend holding the rows, and the ids
    the local predicate keeps among the same rows once normalized. *)
Definition dataset (rows : list Row.t) : Backend :=
  {| buildings_table_2 := rows;
     table_failure := None;
     nearby_buildings := fun _ _ _ =>
       {| data := None; error := Some "function not found"; count := None |} |}.

Definition remoteIds (now : Clock) (rows : list Row.t)
           (filters : SearchFilters.t) : list value :=
  match searchBuildings now (dataset rows) filters with
  | Ok r => map (Js.get "id") (buildings r)
  | Throw _ => []
  end.

Definition localIds (now : Clock) (rows : list Row.t)
           (filters : SearchFilters.t) : list value :=
  map (fun b => Js.get "id" (Encode.building b))
      (Local.searchBuildings (map (Typed.transformBuilding now) rows) filters).

(** ** Auxiliary notions used in the statements and proofs *)

Module Aux.
Import JsString Digits.

Fixpoint all_digits (s : string) : bool :=
  match s with
  | EmptyString => true
  | String c s' => is_digit c && all_digits s'
  end.

(** The integer a little-endian digit list stands for. *)
Fixpoint val_le (ds : list Z) : Z :=
  match ds with
  | [] => 0
  | d :: ds' => d + 10 * val_le ds'
  end.

Definition render_onto (ds : list Z) (acc : string) : string :=
  fold_left (fun acc d => String (digit_char d) acc) ds acc.

(** Shapes of raw JSON rows. A taxonomy column holds text or null; an
    element of the [building_architects] join carries its architect. *)
Definition absent (v : value) : bool :=
  match v with VUndefined | VNull => true | _ => false end.

Definition text_or_null (v : value) : bool :=
  match v with VStr _ | VNull | VUndefined => true | _ => false end.

Definition join_shaped (ba : value) : bool :=
  negb (absent ba) && negb (absent (Js.get "architects_table" ba)).

Definition relation_shaped (v : value) : bool :=
  match v with
  | VUndefined | VNull => true
  | VArr l => forallb join_shaped l
  | _ => false
  end.

Definition row_shaped (data : value) : bool :=
  match data with
  | VObj _ =>
      text_or_null (Js.get "parentBuildingTypes" data)
      && text_or_null (Js.get "buildingTypes" data)
      && text_or_null (Js.get "parentStructures" data)
      && text_or_null (Js.get "structures" data)
      && relation_shaped (Js.get "building_architects" data)
  | _ => false
  end.

(** Characters with a meaning of their own in a LIKE pattern. *)
Definition wildcard (c : ascii) : bool :=
  Ascii.eqb c "%" || Ascii.eqb c "_" || Ascii.eqb c "\".

Fixpoint no_wildcard (s : string) : bool :=
  match s with
  | EmptyString => true
  | String c s' => negb (wildcard c) && no_wildcard s'
  end.

(** Characters that the pattern, or the grammar of the [or(...)] filter
    string into which the query is pasted, gives a meaning to. *)
Definition reserved (c : ascii) : bool :=
  wildcard c || Ascii.eqb c "*" || Ascii.eqb c "," || Ascii.eqb c "("
  || Ascii.eqb c ")" || Ascii.eqb c "." || Ascii.eqb c ":" || Ascii.eqb c "034".

Fixpoint no_reserved (s : string) : bool :=
  match s with
  | EmptyString => true
  | String c s' => negb (reserved c) && no_reserved s'
  end.

(** A query that is already trimmed and is free of reserved characters. *)
Definition plain_query (q : string) : bool :=
  String.eqb (JsString.trim q) q && no_reserved q.

Definition not_empty_text (o : option string) : bool :=
  match o with
  | Some s => negb (JsString.is_empty s)
  | None => true
  end.

Definition not_null {A : Type} (o : option A) : bool :=
  match o with Some _ => true | None => false end.

(** A row on which the remote clauses and the local predicate can be
    compared for a filter value: it has an architect to join; when the photo
    or video filter is set, its thumbnail or video reference is not the empty
    string; when a location is given, its coordinates are not null. *)
Definition comparable (filters : SearchFilters.t) (r : Row.t) : bool :=
  Builder.has_architects r
  && (if SearchFilters.hasPhotos filters
      then not_empty_text (Row.thumbnailUrl r) else true)
  && (if SearchFilters.hasVideos filters
      then not_empty_text (Row.youtubeUrl r) else true)
  && match SearchFilters.currentLocation filters with
     | Some _ => not_null (Row.lat r) && not_null (Row.lng r)
     | None => true
     end.

(** The rows the clauses of [searchBuildings] keep. *)
Definition remote_keeps (filters : SearchFilters.t) (r : Row.t) : bool :=
  Builder.has_architects r && forallb (Sql.holds r) (searchClauses filters).

End Aux.
Import Aux.

(** ** Sample data *)

Module Sample.

Definition now : Clock :=
  {| getFullYear := 2026; toISOString := "2026-11-03T00:00:00.000Z" |}.

Definition ando : ArchitectRow.t :=
  {| ArchitectRow.architect_id := 1;
     ArchitectRow.architectJa := "Ando Tadao";
     ArchitectRow.architectEn := EmptyString |}.

Definition photo1 : PhotoRow.t :=
  {| PhotoRow.id := 5; PhotoRow.building_id := 42;
     PhotoRow.url := "https://example.org/p/5.jpg";
     PhotoRow.thumbnail_url := "https://example.org/p/5_t.jpg";
     PhotoRow.likes := 3; PhotoRow.created_at := "2024-02-02" |}.

(** A complete row that carries both relations. *)
Definition church : Row.t :=
  {| Row.building_id := 42; Row.uid := "b-42";
     Row.title := "Church of the Light"; Row.titleEn := Some "Church of the Light";
     Row.thumbnailUrl := Some "https://example.org/t/42.jpg";
     Row.youtubeUrl := None;
     Row.completionYears := Some "1989";
     Row.parentBuildingTypes := Some "religious";
     Row.buildingTypes := Some "church, chapel";
     Row.parentStructures := None; Row.structures := Some "RC";
     Row.prefectures := Some "Osaka"; Row.areas := "Ibaraki";
     Row.location := "Ibaraki, Osaka"; Row.architectDetails := None;
     Row.lat := Some (348 # 10); Row.lng := Some (1355 # 10);
     Row.created_at := "2024-01-01"; Row.updated_at := "2024-01-02";
     Row.building_architects := Some [ando];
     Row.photos := Some [photo1] |}.

(** A row missing [titleEn], [completionYears], [lat] and [lng], whose
    thumbnail is the empty string. *)
Definition bare : Row.t :=
  {| Row.building_id := 7; Row.uid := "b-7";
     Row.title := "Museum"; Row.titleEn := None;
     Row.thumbnailUrl := Some EmptyString;
     Row.youtubeUrl := None;
     Row.completionYears := None;
     Row.parentBuildingTypes := None;
     Row.buildingTypes := None;
     Row.parentStructures := None; Row.structures := None;
     Row.prefectures := None; Row.areas := "Naoshima";
     Row.location := "Kagawa"; Row.architectDetails := None;
     Row.lat := None; Row.lng := None;
     Row.created_at := "2024-01-01"; Row.updated_at := "2024-01-02";
     Row.building_architects := Some [ando];
     Row.photos := None |}.

(** The same row with a null thumbnail: it normalizes to the same Building. *)
Definition bare_null : Row.t :=
  {| Row.building_id := 7; Row.uid := "b-7";
     Row.title := "Museum"; Row.titleEn := None;
     Row.thumbnailUrl := None;
     Row.youtubeUrl := None;
     Row.completionYears := None;
     Row.parentBuildingTypes := None;
     Row.buildingTypes := None;
     Row.parentStructures := None; Row.structures := None;
     Row.prefectures := None; Row.areas := "Naoshima";
     Row.location := "Kagawa"; Row.architectDetails := None;
     Row.lat := None; Row.lng := None;
     Row.created_at := "2024-01-01"; Row.updated_at := "2024-01-02";
     Row.building_architects := Some [ando];
     Row.photos := None |}.

(** A Building as the UI holds it. *)
Definition building : Building.t :=
  {| Building.id := 42; Building.uid := "b-42";
     Building.title := "Church of the Light"; Building.titleEn := "Church of the Light";
     Building.thumbnailUrl := EmptyString; Building.youtubeUrl := EmptyString;
     Building.completionYears := 1989;
     Building.parentBuildingTypes := []; Building.buildingTypes := ["church"];
     Building.parentStructures := []; Building.structures := [];
     Building.prefectures := Some "Osaka"; Building.areas := "Ibaraki";
     Building.location := "Ibaraki, Osaka"; Building.architectDetails := EmptyString;
     Building.lat := 0; Building.lng := 0;
     Building.architects := []; Building.photos := []; Building.likes := 0;
     Building.created_at := "2024-01-01"; Building.updated_at := "2024-01-01" |}.

(** The same Building under another id: 2^64, which prints with rounded
    digits, and 10^21, the first id printed in exponent notation. *)
Definition numbered (id : Z) : Building.t :=
  {| Building.id := id; Building.uid := Building.uid building;
     Building.title := Building.title building;
     Building.titleEn := Building.titleEn building;
     Building.thumbnailUrl := Building.thumbnailUrl building;
     Building.youtubeUrl := Building.youtubeUrl building;
     Building.completionYears := Building.completionYears building;
     Building.parentBuildingTypes := Building.parentBuildingTypes building;
     Building.buildingTypes := Building.buildingTypes building;
     Building.parentStructures := Building.parentStructures building;
     Building.structures := Building.structures building;
     Building.prefectures := Building.prefectures building;
     Building.areas := Building.areas building;
     Building.location := Building.location building;
     Building.architectDetails := Building.architectDetails building;
     Building.lat := Building.lat building; Building.lng := Building.lng building;
     Building.architects := Building.architects building;
     Building.photos := Building.photos building;
     Building.likes := Building.likes building;
     Building.created_at := Building.created_at building;
     Building.updated_at := Building.updated_at building |}.

Definition huge : Building.t := numbered (2 ^ 64).

Definition sextillion : Building.t := numbered (10 ^ 21).

(** A backend holding the two rows, and one whose endpoints all fail. *)
Definition store : Backend := dataset [church; bare].

Definition failed (message : string) : Response :=
  {| data := None; error := Some message; count := None |}.

Definition down : Backend :=
  {| buildings_table_2 := [church; bare];
     table_failure := Some "connection refused";
     nearby_buildings := fun _ _ _ => failed "connection refused" |}.

Definition titled (id : Z) (title titleEn : string) : Row.t :=
  {| Row.building_id := id; Row.uid := "b";
     Row.title := title; Row.titleEn := Some titleEn;
     Row.thumbnailUrl := None; Row.youtubeUrl := None;
     Row.completionYears := None;
     Row.parentBuildingTypes := None; Row.buildingTypes := None;
     Row.parentStructures := None; Row.structures := None;
     Row.prefectures := None; Row.areas := "a";
     Row.location := "l"; Row.architectDetails := None;
     Row.lat := None; Row.lng := None;
     Row.created_at := "2024-01-01"; Row.updated_at := "2024-01-02";
     Row.building_architects := Some [ando];
     Row.photos := None |}.

(** Six rows whose twelve titles are distinct and all contain [x]. *)
Definition six : Backend :=
  dataset [ titled 1 "ax1" "bx1"; titled 2 "ax2" "bx2"; titled 3 "ax3" "bx3";
            titled 4 "ax4" "bx4"; titled 5 "ax5" "bx5"; titled 6 "ax6" "bx6" ].

(** A filter value with a free-text query, the photo flag and a centre. *)
Definition filtering (query : string) (hasPhotos : bool)
           (centre : option SearchFilters.location) : SearchFilters.t :=
  {| SearchFilters.query := query;
     SearchFilters.radius := 5;
     SearchFilters.architects := [];
     SearchFilters.buildingTypes := [];
     SearchFilters.prefectures := [];
     SearchFilters.areas := [];
     SearchFilters.hasPhotos := hasPhotos;
     SearchFilters.hasVideos := false;
     SearchFilters.currentLocation := centre |}.

Definition photosOnly : SearchFilters.t := filtering EmptyString true None.

(** Photos in Osaka: a free-text query together with the photo filter. *)
Definition osakaPhotos : SearchFilters.t := filtering "osaka" true None.

Definition origin : SearchFilters.location :=
  {| SearchFilters.lat := 0; SearchFilters.lng := 0 |}.

(** The church without its architect relation. *)
Definition orphan : Row.t :=
  {| Row.building_id := 42; Row.uid := "b-42";
     Row.title := "Church of the Light"; Row.titleEn := Some "Church of the Light";
     Row.thumbnailUrl := Some "https://example.org/t/42.jpg";
     Row.youtubeUrl := None;
     Row.completionYears := Some "1989";
     Row.parentBuildingTypes := Some "religious";
     Row.buildingTypes := Some "church, chapel";
     Row.parentStructures := None; Row.structures := Some "RC";
     Row.prefectures := Some "Osaka"; Row.areas := "Ibaraki";
     Row.location := "Ibaraki, Osaka"; Row.architectDetails := None;
     Row.lat := Some (348 # 10); Row.lng := Some (1355 # 10);
     Row.created_at := "2024-01-01"; Row.updated_at := "2024-01-02";
     Row.building_architects := Some [];
     Row.photos := Some [photo1] |}.

End Sample.

(** ** The rest of the client *)

(** [.eq('building_id', id)]: the clause keeps the rows with that key. Clauses
    are conjunctive, so it is modelled on the table side: the rest of the
    query sees only the rows it keeps. *)
Definition eq_building_id (id : Z) (be : Backend) : Backend :=
  {| buildings_table_2 :=
       filter (fun r => Row.building_id r =? id) (buildings_table_2 be);
     table_failure := table_failure be;
     nearby_buildings := nearby_buildings be |}.

(** What awaiting a query closed by [.single()] resolves to. *)
Record SingleResponse : Type := {
  single_data : option Row.t;
  single_error : option string
}.

(** The message of the API when the rows are not exactly one. *)
Definition not_single : string :=
  "JSON object requested, multiple (or no) rows returned".

(** [.single()]: the row when exactly one matches, an error otherwise. *)
Definition single (r : Response) : SingleResponse :=
  match error r with
  | Some message => {| single_data := None; single_error := Some message |}
  | None =>
      match data r with
      | Some [row] => {| single_data := Some row; single_error := None |}
      | _ => {| single_data := None; single_error := Some not_single |}
      end
  end.

Definition getBuildingById (now : Clock) (be : Backend) (id : Z) : result value :=
  let r := single (Builder.run (eq_building_id id be) (Builder.select_joined false)) in
  match single_error r with
  | Some message => Throw (SupabaseApiError 404 message)
  | None =>
      match single_data r with
      | Some building => transformBuilding now (Encode.row building)
      | None => transformBuilding now VNull
      end
  end.

(** ** The data hook: [useSupabaseBuildings] *)

Module UseBuildings.

Definition result_buildings (r : SearchResult) : list value := buildings r.
Definition result_total (r : SearchResult) : Z := total r.

(** The state of the hook. *)
Record State : Type := {
  buildings : list value;
  loading : bool;
  error : option string;
  total : Z
}.

Definition initial : State :=
  {| buildings := []; loading := false; error := None; total := 0 |}.

(** [fetchBuildings]: the state the hook is left in once the call has
    settled. [mockBuildings] is the dataset of [data/mockData]. *)
Definition fetchBuildings (now : Clock) (be : Backend)
           (mockBuildings : list Building.t) (filters : SearchFilters.t)
           (page limit : Z) (useApi : bool) (s : State) : State :=
  let '(paginatedResults, filtered_length) :=
    fetchBuildingsMock mockBuildings filters page limit in
  if negb useApi then
    {| buildings := map Encode.building paginatedResults;
       loading := loading s; error := error s; total := filtered_length |}
  else
    let attempt :=
      if negb (JsString.is_empty (SearchFilters.query filters))
         || (0 <? List.length (SearchFilters.buildingTypes filters))%nat
         || (0 <? List.length (SearchFilters.prefectures filters))%nat
      then searchBuildings now be filters
      else getBuildings now be page limit in
    match attempt with
    | Ok result_ =>
        {| buildings := result_buildings result_; loading := false;
           error := None; total := result_total result_ |}
    | Throw (SupabaseApiError _ message) =>
        {| buildings := map Encode.building paginatedResults; loading := false;
           error := Some ("Supabase API Error: " ++ message)%string;
           total := filtered_length |}
    | Throw _ =>
        {| buildings := buildings s; loading := false;
           error := Some "Unknown error occurred"; total := total s |}
    end.

End UseBuildings.

(** ** The home page: [HomePage] *)

Module SearchHistory.
Record t : Type := { query : string; searchedAt : string; count : Z }.
End SearchHistory.

Module LikedBuilding.
Record t : Type := { id : Z; title : string; titleEn : string; likedAt : string }.
End LikedBuilding.

Module Home.

Definition itemsPerPage : Z := 10.

(** [xs.findIndex(p)], [None] for [-1]. *)
Fixpoint findIndex {A : Type} (p : A -> bool) (xs : list A) : option nat :=
  match xs with
  | [] => None
  | x :: xs' =>
      if p x then Some O
      else match findIndex p xs' with
           | Some i => Some (S i)
           | None => None
           end
  end.

(** [updated[i] = f(updated[i])] on a copy of the array *)
Fixpoint update_at {A : Type} (i : nat) (f : A -> A) (xs : list A) : list A :=
  match xs, i with
  | [], _ => []
  | x :: xs', O => f x :: xs'
  | x :: xs', S j => x :: update_at j f xs'
  end.

(** The search-history part of the filter effect. *)
Definition recordSearch (now : Clock) (filters : SearchFilters.t)
           (searchHistory : list SearchHistory.t) : list SearchHistory.t :=
  if JsString.is_empty (JsString.trim (SearchFilters.query filters)) then searchHistory
  else
    match findIndex (fun h => String.eqb (SearchHistory.query h)
                                         (SearchFilters.query filters))
                    searchHistory with
    | Some existingIndex =>
        update_at existingIndex
          (fun h => {| SearchHistory.query := SearchHistory.query h;
                       SearchHistory.searchedAt := toISOString now;
                       SearchHistory.count := SearchHistory.count h + 1 |})
          searchHistory
    | None =>
        {| SearchHistory.query := SearchFilters.query filters;
           SearchHistory.searchedAt := toISOString now;
           SearchHistory.count := 1 |}
        :: firstn 19 searchHistory
    end.

(** [{ ...building, likes: n }] *)
Definition with_likes (b : Building.t) (n : Z) : Building.t :=
  {| Building.id := Building.id b; Building.uid := Building.uid b;
     Building.title := Building.title b; Building.titleEn := Building.titleEn b;
     Building.thumbnailUrl := Building.thumbnailUrl b;
     Building.youtubeUrl := Building.youtubeUrl b;
     Building.completionYears := Building.completionYears b;
     Building.parentBuildingTypes := Building.parentBuildingTypes b;
     Building.buildingTypes := Building.buildingTypes b;
     Building.parentStructures := Building.parentStructures b;
     Building.structures := Building.structures b;
     Building.prefectures := Building.prefectures b;
     Building.areas := Building.areas b; Building.location := Building.location b;
     Building.architectDetails := Building.architectDetails b;
     Building.lat := Building.lat b; Building.lng := Building.lng b;
     Building.architects := Building.architects b;
     Building.photos := Building.photos b;
     Building.likes := n;
     Building.created_at := Building.created_at b;
     Building.updated_at := Building.updated_at b |}.

(** [{ ...building, photos: ps }] *)
Definition with_photos (b : Building.t) (ps : list PhotoRow.t) : Building.t :=
  {| Building.id := Building.id b; Building.uid := Building.uid b;
     Building.title := Building.title b; Building.titleEn := Building.titleEn b;
     Building.thumbnailUrl := Building.thumbnailUrl b;
     Building.youtubeUrl := Building.youtubeUrl b;
     Building.completionYears := Building.completionYears b;
     Building.parentBuildingTypes := Building.parentBuildingTypes b;
     Building.buildingTypes := Building.buildingTypes b;
     Building.parentStructures := Building.parentStructures b;
     Building.structures := Building.structures b;
     Building.prefectures := Building.prefectures b;
     Building.areas := Building.areas b; Building.location := Building.location b;
     Building.architectDetails := Building.architectDetails b;
     Building.lat := Building.lat b; Building.lng := Building.lng b;
     Building.architects := Building.architects b;
     Building.photos := ps;
     Building.likes := Building.likes b;
     Building.created_at := Building.created_at b;
     Building.updated_at := Building.updated_at b |}.

(** [{ ...photo, likes: n }] *)
Definition photo_with_likes (p : PhotoRow.t) (n : Z) : PhotoRow.t :=
  {| PhotoRow.id := PhotoRow.id p; PhotoRow.building_id := PhotoRow.building_id p;
     PhotoRow.url := PhotoRow.url p; PhotoRow.thumbnail_url := PhotoRow.thumbnail_url p;
     PhotoRow.likes := n; PhotoRow.created_at := PhotoRow.created_at p |}.

(** The two pieces of page state the handlers below write. *)
Record Lists : Type := {
  likedBuildings : list LikedBuilding.t;
  filteredBuildings : list Building.t
}.

Definition handleLike (now : Clock) (useApi : bool) (buildings : list Building.t)
           (buildingId : Z) (s : Lists) : Lists :=
  let liked :=
    match find (fun b => Building.id b =? buildingId) buildings with
    | Some building =>
        match find (fun l => LikedBuilding.id l =? buildingId) (likedBuildings s) with
        | Some _ => likedBuildings s
        | None =>
            {| LikedBuilding.id := Building.id building;
               LikedBuilding.title := Building.title building;
               LikedBuilding.titleEn := Building.titleEn building;
               LikedBuilding.likedAt := toISOString now |}
            :: likedBuildings s
        end
    | None => likedBuildings s
    end in
  {| likedBuildings := liked;
     filteredBuildings :=
       if negb useApi then
         map (fun building =>
                if Building.id building =? buildingId
                then with_likes building (Building.likes building + 1)
                else building)
             (filteredBuildings s)
       else filteredBuildings s |}.

Definition handlePhotoLike (useApi : bool) (photoId : Z)
           (filteredBuildings : list Building.t) : list Building.t :=
  if negb useApi then
    map (fun building =>
           with_photos building
             (map (fun photo =>
                     if PhotoRow.id photo =? photoId
                     then photo_with_likes photo (PhotoRow.likes photo + 1)
                     else photo)
                  (Building.photos building)))
        filteredBuildings
  else filteredBuildings.

(** [confirmed] is the answer to [window.confirm]. *)
Definition handleDeleteBuilding (confirmed useApi : bool) (id : Z)
           (filteredBuildings : list Building.t) : list Building.t :=
  if confirmed then
    if negb useApi
    then filter (fun building => negb (Building.id building =? id)) filteredBuildings
    else filteredBuildings
  else filteredBuildings.

(** [Math.ceil(n / itemsPerPage)] on integers *)
Definition totalPages (useApi : bool) (totalBuildings : Z)
           (filteredBuildings : list Building.t) : Z :=
  let n := if useApi then totalBuildings
           else Z.of_nat (List.length filteredBuildings) in
  - ((- n) / itemsPerPage).

Definition currentBuildings (useApi : bool) (currentPage : Z)
           (filteredBuildings : list Building.t) : list Building.t :=
  let startIndex := (currentPage - 1) * itemsPerPage in
  if useApi then filteredBuildings
  else js_slice startIndex (startIndex + itemsPerPage) filteredBuildings.

End Home.

(** ** The detail page: [BuildingDetailPage] *)

Module Detail.

(** [b.id === n] for an integer id and a number *)
Definition id_is (id : Z) (n : number) : bool :=
  match n with
  | Fin q => Qeq_bool (inject_Z id) q
  | _ => false
  end.

(** [location.state?.building || (slug ? buildings.find(...) : null)] *)
Definition resolve (state : option Building.t) (slug : option string)
           (buildings : list Building.t) : option Building.t :=
  match state with
  | Some building => Some building
  | None =>
      match slug with
      | Some s =>
          if JsString.is_empty s then None
          else find (fun b => id_is (Building.id b) (extractIdFromSlug s)) buildings
      | None => None
      end
  end.

(** [buildings.findIndex(b => b.id === building.id) + 1] *)
Definition displayIndex (buildings : list Building.t) (building : Building.t) : Z :=
  match Home.findIndex (fun b => Building.id b =? Building.id building) buildings with
  | Some i => Z.of_nat i + 1
  | None => -1 + 1
  end.

End Detail.

(** ** Further notions used in the statements *)

Module Notions.

(** Every character of the string is in the class. *)
Fixpoint string_forall (p : ascii -> bool) (s : string) : bool :=
  match s with
  | EmptyString => true
  | String c s' => p c && string_forall p s'
  end.

Definition starts_with_digit (s : string) : bool :=
  match s with
  | EmptyString => false
  | String c _ => JsString.is_digit c
  end.

(** The characters of a slug: lower-case letters, digits and the dash. *)
Definition slug_safe (c : ascii) : bool :=
  JsString.is_lower c || JsString.is_digit c || Ascii.eqb c "-".

(** The page numbers [1..k]. *)
Definition pages (k : nat) : list Z := map Z.of_nat (seq 1 k).

(** The buildings on a page of the listing, none when the call throws. *)
Definition page_items (now : Clock) (be : Backend) (limit page : Z) : list value :=
  match getBuildings now be page limit with
  | Ok r => buildings r
  | Throw _ => []
  end.

(** The table in the order and with the join of the listing query. *)
Definition listing (be : Backend) : list Row.t :=
  Sql.order_by col_completionYears
    (filter Builder.has_architects (buildings_table_2 be)).

(** The filter fields that [searchBuildings] reads are all unset. *)
Definition unconstrained (filters : SearchFilters.t) : bool :=
  JsString.is_empty (JsString.trim (SearchFilters.query filters))
  && negb (0 <? List.length (SearchFilters.prefectures filters))%nat
  && negb (SearchFilters.hasPhotos filters)
  && negb (SearchFilters.hasVideos filters)
  && match SearchFilters.currentLocation filters with
     | Some _ => false
     | None => true
     end.

(** The filter fields that route [fetchBuildings] to the search are unset. *)
Definition routed_to_listing (filters : SearchFilters.t) : bool :=
  JsString.is_empty (SearchFilters.query filters)
  && negb (0 <? List.length (SearchFilters.buildingTypes filters))%nat
  && negb (0 <? List.length (SearchFilters.prefectures filters))%nat.

(** The rows with a given key that the joined select returns. *)
Definition joined_with_id (id : Z) (be : Backend) : list Row.t :=
  filter Builder.has_architects
         (filter (fun r => Row.building_id r =? id) (buildings_table_2 be)).

End Notions.
Import Notions.

(** * Properties *)

(** ** Characters and digits *)

Section DigitFacts.
Import JsString Digits.

Lemma digit_not_dash c : is_digit c = true -> Ascii.eqb c "-" = false.
Proof.
  intros H. destruct (Ascii.eqb_spec c "-") as [->|]; [discriminate H | reflexivity].
Qed.

Lemma digit_not_plus c : is_digit c = true -> Ascii.eqb c "+" = false.
Proof.
  intros H. destruct (Ascii.eqb_spec c "+") as [->|]; [discriminate H | reflexivity].
Qed.

Lemma digit_not_space c : is_digit c = true -> is_space c = false.
Proof.
  unfold is_digit, is_space. intros H.
  apply andb_true_iff in H as [H1 H2].
  apply N.leb_le in H1. apply N.leb_le in H2.
  apply orb_false_iff; split.
  - apply andb_false_iff. right. apply N.leb_gt. lia.
  - apply N.eqb_neq. lia.
Qed.

Lemma digit_char_val d : 0 <= d < 10 -> digit_val (digit_char d) = d.
Proof.
  intros H. unfold digit_val, digit_char, code.
  rewrite N_ascii_embedding by lia. lia.
Qed.

Lemma digit_char_is_digit d : 0 <= d < 10 -> is_digit (digit_char d) = true.
Proof.
  intros H. unfold is_digit, digit_char, code.
  rewrite N_ascii_embedding by lia.
  apply andb_true_iff; split; apply N.leb_le; lia.
Qed.

Lemma digits_le_range fuel n :
  0 <= n -> Forall (fun d => 0 <= d < 10) (digits_le fuel n).
Proof.
  revert n. induction fuel as [|f IH]; intros n Hn; simpl.
  - constructor; [apply Z.mod_pos_bound; lia | constructor].
  - destruct (n <? 10) eqn:E.
    + apply Z.ltb_lt in E. constructor; [lia | constructor].
    + constructor; [apply Z.mod_pos_bound; lia |].
      apply IH. apply Z.div_pos; lia.
Qed.

Lemma digits_le_val fuel n :
  0 <= n < 2 ^ (Z.of_nat fuel + 1) -> val_le (digits_le fuel n) = n.
Proof.
  revert n. induction fuel as [|f IH]; intros n Hn.
  - simpl in *. rewrite Z.mod_small; lia.
  - cbn [digits_le]. destruct (n <? 10) eqn:E.
    + simpl. lia.
    + apply Z.ltb_ge in E. cbn [val_le]. rewrite IH.
      * pose proof (Z.div_mod n 10). lia.
      * split; [apply Z.div_pos; lia |].
        apply Z.div_lt_upper_bound; [lia |].
        replace (Z.of_nat (S f) + 1) with (Z.succ (Z.of_nat f + 1)) in Hn by lia.
        rewrite Z.pow_succ_r in Hn by lia. lia.
Qed.

Lemma digits_le_nonempty fuel n : digits_le fuel n <> [].
Proof. destruct fuel; simpl; [|destruct (n <? 10)]; discriminate. Qed.

Lemma render_onto_value ds : forall acc a,
  Forall (fun d => 0 <= d < 10) ds ->
  decimal_from a (render_onto ds acc)
  = decimal_from (a * 10 ^ Z.of_nat (List.length ds) + val_le ds) acc.
Proof.
  induction ds as [|d ds IH]; intros acc a H.
  - simpl. f_equal. lia.
  - inversion H as [|? ? Hd Hds]; subst.
    cbn [render_onto fold_left]. fold (render_onto ds (String (digit_char d) acc)).
    rewrite IH by assumption. cbn [decimal_from].
    rewrite digit_char_val by assumption. f_equal.
    cbn [List.length val_le]. rewrite Nat2Z.inj_succ, Z.pow_succ_r by lia. ring.
Qed.

Lemma render_onto_digits ds : forall acc,
  Forall (fun d => 0 <= d < 10) ds ->
  all_digits acc = true -> all_digits (render_onto ds acc) = true.
Proof.
  induction ds as [|d ds IH]; intros acc H Hacc; [exact Hacc |].
  inversion H; subst. cbn [render_onto fold_left].
  apply IH; [assumption |]. simpl.
  rewrite digit_char_is_digit by assumption. exact Hacc.
Qed.

Lemma render_onto_nonempty ds : forall acc,
  ds <> [] \/ acc <> EmptyString -> render_onto ds acc <> EmptyString.
Proof.
  induction ds as [|d ds IH]; intros acc H.
  - destruct H as [H|H]; [contradiction | exact H].
  - cbn [render_onto fold_left]. apply IH. right. discriminate.
Qed.

Lemma positional_digits n : 0 <= n -> all_digits (positional n) = true.
Proof.
  intros Hn. apply render_onto_digits; [apply digits_le_range; exact Hn | reflexivity].
Qed.

Lemma positional_nonempty n : positional n <> EmptyString.
Proof. apply render_onto_nonempty. left. apply digits_le_nonempty. Qed.

Lemma positional_value n : 0 <= n -> decimal (positional n) = n.
Proof.
  intros Hn. unfold decimal, positional, render_le.
  fold (render_onto (digits_le (Z.to_nat (Z.log2 n)) n) EmptyString).
  rewrite render_onto_value by (apply digits_le_range; exact Hn).
  cbn [decimal_from]. rewrite digits_le_val; [lia |].
  split; [exact Hn |].
  destruct (Z.eq_dec n 0) as [->|Hz]; [reflexivity |].
  rewrite Z2Nat.id by apply Z.log2_nonneg.
  replace (Z.log2 n + 1) with (Z.succ (Z.log2 n)) by lia.
  apply Z.log2_spec. lia.
Qed.

Lemma to_double_small n : n < 2 ^ 53 -> to_double n = n.
Proof.
  intros H. unfold to_double.
  destruct (n <? 2 ^ 53) eqn:E; [reflexivity |].
  apply Z.ltb_ge in E. lia.
Qed.

Lemma pick_reads_back x j v : pick x j = Some v -> to_double v = x.
Proof.
  unfold pick.
  destruct (to_double (x / 10 ^ Z.of_nat j * 10 ^ Z.of_nat j) =? x) eqn:Elo;
    destruct (to_double (x / 10 ^ Z.of_nat j * 10 ^ Z.of_nat j + 10 ^ Z.of_nat j) =? x)
      eqn:Ehi;
    repeat match goal with |- context [if ?c then _ else _] => destruct c end;
    intros H; inversion H; subst;
    first [apply Z.eqb_eq; assumption | discriminate].
Qed.

Lemma pick_nonneg x j v : 0 <= x -> pick x j = Some v -> 0 <= v.
Proof.
  intros Hx. unfold pick.
  assert (Hq : 0 < 10 ^ Z.of_nat j) by (apply Z.pow_pos_nonneg; lia).
  assert (Hlo : 0 <= x / 10 ^ Z.of_nat j * 10 ^ Z.of_nat j).
  { apply Z.mul_nonneg_nonneg; [apply Z.div_pos |]; lia. }
  repeat match goal with |- context [if ?c then _ else _] => destruct c end;
    intros H; inversion H; subst; lia.
Qed.

Lemma shortest_from_reads_back j x :
  to_double x = x -> to_double (shortest_from j x) = x.
Proof.
  intros Hx. induction j as [|j IH]; [exact Hx |].
  cbn [shortest_from]. destruct (pick x (S j)) as [v|] eqn:E; [| exact IH].
  exact (pick_reads_back _ _ _ E).
Qed.

Lemma shortest_from_nonneg j x : 0 <= x -> 0 <= shortest_from j x.
Proof.
  intros Hx. induction j as [|j IH]; [exact Hx |].
  cbn [shortest_from]. destruct (pick x (S j)) as [v|] eqn:E; [| exact IH].
  exact (pick_nonneg _ _ _ Hx E).
Qed.

(** Below 10^21 a number prints as a run of digits that reads back as the
    number. *)
Lemma of_nonneg_reads_back n :
  0 <= n < 10 ^ 21 -> to_double n = n ->
  all_digits (of_nonneg n) = true
  /\ of_nonneg n <> EmptyString
  /\ to_double (decimal (of_nonneg n)) = n.
Proof.
  intros [Hn Hlt] Hd. unfold of_nonneg. rewrite Hd.
  assert (E : (n <? 10 ^ 21) = true) by (apply Z.ltb_lt; exact Hlt).
  rewrite E. pose proof (shortest_from_nonneg (Z.to_nat (Z.log2 n)) n Hn) as Hv.
  fold (shortest n) in Hv. repeat split.
  - apply positional_digits, Hv.
  - apply positional_nonempty.
  - rewrite positional_value by exact Hv. apply shortest_from_reads_back, Hd.
Qed.

Lemma exponent_form_nonempty v : exponent_form v <> EmptyString.
Proof.
  unfold exponent_form. pose proof (positional_nonempty v) as H.
  destruct (positional v); [contradiction | discriminate].
Qed.

Lemma of_nonneg_nonempty n : of_nonneg n <> EmptyString.
Proof.
  unfold of_nonneg. destruct (to_double n <? 10 ^ 21);
    [apply positional_nonempty | apply exponent_form_nonempty].
Qed.

Lemma span_all_digits s : all_digits s = true -> span s = (s, EmptyString).
Proof.
  induction s as [|c s IH]; intros H; [reflexivity |].
  simpl in *. apply andb_true_iff in H as [Hc Hs].
  rewrite Hc, IH by assumption. reflexivity.
Qed.

Lemma split_digits_head s rest :
  all_digits s = true ->
  hd EmptyString (split "-" (s ++ String "-" rest)) = s.
Proof.
  induction s as [|c s IH]; intros H.
  - reflexivity.
  - simpl in H. apply andb_true_iff in H as [Hc Hs].
    cbn [append split]. rewrite (digit_not_dash c Hc).
    specialize (IH Hs).
    destruct (split "-" (s ++ String "-" rest)) as [|h t]; simpl in *; congruence.
Qed.

Lemma parseInt_digits_all s :
  all_digits s = true -> s <> EmptyString ->
  parseInt_digits s = Some (to_double (decimal s)).
Proof.
  intros H Hne. destruct s as [|c s]; [contradiction |].
  pose proof H as H'. simpl in H'. apply andb_true_iff in H' as [Hc _].
  unfold parseInt_digits. cbn [trimStart]. rewrite (digit_not_space c Hc).
  cbn [sign]. rewrite (digit_not_dash c Hc), (digit_not_plus c Hc).
  rewrite (span_all_digits _ H). reflexivity.
Qed.

End DigitFacts.

(** ** Slug round trip *)

(** C10. For every Building whose id is a non-negative integer-valued
    number below 10^21, reading the id back from the slug that [generateSlug]
    writes gives the id, whatever the titles are. *)
Theorem extractIdFromSlug_generateSlug (b : Building.t) :
  0 <= Building.id b < 10 ^ 21 ->
  Digits.to_double (Building.id b) = Building.id b ->
  extractIdFromSlug (generateSlug b) = of_Z (Building.id b).
Proof.
  intros Hid Hd. unfold extractIdFromSlug, generateSlug, Digits.of_int.
  assert (E : (Building.id b <? 0) = false) by (apply Z.ltb_ge; lia).
  rewrite E. cbn [append].
  destruct (of_nonneg_reads_back _ Hid Hd) as (Hds & Hne & Hv).
  rewrite split_digits_head by exact Hds.
  unfold parseInt_string.
  rewrite parseInt_digits_all by assumption.
  rewrite Hv. reflexivity.
Qed.

Lemma extractIdFromSlug_generateSlug_witness :
  (generateSlug Sample.building = "42-church-of-the-light"
   /\ extractIdFromSlug (generateSlug Sample.building) = of_Z 42)
  /\ (generateSlug Sample.huge = "18446744073709552000-church-of-the-light"
      /\ extractIdFromSlug (generateSlug Sample.huge) = of_Z (2 ^ 64)).
Proof.
  split; (split; [reflexivity |]).
  - apply (extractIdFromSlug_generateSlug Sample.building);
      [simpl; lia | reflexivity].
  - apply (extractIdFromSlug_generateSlug Sample.huge);
      [simpl; lia | reflexivity].
Defined.

(** C10 as stated fails: from 10^21 on the id is printed in exponent
    notation, and what is read back from [1e+21-church-of-the-light] is 1. *)
Lemma slug_id_in_exponent_notation :
  generateSlug Sample.sextillion = "1e+21-church-of-the-light"
  /\ ~ (forall b : Building.t,
          0 <= Building.id b ->
          extractIdFromSlug (generateSlug b) = of_Z (Building.id b)).
Proof.
  split; [reflexivity |].
  intros H. specialize (H Sample.sextillion). vm_compute in H.
  assert (H' := H ltac:(discriminate)). discriminate H'.
Qed.

(** ** The row normalizer *)

Section ResultFacts.
Context {A B : Type}.

Lemma bind_Ok_inv (m : result A) (k : A -> result B) (b : B) :
  bind m k = Ok b -> exists a, m = Ok a /\ k a = Ok b.
Proof. destruct m as [a|e]; simpl; intros H; [eauto | discriminate]. Qed.

Lemma mapM_total (f : A -> result B) (l : list A) :
  (forall x, In x l -> exists y, f x = Ok y) -> exists l', mapM f l = Ok l'.
Proof.
  induction l as [|a l IH]; intros H; simpl; [eauto |].
  destruct (H a (or_introl eq_refl)) as [y ->].
  destruct IH as [l' ->]; [intros x Hx; apply H; right; exact Hx |].
  simpl. eauto.
Qed.

Lemma mapM_map {C : Type} (f : A -> result B) (h : C -> A) (g : C -> B)
      (l : list C) :
  (forall x, In x l -> f (h x) = Ok (g x)) ->
  mapM f (map h l) = Ok (map g l).
Proof.
  induction l as [|a l IH]; intros H; simpl; [reflexivity |].
  rewrite (H a (or_introl eq_refl)), IH by (intros x Hx; apply H; right; exact Hx).
  reflexivity.
Qed.

End ResultFacts.

(** Peel the monadic binds of a successful run. *)
Ltac peel H :=
  repeat match type of H with
    | bind _ _ = Ok _ =>
        let a := fresh "x" in
        let E := fresh "E" in
        apply bind_Ok_inv in H as (a & E & H)
    end.

Lemma parseCommaSeparated_array v x :
  parseCommaSeparated v = Ok x -> exists l, x = VArr l.
Proof.
  unfold parseCommaSeparated. destruct (negb (Js.truthy v)).
  - intros [= <-]. eauto.
  - destruct v; try discriminate. intros [= <-]. eauto.
Qed.

Lemma parseCommaSeparated_rejects_array l :
  parseCommaSeparated (VArr l) = Throw TypeError.
Proof. reflexivity. Qed.

Lemma parseCommaSeparated_text v :
  text_or_null v = true -> exists l, parseCommaSeparated v = Ok (VArr l).
Proof.
  unfold parseCommaSeparated.
  destruct v; try discriminate; intros _; simpl; try (eexists; reflexivity).
  destruct (negb (negb (JsString.is_empty s))); eexists; reflexivity.
Qed.

Lemma transformArchitect_shaped ba :
  join_shaped ba = true -> exists a, transformArchitect ba = Ok a.
Proof.
  unfold join_shaped, transformArchitect. intros H.
  apply andb_true_iff in H as [H1 H2].
  assert (E : Js.prop ba "architects_table" = Ok (Js.get "architects_table" ba))
    by (destruct ba; try discriminate H1; reflexivity).
  rewrite E. cbn [bind].
  assert (E' : forall k, Js.prop (Js.get "architects_table" ba) k
                         = Ok (Js.get k (Js.get "architects_table" ba)))
    by (intros k; destruct (Js.get "architects_table" ba);
        try discriminate H2; reflexivity).
  rewrite !E'. cbn [bind]. eauto.
Qed.

Lemma optional_map_shaped v :
  relation_shaped v = true ->
  exists m, optional_map transformArchitect v = Ok m.
Proof.
  destruct v; try discriminate; simpl; intros H; try (eexists; reflexivity).
  destruct (mapM_total transformArchitect items) as [l' ->]; [| simpl; eauto].
  intros x Hx. apply transformArchitect_shaped.
  rewrite forallb_forall in H. apply H, Hx.
Qed.

Lemma parseFloat_absent v : absent v = true -> isNaN (Js.parseFloat v) = true.
Proof. destruct v; try discriminate; reflexivity. Qed.

Lemma or_falsy a b : Js.truthy a = false -> Js.or a b = b.
Proof. unfold Js.or. intros ->. reflexivity. Qed.

Lemma or_absent a b : absent a = true -> Js.or a b = b.
Proof. intros H. apply or_falsy. destruct a; try discriminate H; reflexivity. Qed.

Lemma parseYear_default now v :
  absent v = true \/ isNaN (Js.parseInt v) = true ->
  parseYear now v = of_Z (getFullYear now).
Proof.
  unfold parseYear. intros [H|H].
  - destruct v; try discriminate H; reflexivity.
  - destruct (negb (Js.truthy v)); [reflexivity |]. rewrite H. reflexivity.
Qed.

(** C5. Normalization never fails on a raw row: for every JSON object of
    the row shape (taxonomy columns are text or null, join elements carry
    their architect), whatever its other fields hold, [transformBuilding]
    returns a Building; [lat] and [lng] are 0 when absent or not numeric,
    [completionYears] is the current year when absent or unparsable, and
    [titleEn] is the title when absent. *)
Theorem transformBuilding_total_defaults (now : Clock) (data : value) :
  row_shaped data = true ->
  exists b,
    transformBuilding now data = Ok b
    /\ (absent (Js.get "lat" data) = true
        \/ isNaN (Js.parseFloat (Js.get "lat" data)) = true ->
        Js.get "lat" b = VNum (of_Z 0))
    /\ (absent (Js.get "lng" data) = true
        \/ isNaN (Js.parseFloat (Js.get "lng" data)) = true ->
        Js.get "lng" b = VNum (of_Z 0))
    /\ (absent (Js.get "completionYears" data) = true
        \/ isNaN (Js.parseInt (Js.get "completionYears" data)) = true ->
        Js.get "completionYears" b = VNum (of_Z (getFullYear now)))
    /\ (absent (Js.get "titleEn" data) = true ->
        Js.get "titleEn" b = Js.get "title" data).
Proof.
  intros H. destruct data as [| | | | | |fs]; try discriminate H.
  unfold row_shaped in H.
  repeat (apply andb_true_iff in H as [H ?]).
  destruct (parseCommaSeparated_text _ H) as [l1 E1].
  destruct (parseCommaSeparated_text _ H3) as [l2 E2].
  destruct (parseCommaSeparated_text _ H2) as [l3 E3].
  destruct (parseCommaSeparated_text _ H1) as [l4 E4].
  destruct (optional_map_shaped _ H0) as [m Em].
  unfold transformBuilding. cbn [Js.prop bind].
  rewrite E1, E2, E3, E4, Em. cbn [bind].
  eexists. split; [reflexivity |].
  cbn [Js.get Js.lookup String.eqb Ascii.eqb Bool.eqb].
  repeat split.
  - intros Hl. apply or_falsy.
    assert (N : isNaN (Js.parseFloat (Js.lookup "lat" fs)) = true)
      by (destruct Hl as [Hl|Hl]; [apply parseFloat_absent, Hl | exact Hl]).
    destruct (Js.parseFloat (Js.lookup "lat" fs)); try discriminate N; reflexivity.
  - intros Hl. apply or_falsy.
    assert (N : isNaN (Js.parseFloat (Js.lookup "lng" fs)) = true)
      by (destruct Hl as [Hl|Hl]; [apply parseFloat_absent, Hl | exact Hl]).
    destruct (Js.parseFloat (Js.lookup "lng" fs)); try discriminate N; reflexivity.
  - intros Hy. f_equal. apply parseYear_default, Hy.
  - intros Ht. apply or_absent, Ht.
Qed.

Lemma row_shaped_encode (r : Row.t) : row_shaped (Encode.row r) = true.
Proof.
  unfold row_shaped, Encode.row.
  cbn [Js.get Js.lookup String.eqb Ascii.eqb Bool.eqb].
  destruct (Row.parentBuildingTypes r), (Row.buildingTypes r),
    (Row.parentStructures r), (Row.structures r); cbn [Encode.text text_or_null andb];
    (destruct (Row.building_architects r) as [l|]; [| reflexivity]);
    simpl; induction l; simpl; auto.
Qed.

Lemma transformBuilding_total_defaults_witness :
  exists b,
    transformBuilding Sample.now (Encode.row Sample.bare) = Ok b
    /\ (absent (Js.get "lat" (Encode.row Sample.bare)) = true
        \/ isNaN (Js.parseFloat (Js.get "lat" (Encode.row Sample.bare))) = true ->
        Js.get "lat" b = VNum (of_Z 0))
    /\ (absent (Js.get "lng" (Encode.row Sample.bare)) = true
        \/ isNaN (Js.parseFloat (Js.get "lng" (Encode.row Sample.bare))) = true ->
        Js.get "lng" b = VNum (of_Z 0))
    /\ (absent (Js.get "completionYears" (Encode.row Sample.bare)) = true
        \/ isNaN (Js.parseInt (Js.get "completionYears" (Encode.row Sample.bare))) = true ->
        Js.get "completionYears" b = VNum (of_Z (getFullYear Sample.now)))
    /\ (absent (Js.get "titleEn" (Encode.row Sample.bare)) = true ->
        Js.get "titleEn" b = Js.get "title" (Encode.row Sample.bare)).
Proof.
  apply (transformBuilding_total_defaults Sample.now (Encode.row Sample.bare)).
  vm_compute. reflexivity.
Defined.

(** A Building that [transformBuilding] returns is an object whose taxonomy
    fields are arrays and whose photo list is empty. *)
Lemma transformBuilding_Ok_shape now data b :
  transformBuilding now data = Ok b ->
  exists fs l,
    b = VObj fs
    /\ Js.get "parentBuildingTypes" b = VArr l
    /\ Js.get "photos" b = VArr [].
Proof.
  unfold transformBuilding. intros H. peel H.
  injection H as <-.
  destruct (parseCommaSeparated_array _ _ E0) as [l ->].
  eexists _, l. split; [reflexivity |]. split; reflexivity.
Qed.

(** C2 (amended). [transformBuilding] is not idempotent: whenever it
    returns a Building for some input, applying it to that Building throws a
    [TypeError], because [parseCommaSeparated] calls [split] on the array that
    the first pass stored in [parentBuildingTypes]. *)
Theorem transformBuilding_twice_throws (now : Clock) (data b : value) :
  transformBuilding now data = Ok b ->
  transformBuilding now b = Throw TypeError.
Proof.
  intros H. destruct (transformBuilding_Ok_shape _ _ _ H) as (fs & l & -> & Hp & _).
  unfold transformBuilding. cbn [Js.prop bind]. rewrite Hp. reflexivity.
Qed.

Lemma transformBuilding_twice_throws_witness :
  exists b,
    transformBuilding Sample.now (Encode.row Sample.church) = Ok b
    /\ transformBuilding Sample.now b = Throw TypeError.
Proof.
  eexists. split; [vm_compute; reflexivity |].
  eapply (transformBuilding_twice_throws Sample.now (Encode.row Sample.church)).
  vm_compute. reflexivity.
Defined.

(** C2 as stated fails: normalizing the normalized form of the sample row
    does not give the normalized row back, it throws. *)
Lemma transformBuilding_not_idempotent :
  ~ (forall (now : Clock) (r : Row.t),
        bind (transformBuilding now (Encode.row r)) (transformBuilding now)
        = transformBuilding now (Encode.row r)).
Proof.
  intros H. specialize (H Sample.now Sample.church).
  vm_compute in H. discriminate H.
Qed.

(** C6. The sample row carries a photos relation with one photo, and the
    Building that [transformBuilding] returns for it has no photo. *)
Theorem transformBuilding_drops_photos :
  Js.get "photos" (Encode.row Sample.church) = VArr [Encode.photo Sample.photo1]
  /\ exists b,
       transformBuilding Sample.now (Encode.row Sample.church) = Ok b
       /\ Js.get "photos" b = VArr [].
Proof.
  split; [reflexivity |]. eexists. split; vm_compute; reflexivity.
Qed.

(** *** Agreement with the typed reading *)

Lemma or_text_typed s t : Js.or (VStr s) (VStr t) = VStr (Typed.or_text s t).
Proof. destruct s; reflexivity. Qed.

Lemma or_null_typed o t :
  Js.or (Encode.text o) (VStr t) = VStr (Typed.or_null o t).
Proof. destruct o as [s|]; [apply or_text_typed | reflexivity]. Qed.

Lemma parseYear_typed now o :
  parseYear now (Encode.text o) = of_Z (Typed.parseYear now o).
Proof.
  destruct o as [s|]; [| reflexivity].
  unfold parseYear, Typed.parseYear. cbn [Encode.text Js.truthy Js.parseInt].
  destruct (JsString.is_empty s); [reflexivity |]. cbn [negb].
  unfold parseInt_string. destruct (parseInt_digits s); reflexivity.
Qed.

Lemma parseCommaSeparated_typed o :
  parseCommaSeparated (Encode.text o)
  = Ok (VArr (map VStr (Typed.parseCommaSeparated o))).
Proof.
  destruct o as [s|]; [| reflexivity].
  unfold parseCommaSeparated, Typed.parseCommaSeparated.
  cbn [Encode.text Js.truthy]. destruct (JsString.is_empty s); reflexivity.
Qed.

Lemma coordinate_typed o :
  Js.or (VNum (Js.parseFloat (Encode.num o))) (VNum (of_Z 0))
  = VNum (Fin (Typed.coordinate o)).
Proof.
  destruct o as [q|]; [| reflexivity].
  unfold Js.or, Typed.coordinate.
  cbn [Encode.num Js.parseFloat Js.truthy number_truthy].
  destruct (Qeq_bool q 0); reflexivity.
Qed.

Lemma transformArchitect_typed a :
  transformArchitect (Encode.building_architect a)
  = Ok (Encode.architect (Typed.architect a)).
Proof.
  unfold transformArchitect, Encode.building_architect, Encode.architect_row,
    Encode.architect, Typed.architect.
  cbn [Js.prop Js.get Js.lookup String.eqb Ascii.eqb Bool.eqb bind
       Architect.architect_id Architect.architectJa Architect.architectEn
       Architect.websites].
  rewrite or_text_typed. reflexivity.
Qed.

Lemma architects_typed o :
  bind (optional_map transformArchitect
          (Encode.relation Encode.building_architect o))
       (fun mapped => Ok (Js.or mapped (VArr [])))
  = Ok (VArr (map Encode.architect
                  (match o with Some l => map Typed.architect l | None => [] end))).
Proof.
  destruct o as [l|]; [| reflexivity].
  cbn [Encode.relation optional_map].
  rewrite (mapM_map transformArchitect Encode.building_architect
             (fun a => Encode.architect (Typed.architect a)))
    by (intros a _; apply transformArchitect_typed).
  cbn [bind]. unfold Js.or. cbn [Js.truthy]. rewrite map_map. reflexivity.
Qed.

Lemma transformBuilding_typed (now : Clock) (r : Row.t) :
  transformBuilding now (Encode.row r)
  = Ok (Encode.building (Typed.transformBuilding now r)).
Proof.
  unfold transformBuilding, Encode.row.
  cbn [Js.prop Js.get Js.lookup String.eqb Ascii.eqb Bool.eqb bind].
  rewrite !parseCommaSeparated_typed. cbn [bind].
  pose proof (architects_typed (Row.building_architects r)) as Ha.
  destruct (optional_map transformArchitect
              (Encode.relation Encode.building_architect (Row.building_architects r)))
    as [mapped|e]; [| discriminate Ha].
  cbn [bind] in Ha |- *. injection Ha as Ha. rewrite Ha.
  rewrite !or_null_typed, !or_text_typed, !coordinate_typed, parseYear_typed.
  reflexivity.
Qed.

Lemma transformAll_typed now rows :
  transformAll now (Some rows)
  = Ok (map (fun r => Encode.building (Typed.transformBuilding now r)) rows).
Proof.
  unfold transformAll. apply mapM_map. intros r _. apply transformBuilding_typed.
Qed.

(** ** Paginated listing *)

Lemma run_failed be q message :
  table_failure be = Some message ->
  Builder.run be q = {| data := None; error := Some message; count := None |}.
Proof. unfold Builder.run. intros ->. reflexivity. Qed.

(** What [getBuildings] asks for: rows [(page-1)*limit] to
    [(page-1)*limit + limit - 1] of the table in ascending [completionYears],
    and no count. *)
Lemma getBuildings_items now be page limit :
  table_failure be = None ->
  getBuildings now be page limit
  = Ok {| buildings :=
            map (fun r => Encode.building (Typed.transformBuilding now r))
                (Builder.slice ((page - 1) * limit) ((page - 1) * limit + limit - 1)
                   (Sql.order_by col_completionYears
                      (filter Builder.has_architects (buildings_table_2 be))));
          total := 0 |}.
Proof.
  intros H. unfold getBuildings, Builder.run. rewrite H.
  cbn [error data count Builder.order Builder.range Builder.select_joined
       order_of range_of limit_of count_exact].
  rewrite transformAll_typed. cbn [bind count_or_zero].
  do 5 f_equal. unfold Builder.matching. apply filter_ext.
  intros r. cbn. apply andb_true_r.
Qed.

Lemma getBuildings_total_zero now be page limit res :
  getBuildings now be page limit = Ok res -> total res = 0.
Proof.
  unfold getBuildings, Builder.run.
  destruct (table_failure be); cbn; [discriminate |].
  intros H. peel H. injection H as <-. reflexivity.
Qed.

(** C4. On a table of two rows, [getBuildings(1, 10)] returns both rows
    and reports a total of 0: the listing query never asks for the count. *)
Theorem getBuildings_total_not_count :
  List.length (Builder.matching Sample.store (Builder.select_joined false)) = 2%nat
  /\ exists res,
       getBuildings Sample.now Sample.store 1 10 = Ok res
       /\ List.length (buildings res) = 2%nat
       /\ total res = 0.
Proof.
  split; [reflexivity |]. eexists. split; [vm_compute; reflexivity |].
  split; reflexivity.
Qed.

(** ** Nearby search *)

Lemma searchBuildings_failed now be filters message :
  table_failure be = Some message ->
  searchBuildings now be filters = Throw (SupabaseApiError 500 message).
Proof.
  intros H. unfold searchBuildings. rewrite (run_failed _ _ _ H). reflexivity.
Qed.

Lemma searchBuildings_healthy now be filters :
  table_failure be = None ->
  searchBuildings now be filters
  = Ok {| buildings :=
            map (fun r => Encode.building (Typed.transformBuilding now r))
                (Sql.order_by col_completionYears
                   (Builder.matching be (searchQuery filters)));
          total :=
            count_or_zero
              (Some (Z.of_nat (List.length (Builder.matching be (searchQuery filters))))) |}.
Proof.
  intros H. unfold searchBuildings, Builder.run. rewrite H.
  assert (Q : order_of (searchQuery filters) = Some col_completionYears
              /\ range_of (searchQuery filters) = None
              /\ limit_of (searchQuery filters) = None
              /\ count_exact (searchQuery filters) = true).
  { unfold searchQuery. cbn [Builder.order order_of range_of limit_of count_exact].
    generalize (searchClauses filters) as l.
    assert (G : forall l q, range_of q = None -> limit_of q = None ->
                            count_exact q = true ->
                let q' := fold_left (fun q c => Builder.where_ c q) l q in
                range_of q' = None /\ limit_of q' = None /\ count_exact q' = true).
    { induction l as [|c l IH]; intros q H1 H2 H3; cbn; [auto |].
      apply IH; assumption. }
    intros l. split; [reflexivity |]. apply G; reflexivity. }
  destruct Q as (-> & -> & -> & ->).
  cbn [error data count]. rewrite transformAll_typed. reflexivity.
Qed.

(** C8 (amended). When the [nearby_buildings] procedure fails,
    [getNearbyBuildings] drops that error and answers with the bounding-box
    search around the same centre: its buildings when the table endpoint
    answers, and the search's own error, status 500, when it does not. *)
Theorem getNearbyBuildings_fallback (now : Clock) (be : Backend)
        (lat lng radius : Q) (message : string) :
  error (nearby_buildings be lat lng radius) = Some message ->
  getNearbyBuildings now be lat lng radius
  = bind (searchBuildings now be (nearbyFallback lat lng radius))
         (fun r => Ok (buildings r))
  /\ searchClauses (nearbyFallback lat lng radius)
     = [ gte col_lat (lat - radius * (9 # 1000))%Q;
         lte col_lat (lat + radius * (9 # 1000))%Q;
         gte col_lng (lng - radius * (11 # 1000))%Q;
         lte col_lng (lng + radius * (11 # 1000))%Q ]
  /\ (table_failure be = None ->
      exists items, getNearbyBuildings now be lat lng radius = Ok items)
  /\ (forall m, table_failure be = Some m ->
      getNearbyBuildings now be lat lng radius = Throw (SupabaseApiError 500 m)).
Proof.
  intros H. unfold getNearbyBuildings. rewrite H.
  split; [reflexivity |]. split; [reflexivity |]. split.
  - intros Hh. rewrite (searchBuildings_healthy _ _ _ Hh). cbn [bind]. eauto.
  - intros m Hm. rewrite (searchBuildings_failed _ _ _ _ Hm). reflexivity.
Qed.

Lemma getNearbyBuildings_fallback_witness :
  getNearbyBuildings Sample.now Sample.store (348 # 10) (1355 # 10) 5
  = bind (searchBuildings Sample.now Sample.store
            (nearbyFallback (348 # 10) (1355 # 10) 5))
         (fun r => Ok (buildings r)).
Proof.
  apply (getNearbyBuildings_fallback Sample.now Sample.store
           (348 # 10) (1355 # 10) 5 "function not found").
  reflexivity.
Defined.

(** C8 as stated fails: with every endpoint down, the error of the
    fallback search reaches the caller. *)
Lemma getNearbyBuildings_surfaces_error :
  ~ (forall (now : Clock) (be : Backend) (lat lng radius : Q),
        exists items, getNearbyBuildings now be lat lng radius = Ok items).
Proof.
  intros H. destruct (H Sample.now Sample.down 0%Q 0%Q 1%Q) as [items E].
  vm_compute in E. discriminate E.
Qed.

(** ** Suggestions *)

Lemma set_add_NoDup s l : NoDup l -> NoDup (set_add s l).
Proof.
  intros H. unfold set_add. destruct (existsb (String.eqb s) l) eqn:E; [exact H |].
  apply NoDup_app; [exact H | repeat constructor; intros [] | ].
  intros x Hx [->|[]].
  assert (T : existsb (String.eqb x) l = true)
    by (apply existsb_exists; exists x; split; [exact Hx | apply String.eqb_refl]).
  congruence.
Qed.

Lemma set_add_length s l :
  (List.length (set_add s l) <= S (List.length l))%nat.
Proof.
  unfold set_add. destruct (existsb (String.eqb s) l); [lia |].
  rewrite length_app. simpl. lia.
Qed.

Lemma collectSuggestion_NoDup q l item :
  NoDup l -> NoDup (collectSuggestion q l item).
Proof.
  intros H. unfold collectSuggestion.
  repeat match goal with
         | |- context [match ?x with _ => _ end] => destruct x
         end; repeat apply set_add_NoDup; exact H.
Qed.

Lemma collectSuggestion_length q l item :
  (List.length (collectSuggestion q l item) <= 2 + List.length l)%nat.
Proof.
  unfold collectSuggestion.
  pose proof (set_add_length (Row.title item) l) as H1.
  destruct (JsString.includes (JsString.toLowerCase (Row.title item))
                              (JsString.toLowerCase q));
    destruct (Row.titleEn item) as [t|]; try lia;
    destruct (JsString.includes (JsString.toLowerCase t) (JsString.toLowerCase q));
    try lia.
  - pose proof (set_add_length t (set_add (Row.title item) l)). lia.
  - pose proof (set_add_length t l). lia.
Qed.

Lemma collect_all q rows : forall l,
  NoDup l ->
  NoDup (fold_left (collectSuggestion q) rows l)
  /\ (List.length (fold_left (collectSuggestion q) rows l)
      <= 2 * List.length rows + List.length l)%nat.
Proof.
  induction rows as [|r rows IH]; intros l H; [simpl; split; [exact H | lia] |].
  cbn [fold_left]. destruct (IH _ (collectSuggestion_NoDup q l r H)) as [N L].
  split; [exact N |].
  pose proof (collectSuggestion_length q l r). cbn [List.length]. lia.
Qed.

(** C9 (amended). For every query string the suggestion search returns
    at most 20 suggestions, without duplicates: at most 10 rows are fetched and
    each contributes its title and its English title when they contain the
    query. On a backend error it returns the empty sequence. *)
Theorem getSearchSuggestions_bounded (be : Backend) (query : string) :
  (List.length (getSearchSuggestions be query) <= 20)%nat
  /\ NoDup (getSearchSuggestions be query)
  /\ (table_failure be <> None -> getSearchSuggestions be query = []).
Proof.
  unfold getSearchSuggestions, Builder.run.
  destruct (table_failure be) as [m|]; cbn [error data].
  - split; [simpl; lia |]. split; [constructor | reflexivity].
  - cbn [suggestionQuery Builder.limit Builder.where_ Builder.select_columns
         order_of range_of limit_of].
    match goal with
    | |- context [fold_left _ (firstn 10 ?l) []] => set (rows := firstn 10 l)
    end.
    assert (Hl : (List.length rows <= 10)%nat) by apply firstn_le_length.
    destruct (collect_all query rows [] (NoDup_nil _)) as [N L].
    cbn [List.length] in L. split; [lia |]. split; [exact N | congruence].
Qed.

Lemma getSearchSuggestions_bounded_witness :
  getSearchSuggestions Sample.down "x" = [].
Proof.
  apply (getSearchSuggestions_bounded Sample.down "x"). discriminate.
Defined.

(** C9 as stated fails: six rows give twelve suggestions. *)
Lemma getSearchSuggestions_more_than_ten :
  ~ (forall (be : Backend) (query : string),
        (List.length (getSearchSuggestions be query) <= 10)%nat).
Proof.
  intros H. specialize (H Sample.six "x"). vm_compute in H.
  repeat (apply le_S_n in H). inversion H.
Qed.

(** ** The availability toggle *)

Section ToggleFacts.
Import Toggle.




End ToggleFacts.



(** ** The Filter Compiler *)

Section PatternFacts.
Import JsString.

Lemma toLowerCase_app a b :
  toLowerCase (a ++ b) = (toLowerCase a ++ toLowerCase b)%string.
Proof. induction a as [|c a IH]; simpl; [reflexivity | rewrite IH; reflexivity]. Qed.

Lemma wildcard_lower_char c : wildcard (lower_char c) = wildcard c.
Proof. destruct c as [[] [] [] [] [] [] [] []]; reflexivity. Qed.

Lemma no_wildcard_toLowerCase q : no_wildcard (toLowerCase q) = no_wildcard q.
Proof.
  induction q as [|c q IH]; simpl; [reflexivity |].
  rewrite wildcard_lower_char, IH. reflexivity.
Qed.

Lemma like_percent p s :
  Sql.like (String "%" p) s
  = Sql.like p s
    || match s with
       | EmptyString => false
       | String _ s' => Sql.like (String "%" p) s'
       end.
Proof. destruct s; reflexivity. Qed.

Lemma like_literal c p s :
  wildcard c = false ->
  Sql.like (String c p) s
  = match s with
    | EmptyString => false
    | String d s' => Ascii.eqb c d && Sql.like p s'
    end.
Proof.
  unfold wildcard. intros H.
  apply orb_false_iff in H as [H H3]. apply orb_false_iff in H as [H1 H2].
  cbn [Sql.like]. rewrite H1, H2, H3. reflexivity.
Qed.

Lemma like_any s : Sql.like "%" s = true.
Proof.
  induction s as [|c s IH]; [reflexivity |].
  rewrite like_percent, IH. apply orb_true_r.
Qed.

Lemma like_prefix q : forall s,
  no_wildcard q = true -> Sql.like (q ++ "%") s = prefix q s.
Proof.
  induction q as [|c q IH]; intros s H.
  - cbn [append]. rewrite like_any. destruct s; reflexivity.
  - cbn [no_wildcard] in H. apply andb_true_iff in H as [Hc Hq].
    apply negb_true_iff in Hc. cbn [append]. rewrite (like_literal _ _ _ Hc).
    destruct s as [|d s]; [reflexivity |]. cbn [prefix].
    rewrite (IH s Hq).
    destruct (Ascii.eqb_spec c d), (ascii_dec c d); try reflexivity; contradiction.
Qed.

Lemma like_includes q s :
  no_wildcard q = true -> Sql.like (String "%" (q ++ "%")) s = includes s q.
Proof.
  intros H. induction s as [|c s IH].
  - rewrite like_percent, (like_prefix q _ H). reflexivity.
  - rewrite like_percent, (like_prefix q _ H), IH. reflexivity.
Qed.

Lemma no_reserved_no_wildcard q : no_reserved q = true -> no_wildcard q = true.
Proof.
  induction q as [|c q IH]; [reflexivity |]. cbn [no_reserved no_wildcard].
  intros H. apply andb_true_iff in H as [Hc Hq]. rewrite (IH Hq), andb_true_r.
  unfold reserved in Hc. destruct (wildcard c); [discriminate Hc | reflexivity].
Qed.

Lemma no_reserved_star q : no_reserved q = true -> Sql.star_to_percent q = q.
Proof.
  induction q as [|c q IH]; [reflexivity |]. cbn [no_reserved Sql.star_to_percent].
  intros H. apply andb_true_iff in H as [Hc Hq]. rewrite (IH Hq).
  unfold reserved in Hc. destruct (Ascii.eqb c "*"); [| reflexivity].
  rewrite orb_true_r in Hc. discriminate Hc.
Qed.

Lemma star_to_percent_app a b :
  Sql.star_to_percent (a ++ b)
  = (Sql.star_to_percent a ++ Sql.star_to_percent b)%string.
Proof. induction a as [|c a IH]; simpl; [reflexivity | rewrite IH; reflexivity]. Qed.

(** On a query without reserved characters, the filter [ilike.%query%] is
    the case-insensitive substring test. *)
Lemma ilike_contains q s :
  no_reserved q = true ->
  Sql.ilike ("%" ++ q ++ "%") s = Local.contains_ci s q.
Proof.
  intros H. unfold Sql.ilike, Local.contains_ci.
  cbn [append Sql.star_to_percent]. rewrite star_to_percent_app, (no_reserved_star q H).
  cbn [toLowerCase]. rewrite toLowerCase_app.
  change (Sql.star_to_percent "%") with "%". change (toLowerCase "%") with "%".
  change (lower_char (if Ascii.eqb "%" "*" then "%"%char else "%"%char)) with "%"%char.
  apply like_includes. rewrite no_wildcard_toLowerCase.
  apply no_reserved_no_wildcard, H.
Qed.

Lemma includes_empty_field q : q <> EmptyString -> includes EmptyString q = false.
Proof. destruct q; [contradiction | reflexivity]. Qed.

Lemma toLowerCase_empty q : toLowerCase q = EmptyString -> q = EmptyString.
Proof. destruct q; [reflexivity | discriminate]. Qed.

End PatternFacts.

Lemma where_all l : forall q,
  let q' := fold_left (fun q c => Builder.where_ c q) l q in
  clauses q' = (clauses q ++ l)%list /\ inner_architects q' = inner_architects q.
Proof.
  induction l as [|c l IH]; intros q; cbn.
  - rewrite app_nil_r. auto.
  - destruct (IH (Builder.where_ c q)) as [E1 E2]. cbn in E1, E2.
    rewrite E1, E2. cbn. rewrite <- app_assoc. auto.
Qed.

Lemma matching_search be filters :
  Builder.matching be (searchQuery filters)
  = filter (remote_keeps filters) (buildings_table_2 be).
Proof.
  unfold Builder.matching, searchQuery, remote_keeps.
  cbn [Builder.order inner_architects clauses].
  destruct (where_all (searchClauses filters) (Builder.select_joined true)) as [E1 E2].
  cbn in E1, E2. rewrite E1, E2. reflexivity.
Qed.

Lemma insert_In c r l x : In x (Sql.insert c r l) <-> x = r \/ In x l.
Proof.
  induction l as [|r' l IH]; cbn.
  - intuition congruence.
  - destruct (Sql.text_le (Sql.text c r) (Sql.text c r')); cbn;
      [| rewrite IH]; intuition congruence.
Qed.

Lemma order_by_In c l x : In x (Sql.order_by c l) <-> In x l.
Proof.
  induction l as [|r l IH]; cbn; [tauto |].
  fold (Sql.order_by c l). rewrite insert_In, IH. intuition congruence.
Qed.

(** The buildings [searchBuildings] returns are the normalized rows that
    its clauses keep. *)
Lemma searchBuildings_In now be filters res b :
  searchBuildings now be filters = Ok res ->
  (In b (buildings res) <->
   exists r, In r (buildings_table_2 be)
             /\ remote_keeps filters r = true
             /\ b = Encode.building (Typed.transformBuilding now r)).
Proof.
  intros H. destruct (table_failure be) as [m|] eqn:Ef.
  - rewrite (searchBuildings_failed _ _ _ _ Ef) in H. discriminate H.
  - rewrite (searchBuildings_healthy _ _ _ Ef) in H. injection H as <-.
    cbn [buildings]. rewrite in_map_iff. split.
    + intros (r & <- & Hr). apply order_by_In in Hr.
      rewrite matching_search in Hr. apply filter_In in Hr as [Hr Hk]. eauto.
    + intros (r & Hr & Hk & ->). exists r. split; [reflexivity |].
      apply order_by_In. rewrite matching_search. apply filter_In. auto.
Qed.

(** C3 (amended). With [hasPhotos] set, every building that
    [searchBuildings] returns comes from a row whose [thumbnailUrl] column is
    not null. *)
Theorem searchBuildings_hasPhotos_not_null (now : Clock) (be : Backend)
        (filters : SearchFilters.t) (res : SearchResult) (b : value) :
  SearchFilters.hasPhotos filters = true ->
  searchBuildings now be filters = Ok res ->
  In b (buildings res) ->
  exists r,
    In r (buildings_table_2 be)
    /\ Row.thumbnailUrl r <> None
    /\ transformBuilding now (Encode.row r) = Ok b.
Proof.
  intros Hp Hs Hb. apply (searchBuildings_In _ _ _ _ _ Hs) in Hb as (r & Hr & Hk & ->).
  exists r. split; [exact Hr |]. split; [| apply transformBuilding_typed].
  unfold remote_keeps, searchClauses in Hk. rewrite Hp in Hk.
  apply andb_true_iff in Hk as [_ Hk].
  rewrite !forallb_app in Hk.
  apply andb_true_iff in Hk as [_ Hk]. apply andb_true_iff in Hk as [_ Hk].
  apply andb_true_iff in Hk as [Hk _]. cbn in Hk.
  destruct (Row.thumbnailUrl r); [discriminate | discriminate Hk].
Qed.

Lemma searchBuildings_hasPhotos_not_null_witness :
  exists r,
    In r (buildings_table_2 Sample.store)
    /\ Row.thumbnailUrl r <> None
    /\ transformBuilding Sample.now (Encode.row r)
       = Ok (Encode.building (Typed.transformBuilding Sample.now Sample.church)).
Proof.
  eapply (searchBuildings_hasPhotos_not_null Sample.now Sample.store Sample.photosOnly).
  - reflexivity.
  - vm_compute. reflexivity.
  - vm_compute. left. reflexivity.
Defined.

(** C3 as stated fails: a row whose thumbnail is the empty string passes
    the photo filter, and its Building has an empty [thumbnailUrl]. *)
Lemma searchBuildings_hasPhotos_keeps_empty :
  ~ (forall (now : Clock) (be : Backend) (filters : SearchFilters.t)
            (res : SearchResult) (b : value),
        SearchFilters.hasPhotos filters = true ->
        searchBuildings now be filters = Ok res ->
        In b (buildings res) ->
        Js.get "thumbnailUrl" b <> VNull
        /\ Js.get "thumbnailUrl" b <> VStr EmptyString).
Proof.
  intros H.
  destruct (H Sample.now (dataset [Sample.bare]) Sample.photosOnly
              {| buildings :=
                   [Encode.building (Typed.transformBuilding Sample.now Sample.bare)];
                 total := 1 |}
              (Encode.building (Typed.transformBuilding Sample.now Sample.bare)))
    as [_ Hne].
  - reflexivity.
  - vm_compute. reflexivity.
  - left. reflexivity.
  - apply Hne. reflexivity.
Qed.

Lemma coordinate_lower x y :
  Qle_bool x (Typed.coordinate (Some y)) = Qle_bool x y.
Proof.
  unfold Typed.coordinate. destruct (Qeq_bool y 0) eqn:E; [| reflexivity].
  apply Qeq_bool_eq in E. apply Qleb_comp; [reflexivity | symmetry; exact E].
Qed.

Lemma coordinate_upper x y :
  Qle_bool (Typed.coordinate (Some y)) x = Qle_bool y x.
Proof.
  unfold Typed.coordinate. destruct (Qeq_bool y 0) eqn:E; [| reflexivity].
  apply Qeq_bool_eq in E. apply Qleb_comp; [symmetry; exact E | reflexivity].
Qed.

(** The free-text clause against the free-text rule. *)
Lemma query_agree q r now :
  plain_query q = true ->
  forallb (Sql.holds r)
    (if JsString.is_empty (JsString.trim q) then []
     else [or_ilike [ (col_title, ("%" ++ q ++ "%")%string);
                      (col_titleEn, ("%" ++ q ++ "%")%string);
                      (col_location, ("%" ++ q ++ "%")%string) ]])
  = (if JsString.is_empty (JsString.trim q) then true
     else Local.contains_ci (Building.title (Typed.transformBuilding now r))
                            (JsString.trim q)
          || Local.contains_ci (Building.titleEn (Typed.transformBuilding now r))
                               (JsString.trim q)
          || Local.contains_ci (Building.location (Typed.transformBuilding now r))
                               (JsString.trim q)).
Proof.
  unfold plain_query. intros H. apply andb_true_iff in H as [Ht Hw].
  apply String.eqb_eq in Ht. rewrite Ht.
  destruct (JsString.is_empty q) eqn:Eq; [reflexivity |].
  cbn [forallb Sql.holds existsb Sql.text Typed.transformBuilding
       Building.title Building.titleEn Building.location].
  rewrite !(ilike_contains q _ Hw).
  destruct (Row.titleEn r) as [s|]; cbn [Typed.or_null].
  - rewrite (ilike_contains q _ Hw). unfold Typed.or_text.
    destruct s as [|c s]; cbn [JsString.is_empty].
    + unfold Local.contains_ci at 2. cbn [JsString.toLowerCase].
      rewrite includes_empty_field
        by (intros E; apply toLowerCase_empty in E; subst q; discriminate Eq).
      destruct (Local.contains_ci (Row.title r) q),
        (Local.contains_ci (Row.location r) q); reflexivity.
    + destruct (Local.contains_ci (Row.title r) q),
        (Local.contains_ci (String c s) q),
        (Local.contains_ci (Row.location r) q); reflexivity.
  - destruct (Local.contains_ci (Row.title r) q),
      (Local.contains_ci (Row.location r) q); reflexivity.
Qed.

(** On a comparable row and a plain query, the remote clauses and the local
    predicate decide alike. *)
Lemma keeps_agree now filters r :
  plain_query (SearchFilters.query filters) = true ->
  comparable filters r = true ->
  remote_keeps filters r
  = Local.predicate filters (Typed.transformBuilding now r).
Proof.
  intros Hq Hc. unfold comparable in Hc.
  apply andb_true_iff in Hc as [Hc Hloc]. apply andb_true_iff in Hc as [Hc Hv].
  apply andb_true_iff in Hc as [Ha Hp].
  unfold remote_keeps, searchClauses, Local.predicate.
  rewrite Ha, !forallb_app, (query_agree _ r now Hq). cbn [andb].
  rewrite !andb_assoc.
  apply (f_equal2 andb); [apply (f_equal2 andb); [apply (f_equal2 andb);
    [apply (f_equal2 andb); [reflexivity |] |] |] |].
  - destruct (0 <? List.length (SearchFilters.prefectures filters))%nat;
      [| reflexivity].
    cbn. destruct (Row.prefectures r); [apply andb_true_r | reflexivity].
  - destruct (SearchFilters.hasPhotos filters); [| reflexivity].
    cbn. destruct (Row.thumbnailUrl r) as [[|c s]|]; try reflexivity.
    discriminate Hp.
  - destruct (SearchFilters.hasVideos filters); [| reflexivity].
    cbn. destruct (Row.youtubeUrl r) as [[|c s]|]; try reflexivity.
    discriminate Hv.
  - destruct (SearchFilters.currentLocation filters) as [loc|]; [| reflexivity].
    apply andb_true_iff in Hloc as [Hlat Hlng].
    cbn [forallb Sql.holds Sql.numeric Typed.transformBuilding
         Building.lat Building.lng].
    destruct (Row.lat r) as [y|]; [| discriminate Hlat].
    destruct (Row.lng r) as [x|]; [| discriminate Hlng].
    rewrite !coordinate_lower, !coordinate_upper, andb_true_r, !andb_assoc.
    reflexivity.
Qed.

Lemma remoteIds_In now rows filters id :
  In id (remoteIds now rows filters) <->
  exists r, In r rows /\ remote_keeps filters r = true
            /\ id = VNum (of_Z (Row.building_id r)).
Proof.
  unfold remoteIds.
  rewrite (searchBuildings_healthy now (dataset rows) filters eq_refl).
  cbn [buildings]. rewrite map_map, in_map_iff. split.
  - intros (r & <- & Hr). apply order_by_In in Hr.
    rewrite matching_search in Hr. apply filter_In in Hr as [Hr Hk]. eauto.
  - intros (r & Hr & Hk & ->). exists r. split; [reflexivity |].
    apply order_by_In. rewrite matching_search. apply filter_In. auto.
Qed.

Lemma localIds_In now rows filters id :
  In id (localIds now rows filters) <->
  exists r, In r rows
            /\ Local.predicate filters (Typed.transformBuilding now r) = true
            /\ id = VNum (of_Z (Row.building_id r)).
Proof.
  unfold localIds, Local.searchBuildings. rewrite in_map_iff. split.
  - intros (b & <- & Hb). apply filter_In in Hb as [Hb Hk].
    apply in_map_iff in Hb as (r & <- & Hr). eauto.
  - intros (r & Hr & Hk & ->). exists (Typed.transformBuilding now r).
    split; [reflexivity |]. apply filter_In. split; [| exact Hk].
    apply in_map. exact Hr.
Qed.

(** C1 (amended). The remote clauses of [searchBuildings] and the local
    predicate keep the same ids on every dataset of comparable rows, for every
    filter whose query is trimmed and free of the characters reserved by the
    pattern and by the filter string: each row has an architect for the inner
    join, no
    thumbnail or video reference tested by the filter is the empty string, and
    no coordinate tested by the filter is null. *)
Theorem search_paths_agree (now : Clock) (rows : list Row.t)
        (filters : SearchFilters.t) :
  plain_query (SearchFilters.query filters) = true ->
  forallb (comparable filters) rows = true ->
  forall id, In id (remoteIds now rows filters) <-> In id (localIds now rows filters).
Proof.
  intros Hq Hrows id. rewrite remoteIds_In, localIds_In.
  rewrite forallb_forall in Hrows.
  split; intros (r & Hr & Hk & ->); exists r;
    (split; [exact Hr |]); (split; [| reflexivity]);
    [rewrite <- (keeps_agree now filters r Hq (Hrows r Hr))
    | rewrite (keeps_agree now filters r Hq (Hrows r Hr))]; exact Hk.
Qed.

Lemma search_paths_agree_witness :
  plain_query (SearchFilters.query Sample.osakaPhotos) = true
  /\ forallb (comparable Sample.osakaPhotos)
             [Sample.church; Sample.titled 3 "Osaka Dome" "dome"] = true
  /\ (In (VNum (of_Z 42))
         (remoteIds Sample.now [Sample.church; Sample.titled 3 "Osaka Dome" "dome"]
                    Sample.osakaPhotos)
      <-> In (VNum (of_Z 42))
             (localIds Sample.now [Sample.church; Sample.titled 3 "Osaka Dome" "dome"]
                       Sample.osakaPhotos)).
Proof.
  split; [reflexivity |]. split; [reflexivity |].
  apply (search_paths_agree Sample.now
           [Sample.church; Sample.titled 3 "Osaka Dome" "dome"] Sample.osakaPhotos);
    reflexivity.
Defined.

(** C1 as stated fails: on a row whose thumbnail is the empty string the
    photo filter keeps the id remotely and drops it locally. *)
Lemma search_paths_differ :
  ~ (forall (now : Clock) (rows : list Row.t) (filters : SearchFilters.t) (id : value),
        In id (remoteIds now rows filters) <-> In id (localIds now rows filters)).
Proof.
  intros H.
  destruct (H Sample.now [Sample.bare] Sample.photosOnly (VNum (of_Z 7))) as [Hrl _].
  assert (Hin : In (VNum (of_Z 7)) (remoteIds Sample.now [Sample.bare] Sample.photosOnly))
    by (vm_compute; left; reflexivity).
  apply Hrl in Hin. vm_compute in Hin. exact Hin.
Qed.

(** The disagreement does not depend on how the local predicate is written.
    A row with a null thumbnail and a row with an empty one normalize to the
    same Building, and the photo clause keeps only the second: no predicate
    over Buildings decides like the remote clauses on both datasets. *)
Lemma no_local_predicate_agrees :
  ~ exists P : SearchFilters.t -> Building.t -> bool,
      forall (rows : list Row.t) (filters : SearchFilters.t) (id : value),
        In id (remoteIds Sample.now rows filters)
        <-> In id (map (fun b => Js.get "id" (Encode.building b))
                       (filter (P filters)
                               (map (Typed.transformBuilding Sample.now) rows))).
Proof.
  intros [P H].
  pose proof (H [Sample.bare] Sample.photosOnly (VNum (of_Z 7))) as [Hb _].
  pose proof (H [Sample.bare_null] Sample.photosOnly (VNum (of_Z 7))) as [_ Hn].
  change (map (Typed.transformBuilding Sample.now) [Sample.bare_null])
    with (map (Typed.transformBuilding Sample.now) [Sample.bare]) in Hn.
  assert (Hin : In (VNum (of_Z 7))
                   (remoteIds Sample.now [Sample.bare] Sample.photosOnly))
    by (left; reflexivity).
  apply Hb, Hn in Hin. exact Hin.
Qed.

(** Each condition of the agreement is needed. The inner join drops a row
    without architects that the local predicate keeps; an untrimmed query is
    matched remotely with its blanks; a pattern character in the query is a
    wildcard remotely only; a null coordinate fails every remote comparison
    and reads as 0 locally. *)
Example inner_join_differs :
  remoteIds Sample.now [Sample.orphan] (Sample.filtering EmptyString false None) = []
  /\ localIds Sample.now [Sample.orphan] (Sample.filtering EmptyString false None)
     = [VNum (of_Z 42)].
Proof. split; reflexivity. Qed.

Example untrimmed_query_differs :
  remoteIds Sample.now [Sample.church] (Sample.filtering " church " false None) = []
  /\ localIds Sample.now [Sample.church] (Sample.filtering " church " false None)
     = [VNum (of_Z 42)].
Proof. split; reflexivity. Qed.

Example wildcard_query_differs :
  remoteIds Sample.now [Sample.church] (Sample.filtering "ch_rch" false None)
  = [VNum (of_Z 42)]
  /\ localIds Sample.now [Sample.church] (Sample.filtering "ch_rch" false None) = [].
Proof. split; reflexivity. Qed.

Example null_coordinate_differs :
  remoteIds Sample.now [Sample.bare]
    (Sample.filtering EmptyString false (Some Sample.origin)) = []
  /\ localIds Sample.now [Sample.bare]
       (Sample.filtering EmptyString false (Some Sample.origin))
     = [VNum (of_Z 7)].
Proof. split; reflexivity. Qed.

(** The mock branch pages through exactly the buildings the local predicate
    keeps: one page that is long enough returns all of them. *)
Lemma fetchBuildingsMock_all mockBuildings filters limit :
  Z.of_nat (List.length (Local.searchBuildings mockBuildings filters)) <= limit ->
  fetchBuildingsMock mockBuildings filters 1 limit
  = (Local.searchBuildings mockBuildings filters,
     Z.of_nat (List.length (Local.searchBuildings mockBuildings filters))).
Proof.
  intros H. unfold fetchBuildingsMock, js_slice.
  set (l := Local.searchBuildings mockBuildings filters) in *.
  replace ((1 - 1) * limit) with 0 by lia. cbn [Z.ltb Z.compare Z.add].
  assert (E : (limit <? 0) = false) by (apply Z.ltb_ge; lia). rewrite E.
  rewrite Z.min_r by lia. rewrite Z.min_l by lia.
  rewrite Z.sub_0_r, Nat2Z.id. cbn [Z.to_nat skipn].
  rewrite firstn_all. reflexivity.
Qed.

(** * Further properties of the code *)

(** ** Trimming and splitting *)

Section TrimFacts.
Import JsString.

Lemma trimEnd_keeps_head c s :
  is_space c = false -> exists t, trimEnd (String c s) = String c t.
Proof.
  intros H. cbn [trimEnd]. destruct (trimEnd s); [rewrite H |]; eauto.
Qed.

Lemma trimEnd_idempotent s : trimEnd (trimEnd s) = trimEnd s.
Proof.
  induction s as [|c s IH]; [reflexivity |].
  cbn [trimEnd]. destruct (trimEnd s) as [|d t] eqn:E.
  - destruct (is_space c) eqn:Ec; [reflexivity |]. cbn [trimEnd]. rewrite Ec. reflexivity.
  - cbn [trimEnd]. cbn [trimEnd] in IH. destruct (trimEnd t) as [|d' t'] eqn:Et.
    + destruct (is_space d); [discriminate IH |]. injection IH as ->. reflexivity.
    + rewrite IH. reflexivity.
Qed.

Lemma trimStart_head s :
  trimStart s = EmptyString
  \/ exists c t, trimStart s = String c t /\ is_space c = false.
Proof.
  induction s as [|c s IH]; [left; reflexivity |].
  cbn [trimStart]. destruct (is_space c) eqn:E; [exact IH | right; eauto].
Qed.

Lemma trimStart_fixed c t : is_space c = false -> trimStart (String c t) = String c t.
Proof. intros H. cbn [trimStart]. rewrite H. reflexivity. Qed.

(** Trimming a trimmed string changes nothing. *)
Lemma trim_idempotent s : trim (trim s) = trim s.
Proof.
  unfold trim. destruct (trimStart_head s) as [E | (c & t & E & Hc)]; rewrite E.
  - reflexivity.
  - destruct (trimEnd_keeps_head c t Hc) as [u Eu].
    rewrite Eu, (trimStart_fixed c u Hc), <- Eu. apply trimEnd_idempotent.
Qed.

Lemma string_forall_trimStart p s :
  string_forall p s = true -> string_forall p (trimStart s) = true.
Proof.
  induction s as [|c s IH]; [auto |]. intros H. cbn [trimStart].
  destruct (is_space c); [| exact H].
  cbn in H. apply andb_true_iff in H as [_ H]. auto.
Qed.

Lemma string_forall_trimEnd p s :
  string_forall p s = true -> string_forall p (trimEnd s) = true.
Proof.
  induction s as [|c s IH]; [auto |]. intros H.
  cbn in H. apply andb_true_iff in H as [Hc Hs]. specialize (IH Hs).
  cbn [trimEnd]. destruct (trimEnd s) as [|d t].
  - destruct (is_space c); [reflexivity |]. cbn. rewrite Hc. reflexivity.
  - cbn [string_forall]. cbn [string_forall] in IH. rewrite Hc, IH. reflexivity.
Qed.

Lemma string_forall_trim p s :
  string_forall p s = true -> string_forall p (trim s) = true.
Proof. intros H. apply string_forall_trimEnd, string_forall_trimStart, H. Qed.

Lemma split_pieces sep s :
  Forall (fun t => string_forall (fun c => negb (Ascii.eqb c sep)) t = true)
         (split sep s).
Proof.
  induction s as [|c s IH]; [repeat constructor |].
  cbn [split]. destruct (Ascii.eqb c sep) eqn:E.
  - constructor; [reflexivity | exact IH].
  - destruct (split sep s) as [|h t]; [repeat constructor; cbn; rewrite E; reflexivity |].
    inversion IH as [|? ? Hh Ht]; subst. constructor; [| exact Ht].
    cbn. rewrite E, Hh. reflexivity.
Qed.

End TrimFacts.

(** X1. On a string [parseCommaSeparated] never throws, and the tokens it
    returns are not empty, carry no white space at either end and hold no
    comma. *)
Theorem parseCommaSeparated_tokens (s : string) :
  exists ts,
    parseCommaSeparated (VStr s) = Ok (VArr (map VStr ts))
    /\ Forall (fun t => t <> EmptyString
                        /\ JsString.trim t = t
                        /\ string_forall (fun c => negb (Ascii.eqb c ",")) t = true)
              ts.
Proof.
  unfold parseCommaSeparated. cbn [Js.truthy].
  destruct (JsString.is_empty s); cbn [negb].
  - exists []. split; [reflexivity | constructor].
  - eexists. split; [reflexivity |].
    apply Forall_forall. intros t Ht.
    apply filter_In in Ht as [Ht Hlen].
    apply in_map_iff in Ht as (u & <- & Hu).
    split; [| split].
    + intros E. rewrite E in Hlen. discriminate Hlen.
    + apply trim_idempotent.
    + apply string_forall_trim.
      pose proof (split_pieces "," s) as Hp. rewrite Forall_forall in Hp.
      apply Hp, Hu.
Qed.

(** ** Years *)

Lemma span_digits_then ds rest :
  all_digits ds = true -> starts_with_digit rest = false ->
  Digits.span (ds ++ rest) = (ds, rest).
Proof.
  intros Hd Hr. induction ds as [|c ds IH].
  - cbn [append]. destruct rest as [|c r]; [reflexivity |].
    cbn in Hr |- *. rewrite Hr. reflexivity.
  - cbn in Hd. apply andb_true_iff in Hd as [Hc Hd].
    cbn [append Digits.span]. rewrite Hc, (IH Hd). reflexivity.
Qed.

Lemma of_nonneg_head n :
  0 <= n < 10 ^ 21 -> Digits.to_double n = n ->
  exists c t, Digits.of_nonneg n = String c t /\ JsString.is_digit c = true.
Proof.
  intros Hn Hd. destruct (of_nonneg_reads_back n Hn Hd) as (Hds & Hne & _).
  destruct (Digits.of_nonneg n) as [|c t]; [contradiction |].
  cbn in Hds. apply andb_true_iff in Hds as [Hc _]. eauto.
Qed.

(** The notation of an integer-valued number within 10^21 of zero, followed
    by anything that is not a digit, reads back. *)
Lemma parseInt_digits_of_int z rest :
  Z.abs z < 10 ^ 21 -> Digits.to_double (Z.abs z) = Z.abs z ->
  starts_with_digit rest = false ->
  parseInt_digits (Digits.of_int z ++ rest) = Some z.
Proof.
  intros Hlt Hd Hr. unfold parseInt_digits, Digits.of_int.
  destruct (z <? 0) eqn:Ez.
  - apply Z.ltb_lt in Ez. rewrite Z.abs_neq in Hlt, Hd by lia.
    destruct (of_nonneg_reads_back (- z) ltac:(lia) Hd) as (Hds & Hne & Hv).
    cbn [append JsString.trimStart].
    change (JsString.is_space "-") with false. cbn iota.
    cbn [Digits.sign]. change (Ascii.eqb "-" "-") with true. cbn iota.
    rewrite span_digits_then by assumption.
    cbn [fst]. destruct (Digits.of_nonneg (- z)) eqn:E; [contradiction |].
    cbn [JsString.is_empty]. cbv zeta. rewrite Hv. f_equal. lia.
  - apply Z.ltb_ge in Ez. rewrite Z.abs_eq in Hlt, Hd by lia.
    destruct (of_nonneg_reads_back z ltac:(lia) Hd) as (Hds & Hne & Hv).
    destruct (of_nonneg_head z ltac:(lia) Hd) as (c & t & E & Hc).
    rewrite E. cbn [append JsString.trimStart]. rewrite (digit_not_space c Hc).
    cbn [Digits.sign]. rewrite (digit_not_dash c Hc), (digit_not_plus c Hc).
    change (String c (t ++ rest)) with (String c t ++ rest)%string.
    rewrite <- E, span_digits_then by assumption.
    cbn [fst]. rewrite E. cbn [JsString.is_empty]. cbv zeta. rewrite <- E, Hv.
    reflexivity.
Qed.

(** X2. [parseYear] reads an integer-valued number within 10^21 of zero back
    from its notation, also when the column goes on with text that does not
    start with a digit. *)
Theorem parseYear_of_int (now : Clock) (z : Z) (rest : string) :
  Z.abs z < 10 ^ 21 -> Digits.to_double (Z.abs z) = Z.abs z ->
  starts_with_digit rest = false ->
  parseYear now (VStr (Digits.of_int z ++ rest)) = of_Z z.
Proof.
  intros Hlt Hd Hr. unfold parseYear. cbn [Js.truthy Js.parseInt].
  unfold parseInt_string. rewrite (parseInt_digits_of_int z rest Hlt Hd Hr).
  assert (Hne : JsString.is_empty (Digits.of_int z ++ rest) = false).
  { unfold Digits.of_int. destruct (z <? 0); [reflexivity |].
    pose proof (of_nonneg_nonempty z).
    destruct (Digits.of_nonneg z); [contradiction | reflexivity]. }
  rewrite Hne. reflexivity.
Qed.

Lemma parseYear_of_int_witness :
  parseYear Sample.now (VStr "1989-1991") = of_Z 1989.
Proof.
  apply (parseYear_of_int Sample.now 1989 "-1991");
    [simpl; lia | reflexivity | reflexivity].
Defined.

(** ** Invariants of the normalized Building *)

(** The object a successful run of [transformBuilding] builds. *)
Lemma transformBuilding_Ok_fields now data b :
  transformBuilding now data = Ok b ->
  exists p1 p2 p3 p4 mapped,
    optional_map transformArchitect (Js.get "building_architects" data) = Ok mapped
    /\ b = VObj [ ("id", Js.get "building_id" data);
                  ("uid", Js.get "uid" data);
                  ("title", Js.get "title" data);
                  ("titleEn", Js.or (Js.get "titleEn" data) (Js.get "title" data));
                  ("thumbnailUrl", Js.or (Js.get "thumbnailUrl" data) (VStr EmptyString));
                  ("youtubeUrl", Js.or (Js.get "youtubeUrl" data) (VStr EmptyString));
                  ("completionYears",
                    VNum (parseYear now (Js.get "completionYears" data)));
                  ("parentBuildingTypes", VArr p1);
                  ("buildingTypes", VArr p2);
                  ("parentStructures", VArr p3);
                  ("structures", VArr p4);
                  ("prefectures", Js.get "prefectures" data);
                  ("areas", Js.get "areas" data);
                  ("location", Js.get "location" data);
                  ("architectDetails",
                    Js.or (Js.get "architectDetails" data) (VStr EmptyString));
                  ("lat", Js.or (VNum (Js.parseFloat (Js.get "lat" data))) (VNum (of_Z 0)));
                  ("lng", Js.or (VNum (Js.parseFloat (Js.get "lng" data))) (VNum (of_Z 0)));
                  ("architects", Js.or mapped (VArr []));
                  ("photos", VArr []);
                  ("likes", VNum (of_Z 0));
                  ("created_at",
                    Js.or (Js.get "created_at" data) (VStr (toISOString now)));
                  ("updated_at",
                    Js.or (Js.get "updated_at" data) (VStr (toISOString now))) ].
Proof.
  unfold transformBuilding. intros H. peel H. injection H as <-.
  destruct (parseCommaSeparated_array _ _ E0) as [p1 ->].
  destruct (parseCommaSeparated_array _ _ E1) as [p2 ->].
  destruct (parseCommaSeparated_array _ _ E2) as [p3 ->].
  destruct (parseCommaSeparated_array _ _ E3) as [p4 ->].
  exists p1, p2, p3, p4, x4. split; [exact E4 |].
  assert (Ex : x = Js.get "building_id" data)
    by (destruct data; try discriminate E; injection E as <-; reflexivity).
  rewrite Ex. reflexivity.
Qed.

Lemma parseYear_number now v : isNaN (parseYear now v) = false.
Proof.
  unfold parseYear. destruct (negb (Js.truthy v)); [reflexivity |].
  destruct (isNaN (Js.parseInt v)) eqn:E; [reflexivity | exact E].
Qed.

Lemma coordinate_number v :
  exists n, Js.or (VNum (Js.parseFloat v)) (VNum (of_Z 0)) = VNum n
            /\ isNaN n = false.
Proof.
  unfold Js.or. cbn [Js.truthy].
  destruct (Js.parseFloat v) as [|neg|q] eqn:E; cbn [number_truthy].
  - eexists; split; reflexivity.
  - eexists; split; reflexivity.
  - destruct (negb (Qeq_bool q 0)); eexists; split; reflexivity.
Qed.

(** X3. Whatever the raw row holds, the numeric fields of the Building
    that [transformBuilding] returns are numbers and never [NaN]:
    [completionYears], [lat], [lng] and [likes]. *)
Theorem transformBuilding_numbers (now : Clock) (data b : value) :
  transformBuilding now data = Ok b ->
  forall k, In k ["completionYears"; "lat"; "lng"; "likes"] ->
  exists n, Js.get k b = VNum n /\ isNaN n = false.
Proof.
  intros H k Hk.
  destruct (transformBuilding_Ok_fields _ _ _ H) as (p1 & p2 & p3 & p4 & m & _ & ->).
  destruct Hk as [<-|[<-|[<-|[<-|[]]]]];
    cbn [Js.get Js.lookup String.eqb Ascii.eqb Bool.eqb].
  - eexists. split; [reflexivity | apply parseYear_number].
  - apply coordinate_number.
  - apply coordinate_number.
  - eexists. split; reflexivity.
Qed.

Lemma transformBuilding_numbers_witness :
  exists n,
    Js.get "completionYears"
      (Encode.building (Typed.transformBuilding Sample.now Sample.bare)) = VNum n
    /\ isNaN n = false.
Proof.
  apply (transformBuilding_numbers Sample.now (Encode.row Sample.bare)
           (Encode.building (Typed.transformBuilding Sample.now Sample.bare))).
  - vm_compute. reflexivity.
  - left. reflexivity.
Defined.

Lemma or_default_present v d : absent d = false -> absent (Js.or v d) = false.
Proof.
  intros Hd. unfold Js.or. destruct (Js.truthy v) eqn:E; [| exact Hd].
  destruct v; try discriminate E; reflexivity.
Qed.

Lemma optional_map_array f v mapped :
  optional_map f v = Ok mapped -> exists l, Js.or mapped (VArr []) = VArr l.
Proof.
  destruct v; cbn; try discriminate; try (intros [= <-]; eexists; reflexivity).
  intros H. peel H. injection H as <-. eexists. reflexivity.
Qed.

(** X4. Whatever the raw row holds, the fields that [transformBuilding]
    defaults are never [null] or [undefined] in the Building it returns
    ([thumbnailUrl], [youtubeUrl], [architectDetails], [created_at],
    [updated_at]), and the multi-valued fields are always arrays (the four
    taxonomy fields, [architects], [photos]). *)
Theorem transformBuilding_never_null (now : Clock) (data b : value) :
  transformBuilding now data = Ok b ->
  (forall k,
      In k ["thumbnailUrl"; "youtubeUrl"; "architectDetails"; "created_at"; "updated_at"] ->
      absent (Js.get k b) = false)
  /\ (forall k,
         In k ["parentBuildingTypes"; "buildingTypes"; "parentStructures";
               "structures"; "architects"; "photos"] ->
         exists l, Js.get k b = VArr l).
Proof.
  intros H.
  destruct (transformBuilding_Ok_fields _ _ _ H) as (p1 & p2 & p3 & p4 & m & Em & ->).
  split; intros k Hk.
  - destruct Hk as [<-|[<-|[<-|[<-|[<-|[]]]]]];
      cbn [Js.get Js.lookup String.eqb Ascii.eqb Bool.eqb];
      apply or_default_present; reflexivity.
  - destruct Hk as [<-|[<-|[<-|[<-|[<-|[<-|[]]]]]]];
      cbn [Js.get Js.lookup String.eqb Ascii.eqb Bool.eqb]; eauto.
    apply (optional_map_array _ _ _ Em).
Qed.

Lemma transformBuilding_never_null_witness :
  absent (Js.get "thumbnailUrl"
            (Encode.building (Typed.transformBuilding Sample.now Sample.bare_null)))
  = false.
Proof.
  apply (transformBuilding_never_null Sample.now (Encode.row Sample.bare_null)
           (Encode.building (Typed.transformBuilding Sample.now Sample.bare_null))).
  - vm_compute. reflexivity.
  - left. reflexivity.
Defined.

(** X5. The title of the Building is the row's title, and its English title
    is the row's [titleEn] when that is not empty and the row's title
    otherwise; so the English title is never empty when the row has a
    title. *)
Theorem transformBuilding_titleEn (now : Clock) (data b : value) :
  transformBuilding now data = Ok b ->
  Js.get "title" b = Js.get "title" data
  /\ (Js.truthy (Js.get "titleEn" data) = true ->
      Js.get "titleEn" b = Js.get "titleEn" data)
  /\ (Js.truthy (Js.get "titleEn" data) = false ->
      Js.get "titleEn" b = Js.get "title" data)
  /\ (Js.truthy (Js.get "title" data) = true ->
      Js.truthy (Js.get "titleEn" b) = true).
Proof.
  intros H.
  destruct (transformBuilding_Ok_fields _ _ _ H) as (p1 & p2 & p3 & p4 & m & _ & ->).
  cbn [Js.get Js.lookup String.eqb Ascii.eqb Bool.eqb]. unfold Js.or.
  split; [reflexivity |].
  destruct (Js.truthy (Js.get "titleEn" data)) eqn:E.
  - split; [intros _; reflexivity |]. split; [discriminate | intros _; exact E].
  - split; [discriminate |]. split; [intros _; reflexivity | auto].
Qed.

Lemma transformBuilding_titleEn_witness :
  Js.get "titleEn"
    (Encode.building (Typed.transformBuilding Sample.now Sample.church))
  = Js.get "titleEn" (Encode.row Sample.church)
  /\ Js.get "titleEn"
       (Encode.building (Typed.transformBuilding Sample.now Sample.bare))
     = Js.get "title" (Encode.row Sample.bare).
Proof.
  split.
  - destruct (transformBuilding_titleEn Sample.now (Encode.row Sample.church)
                (Encode.building (Typed.transformBuilding Sample.now Sample.church)))
      as (_ & H & _); [vm_compute; reflexivity |].
    apply H. reflexivity.
  - destruct (transformBuilding_titleEn Sample.now (Encode.row Sample.bare)
                (Encode.building (Typed.transformBuilding Sample.now Sample.bare)))
      as (_ & _ & H & _); [vm_compute; reflexivity |].
    apply H. reflexivity.
Defined.

(** ** Slugs and the detail page *)

Section SlugFacts.
Import JsString.

Lemma string_forall_app p a b :
  string_forall p (a ++ b) = string_forall p a && string_forall p b.
Proof.
  induction a as [|c a IH]; [reflexivity |].
  cbn [append string_forall]. rewrite IH. apply andb_assoc.
Qed.

Lemma string_forall_weaken (p q : ascii -> bool) s :
  (forall c, p c = true -> q c = true) ->
  string_forall p s = true -> string_forall q s = true.
Proof.
  intros Hpq. induction s as [|c s IH]; [auto |]. cbn. intros H.
  apply andb_true_iff in H as [Hc Hs]. rewrite (Hpq c Hc), (IH Hs). reflexivity.
Qed.

Lemma string_forall_keep p s : string_forall p (keep p s) = true.
Proof.
  induction s as [|c s IH]; [reflexivity |]. cbn [keep].
  destruct (p c) eqn:E; [cbn; rewrite E, IH; reflexivity | exact IH].
Qed.

Lemma string_forall_squeeze (p q0 q : ascii -> bool) r s : forall in_run,
  (forall c, q0 c = true -> p c = false -> q c = true) ->
  q r = true ->
  string_forall q0 s = true ->
  string_forall q (squeeze_from p r in_run s) = true.
Proof.
  intros in_run Hq Hr. revert in_run.
  induction s as [|c s IH]; intros in_run H; [reflexivity |].
  cbn in H. apply andb_true_iff in H as [Hc Hs]. cbn [squeeze_from].
  destruct (p c) eqn:Ep.
  - destruct in_run; [apply IH, Hs |]. cbn. rewrite Hr, (IH true Hs). reflexivity.
  - cbn. rewrite (Hq c Hc Ep), (IH false Hs). reflexivity.
Qed.

Lemma string_forall_take p n : forall s,
  string_forall p s = true -> string_forall p (take n s) = true.
Proof.
  unfold take. induction n as [|n IH]; intros s H.
  - destruct s; reflexivity.
  - destruct s as [|c s]; [reflexivity |]. cbn in H |- *.
    apply andb_true_iff in H as [Hc Hs]. rewrite Hc, (IH s Hs). reflexivity.
Qed.

Lemma take_length n : forall s, (String.length (take n s) <= n)%nat.
Proof.
  unfold take. induction n as [|n IH]; intros s.
  - destruct s; cbn; lia.
  - destruct s as [|c s]; cbn; [lia |]. specialize (IH s). lia.
Qed.

Lemma all_digits_safe s : all_digits s = true -> string_forall slug_safe s = true.
Proof.
  induction s as [|c s IH]; [auto |]. cbn. intros H.
  apply andb_true_iff in H as [Hc Hs]. unfold slug_safe at 1.
  rewrite Hc, orb_true_r, (IH Hs). reflexivity.
Qed.

Lemma of_int_safe z :
  Z.abs z < 10 ^ 21 -> Digits.to_double (Z.abs z) = Z.abs z ->
  string_forall slug_safe (Digits.of_int z) = true.
Proof.
  intros Hlt Hd. unfold Digits.of_int. destruct (z <? 0) eqn:E.
  - apply Z.ltb_lt in E. rewrite Z.abs_neq in Hlt, Hd by lia.
    destruct (of_nonneg_reads_back (- z) ltac:(lia) Hd) as (Hds & _).
    cbn [string_forall]. rewrite (all_digits_safe _ Hds). reflexivity.
  - apply Z.ltb_ge in E. rewrite Z.abs_eq in Hlt, Hd by lia.
    destruct (of_nonneg_reads_back z ltac:(lia) Hd) as (Hds & _).
    apply all_digits_safe, Hds.
Qed.

(** The title part of a slug. *)
Lemma slug_title_safe title :
  string_forall slug_safe
    (take 50 (trim (squeeze (fun c => Ascii.eqb c "-") "-"
                      (squeeze is_space "-" (keep slug_char (toLowerCase title))))))
  = true.
Proof.
  apply string_forall_take, string_forall_trim.
  unfold squeeze.
  apply (string_forall_squeeze _ slug_safe); [intros c H _; exact H | reflexivity |].
  apply (string_forall_squeeze _ slug_char); [| reflexivity | apply string_forall_keep].
  intros c Hc Hs. unfold slug_char in Hc. unfold slug_safe. rewrite Hs in Hc.
  rewrite orb_false_r in Hc. exact Hc.
Qed.

(** What [extractIdFromSlug] reads from a slug that starts with an id. *)
Lemma extractIdFromSlug_negative z rest :
  z < 0 -> extractIdFromSlug (Digits.of_int z ++ String "-" rest) = NaN.
Proof.
  intros Hz. unfold extractIdFromSlug, Digits.of_int.
  assert (E : (z <? 0) = true) by (apply Z.ltb_lt; exact Hz).
  rewrite E. reflexivity.
Qed.

Lemma extractIdFromSlug_number z rest :
  0 <= z < 10 ^ 21 -> Digits.to_double z = z ->
  extractIdFromSlug (Digits.of_int z ++ String "-" rest) = of_Z z.
Proof.
  intros Hz Hd. unfold extractIdFromSlug, Digits.of_int.
  assert (E : (z <? 0) = false) by (apply Z.ltb_ge; lia).
  rewrite E. destruct (of_nonneg_reads_back z Hz Hd) as (Hds & Hne & Hv).
  rewrite split_digits_head by exact Hds.
  unfold parseInt_string. rewrite parseInt_digits_all by assumption.
  rewrite Hv. reflexivity.
Qed.

Lemma generateSlug_shape b :
  exists t,
    generateSlug b = (Digits.of_int (Building.id b) ++ String "-" t)%string
    /\ (String.length t <= 50)%nat
    /\ string_forall slug_safe t = true.
Proof.
  unfold generateSlug. eexists. split; [reflexivity |].
  split; [apply take_length | apply slug_title_safe].
Qed.

End SlugFacts.

(** X6. Whatever the titles of a Building are, when its id is an
    integer-valued number within 10^21 of zero its slug is the id, a dash, and
    at most 50 further characters, and every character of the slug is a
    lower-case letter, a digit or a dash. *)
Theorem generateSlug_safe (b : Building.t) :
  Z.abs (Building.id b) < 10 ^ 21 ->
  Digits.to_double (Z.abs (Building.id b)) = Z.abs (Building.id b) ->
  exists t,
    generateSlug b = (Digits.of_int (Building.id b) ++ String "-" t)%string
    /\ (String.length t <= 50)%nat
    /\ string_forall slug_safe (generateSlug b) = true.
Proof.
  intros Hlt Hd. destruct (generateSlug_shape b) as (t & E & Hl & Hs).
  exists t. split; [exact E |]. split; [exact Hl |].
  rewrite E, string_forall_app, of_int_safe by assumption. cbn. exact Hs.
Qed.

Lemma generateSlug_safe_witness :
  exists t,
    generateSlug Sample.building = (Digits.of_int 42 ++ String "-" t)%string
    /\ (String.length t <= 50)%nat
    /\ string_forall slug_safe (generateSlug Sample.building) = true.
Proof.
  apply (generateSlug_safe Sample.building); [simpl; lia | reflexivity].
Defined.

Section DetailFacts.

Lemma id_is_of_Z a z : Detail.id_is a (of_Z z) = (a =? z).
Proof.
  unfold Detail.id_is, of_Z. destruct (a =? z) eqn:E.
  - apply Z.eqb_eq in E as ->. apply Qeq_bool_iff. reflexivity.
  - apply Z.eqb_neq in E. destruct (Qeq_bool (inject_Z a) (inject_Z z)) eqn:Q; [| reflexivity].
    apply Qeq_bool_eq in Q. unfold Qeq in Q. cbn in Q. lia.
Qed.

Lemma generateSlug_not_empty b : JsString.is_empty (generateSlug b) = false.
Proof.
  destruct (generateSlug_shape b) as (t & -> & _).
  unfold Digits.of_int. destruct (Building.id b <? 0); [reflexivity |].
  pose proof (of_nonneg_nonempty (Building.id b)).
  destruct (Digits.of_nonneg (Building.id b)); [contradiction | reflexivity].
Qed.

Lemma find_first {A : Type} (p : A -> bool) (l : list A) (x : A) :
  In x l -> p x = true -> exists y, find p l = Some y.
Proof.
  induction l as [|a l IH]; [intros [] |]. intros [->|Hx] Hp; cbn.
  - rewrite Hp. eauto.
  - destruct (p a); eauto.
Qed.

Lemma same_id_same_building (l : list Building.t) (x y : Building.t) :
  NoDup (map Building.id l) -> In x l -> In y l ->
  Building.id x = Building.id y -> x = y.
Proof.
  induction l as [|a l IH]; [intros _ [] |].
  cbn [map]. intros Hn Hx Hy E. apply NoDup_cons_iff in Hn as [Ha Hn].
  destruct Hx as [->|Hx], Hy as [->|Hy]; auto.
  - exfalso. apply Ha. rewrite E. apply in_map, Hy.
  - exfalso. apply Ha. rewrite <- E. apply in_map, Hx.
Qed.

Lemma findIndex_Some {A : Type} (p : A -> bool) (l : list A) i :
  Home.findIndex p l = Some i ->
  exists x, nth_error l i = Some x /\ p x = true.
Proof.
  revert i. induction l as [|a l IH]; intros i; [discriminate |].
  cbn [Home.findIndex]. destruct (p a) eqn:E.
  - intros [= <-]. exists a. auto.
  - destruct (Home.findIndex p l) as [j|]; [| discriminate].
    intros [= <-]. apply (IH j eq_refl).
Qed.

Lemma findIndex_first {A : Type} (p : A -> bool) (l : list A) i :
  Home.findIndex p l = Some i ->
  forall j x, (j < i)%nat -> nth_error l j = Some x -> p x = false.
Proof.
  revert i. induction l as [|a l IH]; intros i; [discriminate |].
  cbn [Home.findIndex]. destruct (p a) eqn:E.
  - intros [= <-] j x Hj. lia.
  - destruct (Home.findIndex p l) as [k|]; [| discriminate].
    intros [= <-] j x Hj Hx. destruct j as [|j].
    + cbn in Hx. injection Hx as <-. exact E.
    + cbn in Hx. apply (IH k eq_refl j x); [lia | exact Hx].
Qed.

Lemma findIndex_None {A : Type} (p : A -> bool) (l : list A) :
  Home.findIndex p l = None <-> forall x, In x l -> p x = false.
Proof.
  induction l as [|a l IH]; cbn [Home.findIndex]; [split; [intros _ x [] | auto] |].
  destruct (p a) eqn:E.
  - split; [discriminate |]. intros H. rewrite (H a (or_introl eq_refl)) in E. discriminate.
  - destruct (Home.findIndex p l) as [j|].
    + split; [discriminate |]. intros H.
      assert (F : Some j = None) by (apply IH; intros x Hx; apply H; right; exact Hx).
      discriminate F.
    + split; [| reflexivity]. intros _ x [<-|Hx]; [exact E |].
      apply IH; [reflexivity | exact Hx].
Qed.

End DetailFacts.

(** X7. Opening the slug of a listed Building whose id is a non-negative
    integer-valued number below 10^21 finds a listed Building with the same
    id, and that very Building when the ids of the list are distinct. *)
Theorem resolve_generateSlug (buildings : list Building.t) (b : Building.t) :
  In b buildings -> 0 <= Building.id b < 10 ^ 21 ->
  Digits.to_double (Building.id b) = Building.id b ->
  exists b',
    Detail.resolve None (Some (generateSlug b)) buildings = Some b'
    /\ In b' buildings
    /\ Building.id b' = Building.id b
    /\ (NoDup (map Building.id buildings) -> b' = b).
Proof.
  intros Hb Hid Hd. unfold Detail.resolve. rewrite generateSlug_not_empty.
  destruct (generateSlug_shape b) as (t & -> & _).
  rewrite extractIdFromSlug_number by assumption.
  destruct (find_first (fun x => Detail.id_is (Building.id x) (of_Z (Building.id b)))
                       buildings b Hb) as [b' Hf].
  { rewrite id_is_of_Z. apply Z.eqb_refl. }
  exists b'. split; [exact Hf |].
  apply find_some in Hf as [Hin Hp]. rewrite id_is_of_Z in Hp. apply Z.eqb_eq in Hp.
  split; [exact Hin |]. split; [exact Hp |].
  intros Hn. apply (same_id_same_building buildings); assumption.
Qed.

Lemma resolve_generateSlug_witness :
  exists b',
    Detail.resolve None (Some (generateSlug Sample.building)) [Sample.building] = Some b'
    /\ In b' [Sample.building]
    /\ Building.id b' = 42
    /\ (NoDup (map Building.id [Sample.building]) -> b' = Sample.building).
Proof.
  apply (resolve_generateSlug [Sample.building] Sample.building).
  - left. reflexivity.
  - cbn. lia.
  - reflexivity.
Defined.

(** X8. A slug without a number in front never resolves, and the slug of a
    Building with a negative id is such a slug: its first segment is empty. *)
Theorem resolve_without_id (buildings : list Building.t) :
  (forall slug,
      extractIdFromSlug slug = NaN ->
      Detail.resolve None (Some slug) buildings = None)
  /\ (forall b,
         Building.id b < 0 ->
         extractIdFromSlug (generateSlug b) = NaN
         /\ Detail.resolve None (Some (generateSlug b)) buildings = None).
Proof.
  assert (G : forall slug, extractIdFromSlug slug = NaN ->
                           Detail.resolve None (Some slug) buildings = None).
  { intros slug E. unfold Detail.resolve. rewrite E.
    destruct (JsString.is_empty slug); [reflexivity |].
    induction buildings as [|a l IH]; [reflexivity | exact IH]. }
  split; [exact G |]. intros b Hb.
  assert (E : extractIdFromSlug (generateSlug b) = NaN).
  { destruct (generateSlug_shape b) as (t & -> & _).
    apply extractIdFromSlug_negative, Hb. }
  split; [exact E | apply G, E].
Qed.

Lemma resolve_without_id_witness :
  Detail.resolve None (Some "church-of-the-light") [Sample.building] = None.
Proof.
  apply (resolve_without_id [Sample.building]). reflexivity.
Defined.

(** X9. The display index of a listed Building is its position counted from
    one of the first Building with its id: a Building with the id sits there
    and every Building before it has another id; it is 0 when no listed
    Building has that id. *)
Theorem displayIndex_position (buildings : list Building.t) (b : Building.t) :
  (In b buildings ->
   1 <= Detail.displayIndex buildings b <= Z.of_nat (List.length buildings)
   /\ (exists b',
         nth_error buildings (Z.to_nat (Detail.displayIndex buildings b - 1)) = Some b'
         /\ Building.id b' = Building.id b)
   /\ (forall j b',
         Z.of_nat j < Detail.displayIndex buildings b - 1 ->
         nth_error buildings j = Some b' ->
         Building.id b' <> Building.id b))
  /\ ((forall b', In b' buildings -> Building.id b' <> Building.id b) ->
      Detail.displayIndex buildings b = 0).
Proof.
  unfold Detail.displayIndex. split.
  - intros Hb.
    destruct (Home.findIndex (fun x => Building.id x =? Building.id b) buildings)
      as [i|] eqn:E.
    + destruct (findIndex_Some _ _ _ E) as (x & Hx & Hp). apply Z.eqb_eq in Hp.
      assert (Hi : (i < List.length buildings)%nat)
        by (apply nth_error_Some; congruence).
      split; [lia |]. split.
      * exists x. replace (Z.to_nat (Z.of_nat i + 1 - 1)) with i by lia. auto.
      * intros j y Hj Hy. apply Z.eqb_neq.
        apply (findIndex_first _ _ _ E j y); [lia | exact Hy].
    + rewrite findIndex_None in E. specialize (E b Hb).
      rewrite Z.eqb_refl in E. discriminate E.
  - intros H.
    assert (E : Home.findIndex (fun x => Building.id x =? Building.id b) buildings = None).
    { apply findIndex_None. intros x Hx. apply Z.eqb_neq, H, Hx. }
    rewrite E. reflexivity.
Qed.

Lemma displayIndex_position_witness :
  Detail.displayIndex [Sample.huge; Sample.building; Sample.building] Sample.building = 2
  /\ 1 <= Detail.displayIndex [Sample.huge; Sample.building; Sample.building]
            Sample.building <= 3.
Proof.
  split; [reflexivity |].
  apply (displayIndex_position [Sample.huge; Sample.building; Sample.building]
           Sample.building).
  right. left. reflexivity.
Defined.

(** ** Lookup by id *)

Lemma getBuildingById_cases now be id :
  getBuildingById now be id
  = match table_failure be with
    | Some message => Throw (SupabaseApiError 404 message)
    | None =>
        match joined_with_id id be with
        | [r] => transformBuilding now (Encode.row r)
        | _ => Throw (SupabaseApiError 404 not_single)
        end
    end.
Proof.
  unfold getBuildingById, single, Builder.run, eq_building_id, joined_with_id.
  cbn [table_failure]. destruct (table_failure be); [reflexivity |].
  cbn [error data Builder.select_joined order_of range_of limit_of].
  unfold Builder.matching. cbn [buildings_table_2 inner_architects clauses
                                  Builder.select_joined forallb].
  rewrite (filter_ext (fun r => Builder.has_architects r && true)
                      Builder.has_architects) by (intros r; apply andb_true_r).
  destruct (filter Builder.has_architects _) as [|r [|r' l]]; reflexivity.
Qed.

(** X10. A Building that [getBuildingById] returns is the normalized form
    of a row of the table that has the requested key and an architect, and its
    id is the requested one; the call returns that Building whenever exactly
    one such row exists and the table endpoint answers. *)
Theorem getBuildingById_found (now : Clock) (be : Backend) (id : Z) :
  (forall b,
      getBuildingById now be id = Ok b ->
      Js.get "id" b = VNum (of_Z id)
      /\ exists r,
           In r (buildings_table_2 be)
           /\ Row.building_id r = id
           /\ transformBuilding now (Encode.row r) = Ok b)
  /\ (forall r,
         table_failure be = None -> joined_with_id id be = [r] ->
         getBuildingById now be id = transformBuilding now (Encode.row r)).
Proof.
  rewrite getBuildingById_cases. split.
  - intros b H. destruct (table_failure be); [discriminate H |].
    destruct (joined_with_id id be) as [|r [|r' l]] eqn:E; try discriminate H.
    assert (Hr : In r (joined_with_id id be)) by (rewrite E; left; reflexivity).
    unfold joined_with_id in Hr. apply filter_In in Hr as [Hr _].
    apply filter_In in Hr as [Hr Hid]. apply Z.eqb_eq in Hid.
    rewrite transformBuilding_typed in H. injection H as <-.
    split; [cbn; rewrite Hid; reflexivity |].
    exists r. split; [exact Hr |]. split; [exact Hid | apply transformBuilding_typed].
  - intros r -> ->. reflexivity.
Qed.

Lemma getBuildingById_found_witness :
  getBuildingById Sample.now Sample.store 42
  = transformBuilding Sample.now (Encode.row Sample.church).
Proof.
  apply (getBuildingById_found Sample.now Sample.store 42); reflexivity.
Defined.

(** X11. Every failure of [getBuildingById] is a [SupabaseApiError] with
    status 404, a transport failure included; it fails whenever the rows with
    the key are not exactly one: none, or several. *)
Theorem getBuildingById_errors (now : Clock) (be : Backend) (id : Z) :
  (forall e,
      getBuildingById now be id = Throw e ->
      exists message, e = SupabaseApiError 404 message)
  /\ (forall message,
         table_failure be = Some message ->
         getBuildingById now be id = Throw (SupabaseApiError 404 message))
  /\ (table_failure be = None ->
      List.length (joined_with_id id be) <> 1%nat ->
      exists message,
        getBuildingById now be id = Throw (SupabaseApiError 404 message)).
Proof.
  rewrite getBuildingById_cases. split; [| split].
  - intros e H. destruct (table_failure be); [injection H as <-; eauto |].
    destruct (joined_with_id id be) as [|r [|r' l]];
      try (injection H as <-; eauto).
    rewrite transformBuilding_typed in H. discriminate H.
  - intros message ->. reflexivity.
  - intros -> Hl. destruct (joined_with_id id be) as [|r [|r' l]]; eauto.
    contradiction Hl. reflexivity.
Qed.

Lemma getBuildingById_errors_witness :
  exists message,
    getBuildingById Sample.now Sample.store 1000
    = Throw (SupabaseApiError 404 message).
Proof.
  apply (getBuildingById_errors Sample.now Sample.store 1000).
  - reflexivity.
  - vm_compute. discriminate.
Defined.

(** ** Search *)

Lemma insert_length c r l :
  List.length (Sql.insert c r l) = S (List.length l).
Proof.
  induction l as [|a l IH]; [reflexivity |]. cbn [Sql.insert].
  destruct (Sql.text_le (Sql.text c r) (Sql.text c a)); cbn; [| rewrite IH]; reflexivity.
Qed.

Lemma order_by_length c l : List.length (Sql.order_by c l) = List.length l.
Proof.
  induction l as [|a l IH]; [reflexivity |].
  cbn [Sql.order_by fold_right]. fold (Sql.order_by c l).
  rewrite insert_length, IH. reflexivity.
Qed.

(** X12. The total that [searchBuildings] reports is the number of
    Buildings it returns: a search is counted exactly and never paged. *)
Theorem searchBuildings_total (now : Clock) (be : Backend)
        (filters : SearchFilters.t) (res : SearchResult) :
  searchBuildings now be filters = Ok res ->
  total res = Z.of_nat (List.length (buildings res)).
Proof.
  intros H. destruct (table_failure be) as [m|] eqn:Ef.
  - rewrite (searchBuildings_failed _ _ _ _ Ef) in H. discriminate H.
  - rewrite (searchBuildings_healthy _ _ _ Ef) in H. injection H as <-.
    cbn [total buildings]. rewrite length_map, order_by_length.
    unfold count_or_zero.
    destruct (Z.of_nat (List.length (Builder.matching be (searchQuery filters))) =? 0)
      eqn:E; [apply Z.eqb_eq in E; lia | reflexivity].
Qed.

Lemma searchBuildings_total_witness :
  total {| buildings := [Encode.building (Typed.transformBuilding Sample.now Sample.church)];
           total := 1 |}
  = Z.of_nat (List.length
                [Encode.building (Typed.transformBuilding Sample.now Sample.church)]).
Proof.
  apply (searchBuildings_total Sample.now Sample.store Sample.osakaPhotos).
  vm_compute. reflexivity.
Defined.

(** X13. A filter value whose query is blank, whose prefecture list is
    empty, whose photo and video flags are off and which has no location
    constrains nothing, whatever its [architects], [buildingTypes], [areas]
    and [radius] are: [searchBuildings] returns the normalized form of every
    row that has an architect. *)
Theorem searchBuildings_unconstrained (now : Clock) (be : Backend)
        (filters : SearchFilters.t) (res : SearchResult) :
  unconstrained filters = true ->
  searchBuildings now be filters = Ok res ->
  forall b,
    In b (buildings res) <->
    exists r, In r (buildings_table_2 be)
              /\ Builder.has_architects r = true
              /\ transformBuilding now (Encode.row r) = Ok b.
Proof.
  intros Hu Hs b. rewrite (searchBuildings_In _ _ _ _ b Hs).
  setoid_rewrite transformBuilding_typed.
  assert (E : searchClauses filters = []).
  { unfold unconstrained in Hu. unfold searchClauses.
    repeat (apply andb_true_iff in Hu as [Hu ?]).
    rewrite Hu.
    destruct (0 <? List.length (SearchFilters.prefectures filters))%nat; [discriminate |].
    destruct (SearchFilters.hasPhotos filters); [discriminate |].
    destruct (SearchFilters.hasVideos filters); [discriminate |].
    destruct (SearchFilters.currentLocation filters); [discriminate | reflexivity]. }
  unfold remote_keeps. rewrite E. cbn [forallb].
  split.
  - intros (r & Hr & Hk & ->). exists r. rewrite andb_true_r in Hk. auto.
  - intros (r & Hr & Hk & [= <-]). exists r. rewrite andb_true_r. auto.
Qed.

Lemma searchBuildings_unconstrained_witness :
  In (Encode.building (Typed.transformBuilding Sample.now Sample.bare))
     (map (fun r => Encode.building (Typed.transformBuilding Sample.now r))
          [Sample.church; Sample.bare]).
Proof.
  apply (searchBuildings_unconstrained Sample.now Sample.store
           (Sample.filtering "   " false None)
           {| buildings :=
                map (fun r => Encode.building (Typed.transformBuilding Sample.now r))
                    [Sample.church; Sample.bare];
              total := 2 |}).
  - reflexivity.
  - vm_compute. reflexivity.
  - exists Sample.bare. split; [right; left; reflexivity |].
    split; [reflexivity | vm_compute; reflexivity].
Defined.

(** What the clauses of a filter value require of a row they keep,
    whatever the four bounds of the box come to. *)
Lemma remote_keeps_sound filters r :
  remote_keeps filters r = true ->
  Builder.has_architects r = true
  /\ (SearchFilters.prefectures filters <> [] ->
      exists p, Row.prefectures r = Some p /\ In p (SearchFilters.prefectures filters))
  /\ (SearchFilters.hasPhotos filters = true -> Row.thumbnailUrl r <> None)
  /\ (SearchFilters.hasVideos filters = true -> Row.youtubeUrl r <> None)
  /\ (SearchFilters.currentLocation filters <> None ->
      Row.lat r <> None /\ Row.lng r <> None).
Proof.
  unfold remote_keeps, searchClauses. intros H.
  apply andb_true_iff in H as [Ha H]. rewrite !forallb_app in H.
  apply andb_true_iff in H as [_ H]. apply andb_true_iff in H as [Hp H].
  apply andb_true_iff in H as [Hph H]. apply andb_true_iff in H as [Hv Hl].
  split; [exact Ha |]. split; [| split; [| split]].
  - intros Hne. destruct (SearchFilters.prefectures filters) as [|p0 ps] eqn:E;
      [contradiction |].
    cbn in Hp. destruct (Row.prefectures r) as [p|]; [| discriminate Hp].
    exists p. split; [reflexivity |]. rewrite andb_true_r in Hp.
    apply orb_true_iff in Hp as [Hp|Hp].
    + apply String.eqb_eq in Hp as <-. left. reflexivity.
    + right. apply existsb_exists in Hp as (q & Hq & Hpq).
      apply String.eqb_eq in Hpq as ->. exact Hq.
  - intros Hhp. rewrite Hhp in Hph. cbn in Hph.
    destruct (Row.thumbnailUrl r); [discriminate | discriminate Hph].
  - intros Hhv. rewrite Hhv in Hv. cbn in Hv.
    destruct (Row.youtubeUrl r); [discriminate | discriminate Hv].
  - intros Hloc.
    destruct (SearchFilters.currentLocation filters) as [loc|]; [| contradiction].
    cbn in Hl.
    destruct (Row.lat r) as [y|]; [| discriminate Hl].
    destruct (Row.lng r) as [x|]; [| rewrite !andb_false_r in Hl; discriminate Hl].
    split; discriminate.
Qed.

(** X14. Every Building that [searchBuildings] returns is the normalized
    form of a row of the table that has an architect and passes the filters
    that are set: its prefecture is one of the given ones, its thumbnail
    and its video reference are not null when photos and videos are asked
    for, and its coordinates are not null when a location is given. *)
Theorem searchBuildings_sound (now : Clock) (be : Backend)
        (filters : SearchFilters.t) (res : SearchResult) (b : value) :
  searchBuildings now be filters = Ok res ->
  In b (buildings res) ->
  exists r,
    In r (buildings_table_2 be)
    /\ transformBuilding now (Encode.row r) = Ok b
    /\ Builder.has_architects r = true
    /\ (SearchFilters.prefectures filters <> [] ->
        exists p, Row.prefectures r = Some p /\ In p (SearchFilters.prefectures filters))
    /\ (SearchFilters.hasPhotos filters = true -> Row.thumbnailUrl r <> None)
    /\ (SearchFilters.hasVideos filters = true -> Row.youtubeUrl r <> None)
    /\ (SearchFilters.currentLocation filters <> None ->
        Row.lat r <> None /\ Row.lng r <> None).
Proof.
  intros Hs Hb. apply (searchBuildings_In _ _ _ _ _ Hs) in Hb as (r & Hr & Hk & ->).
  exists r. split; [exact Hr |]. split; [apply transformBuilding_typed |].
  apply remote_keeps_sound, Hk.
Qed.

Lemma searchBuildings_sound_witness :
  exists r,
    In r (buildings_table_2 Sample.store)
    /\ transformBuilding Sample.now (Encode.row r)
       = Ok (Encode.building (Typed.transformBuilding Sample.now Sample.church))
    /\ Builder.has_architects r = true
    /\ Row.thumbnailUrl r <> None.
Proof.
  destruct (searchBuildings_sound Sample.now Sample.store Sample.osakaPhotos
              {| buildings :=
                   [Encode.building (Typed.transformBuilding Sample.now Sample.church)];
                 total := 1 |}
              (Encode.building (Typed.transformBuilding Sample.now Sample.church)))
    as (r & H1 & H2 & H3 & _ & H4 & _).
  - vm_compute. reflexivity.
  - left. reflexivity.
  - exists r. repeat split; try assumption. apply H4. reflexivity.
Defined.

(** The box of a centre holds the centre when the radius is not negative. *)
Lemma centre_in_box (centre radius step : Q) :
  (0 <= radius)%Q -> (0 <= step)%Q ->
  Qle_bool (centre - radius * step) centre = true
  /\ Qle_bool centre (centre + radius * step) = true.
Proof.
  intros Hr Hs. pose proof (Qmult_le_0_compat _ _ Hr Hs) as H.
  split; apply Qle_bool_iff.
  - setoid_replace centre with (centre - 0)%Q at 2 by ring.
    apply Qplus_le_r, Qopp_le_compat, H.
  - setoid_replace centre with (centre + 0)%Q at 1 by ring.
    apply Qplus_le_r, H.
Qed.

(** X15. When the [nearby_buildings] procedure fails and the fallback
    search answers, every Building that [getNearbyBuildings] returns is the
    normalized form of a row that has an architect and coordinates that are
    not null; and when the radius is not negative, every row that has an
    architect and lies at the centre itself is returned, whatever its other
    columns hold. *)
Theorem getNearbyBuildings_box (now : Clock) (be : Backend) (lat lng radius : Q)
        (message : string) (items : list value) :
  error (nearby_buildings be lat lng radius) = Some message ->
  getNearbyBuildings now be lat lng radius = Ok items ->
  (forall b,
      In b items ->
      exists r,
        In r (buildings_table_2 be)
        /\ transformBuilding now (Encode.row r) = Ok b
        /\ Builder.has_architects r = true
        /\ Row.lat r <> None /\ Row.lng r <> None)
  /\ ((0 <= radius)%Q ->
      forall r,
        In r (buildings_table_2 be) ->
        Builder.has_architects r = true ->
        Row.lat r = Some lat -> Row.lng r = Some lng ->
        exists b, transformBuilding now (Encode.row r) = Ok b /\ In b items).
Proof.
  intros He H. unfold getNearbyBuildings in H. rewrite He in H.
  apply bind_Ok_inv in H as (res & Hs & [= <-]). split.
  - intros b Hb. apply (searchBuildings_In _ _ _ _ b Hs) in Hb as (r & Hr & Hk & ->).
    destruct (remote_keeps_sound _ _ Hk) as (Ha & _ & _ & _ & Hl).
    exists r. split; [exact Hr |]. split; [apply transformBuilding_typed |].
    split; [exact Ha |]. apply Hl. discriminate.
  - intros Hrad r Hr Ha Hy Hx. eexists. split; [apply transformBuilding_typed |].
    apply (searchBuildings_In _ _ _ _ _ Hs). exists r.
    split; [exact Hr |]. split; [| reflexivity].
    unfold remote_keeps. rewrite Ha. cbn. rewrite Hy, Hx.
    destruct (centre_in_box lat radius (9 # 1000) Hrad) as [-> ->]; [discriminate |].
    destruct (centre_in_box lng radius (11 # 1000) Hrad) as [-> ->]; [discriminate |].
    reflexivity.
Qed.

Lemma getNearbyBuildings_box_witness :
  exists b,
    transformBuilding Sample.now (Encode.row Sample.church) = Ok b
    /\ In b [Encode.building (Typed.transformBuilding Sample.now Sample.church)].
Proof.
  destruct (getNearbyBuildings_box Sample.now Sample.store (348 # 10) (1355 # 10) 5
              "function not found"
              [Encode.building (Typed.transformBuilding Sample.now Sample.church)])
    as [_ H].
  - reflexivity.
  - vm_compute. reflexivity.
  - apply (H ltac:(discriminate) Sample.church);
      [left; reflexivity | reflexivity | reflexivity | reflexivity].
Defined.

(** ** Paging *)

Section PagingFacts.
Context {A : Type}.

Lemma firstn_plus (a b : nat) (l : list A) :
  firstn (a + b) l = (firstn a l ++ firstn b (skipn a l))%list.
Proof.
  revert l. induction a as [|a IH]; intros l; [reflexivity |].
  destruct l as [|x l]; [cbn; destruct b; reflexivity |].
  cbn. rewrite IH. reflexivity.
Qed.

(** Consecutive windows of [n] elements make up a prefix. *)
Lemma windows_concat (n k : nat) (l : list A) :
  List.concat (map (fun i => firstn n (skipn (i * n) l)) (seq 0 k)) = firstn (k * n) l.
Proof.
  induction k as [|k IH]; [reflexivity |].
  rewrite seq_S, map_app, concat_app, IH. cbn [map List.concat plus].
  rewrite app_nil_r. replace (S k * n)%nat with (k * n + n)%nat by lia.
  symmetry. apply firstn_plus.
Qed.

Lemma firstn_min_length (n : nat) (l : list A) :
  firstn (Nat.min n (List.length l)) l = firstn n l.
Proof.
  destruct (Nat.le_ge_cases n (List.length l)) as [H|H].
  - rewrite Nat.min_l by exact H. reflexivity.
  - rewrite Nat.min_r by exact H. rewrite firstn_all, firstn_all2 by exact H. reflexivity.
Qed.

(** [slice] with bounds that are not negative is a window. *)
Lemma js_slice_window (i n : nat) (l : list A) :
  js_slice (Z.of_nat i) (Z.of_nat i + Z.of_nat n) l = firstn n (skipn i l).
Proof.
  unfold js_slice.
  assert (E1 : (Z.of_nat i <? 0) = false) by (apply Z.ltb_ge; lia).
  assert (E2 : (Z.of_nat i + Z.of_nat n <? 0) = false) by (apply Z.ltb_ge; lia).
  rewrite E1, E2.
  destruct (Nat.le_ge_cases (List.length l) i) as [H|H].
  - rewrite Z.min_r by lia. rewrite Z.min_r by lia.
    rewrite Z.sub_diag, Nat2Z.id. cbn [Z.to_nat firstn].
    rewrite (skipn_all2 l H). destruct n; reflexivity.
  - rewrite (Z.min_l (Z.of_nat i)) by lia. rewrite Nat2Z.id.
    rewrite <- (firstn_min_length n (skipn i l)), length_skipn. f_equal. lia.
Qed.

End PagingFacts.

Lemma pages_as_windows {B : Type} (f : Z -> list B) (g : nat -> list B) k :
  (forall i, f (Z.of_nat (S i)) = g i) ->
  List.concat (map f (pages k)) = List.concat (map g (seq 0 k)).
Proof.
  intros H. unfold pages. rewrite map_map. f_equal.
  rewrite <- seq_shift, map_map. apply map_ext. intros i. apply H.
Qed.

Lemma slice_page (i limit : nat) (l : list Row.t) :
  (1 <= limit)%nat ->
  Builder.slice ((Z.of_nat (S i) - 1) * Z.of_nat limit)
                ((Z.of_nat (S i) - 1) * Z.of_nat limit + Z.of_nat limit - 1) l
  = firstn limit (skipn (i * limit) l).
Proof.
  intros Hl. unfold Builder.slice. f_equal; [lia | f_equal; nia].
Qed.

Lemma page_items_window now be (i limit : nat) :
  table_failure be = None -> (1 <= limit)%nat ->
  page_items now be (Z.of_nat limit) (Z.of_nat (S i))
  = map (fun r => Encode.building (Typed.transformBuilding now r))
        (firstn limit (skipn (i * limit) (listing be))).
Proof.
  intros Hf Hl. unfold page_items. rewrite (getBuildings_items _ _ _ _ Hf).
  cbn [buildings]. f_equal. apply slice_page, Hl.
Qed.

(** X16. While the table endpoint answers, a page of [getBuildings] holds
    at most [limit] Buildings, and pages [1] to [k] put end to end are the
    normalized first [k * limit] rows of the table in ascending
    [completionYears]: paging through the list visits every row once, in
    order. *)
Theorem getBuildings_pages (now : Clock) (be : Backend) (limit k : nat) :
  table_failure be = None -> (1 <= limit)%nat ->
  (forall page, 1 <= page ->
                (List.length (page_items now be (Z.of_nat limit) page) <= limit)%nat)
  /\ transformAll now (Some (firstn (k * limit) (listing be)))
     = Ok (List.concat (map (page_items now be (Z.of_nat limit)) (pages k))).
Proof.
  intros Hf Hl. split.
  - intros page Hp. replace page with (Z.of_nat (S (Z.to_nat (page - 1)))) by lia.
    rewrite (page_items_window _ _ _ _ Hf Hl), length_map. apply firstn_le_length.
  - rewrite transformAll_typed. f_equal.
    rewrite (pages_as_windows _
               (fun i => map (fun r => Encode.building (Typed.transformBuilding now r))
                             (firstn limit (skipn (i * limit) (listing be)))))
      by (intros i; apply page_items_window; assumption).
    rewrite <- (windows_concat limit k (listing be)), concat_map, map_map.
    reflexivity.
Qed.

Lemma getBuildings_pages_witness :
  transformAll Sample.now (Some (firstn (2 * 1) (listing Sample.store)))
  = Ok (List.concat (map (page_items Sample.now Sample.store (Z.of_nat 1)) (pages 2))).
Proof.
  apply (getBuildings_pages Sample.now Sample.store 1 2); [reflexivity | lia].
Defined.

(** X17. The mock branch of the data hook pages the locally filtered
    dataset without loss: the total is the number of filtered Buildings on
    every page, a page holds at most [limit] of them, and pages [1] to [k] put
    end to end are the first [k * limit] filtered Buildings. *)
Theorem fetchBuildingsMock_pages (mockBuildings : list Building.t)
        (filters : SearchFilters.t) (limit k : nat) :
  (forall page,
      snd (fetchBuildingsMock mockBuildings filters page (Z.of_nat limit))
      = Z.of_nat (List.length (Local.searchBuildings mockBuildings filters)))
  /\ (forall page, 1 <= page ->
        (List.length (fst (fetchBuildingsMock mockBuildings filters page (Z.of_nat limit)))
         <= limit)%nat)
  /\ List.concat (map (fun page =>
                    fst (fetchBuildingsMock mockBuildings filters page (Z.of_nat limit)))
                 (pages k))
     = firstn (k * limit) (Local.searchBuildings mockBuildings filters).
Proof.
  assert (W : forall i,
             fst (fetchBuildingsMock mockBuildings filters (Z.of_nat (S i)) (Z.of_nat limit))
             = firstn limit (skipn (i * limit)
                               (Local.searchBuildings mockBuildings filters))).
  { intros i. unfold fetchBuildingsMock. cbn [fst].
    replace ((Z.of_nat (S i) - 1) * Z.of_nat limit) with (Z.of_nat (i * limit)) by nia.
    apply js_slice_window. }
  split; [reflexivity |]. split.
  - intros page Hp. replace page with (Z.of_nat (S (Z.to_nat (page - 1)))) by lia.
    rewrite W. apply firstn_le_length.
  - rewrite (pages_as_windows _ _ k W). apply windows_concat.
Qed.

Lemma totalPages_bounds (l : list Building.t) t :
  let T := Home.totalPages false t l in
  Home.itemsPerPage * (T - 1) < Z.of_nat (List.length l) <= Home.itemsPerPage * T.
Proof.
  unfold Home.totalPages, Home.itemsPerPage. cbn zeta.
  pose proof (Z.div_mod (- Z.of_nat (List.length l)) 10 ltac:(lia)).
  pose proof (Z.mod_pos_bound (- Z.of_nat (List.length l)) 10 ltac:(lia)). lia.
Qed.

Lemma currentBuildings_window i (l : list Building.t) :
  Home.currentBuildings false (Z.of_nat (S i)) l = firstn 10 (skipn (i * 10) l).
Proof.
  unfold Home.currentBuildings, Home.itemsPerPage.
  replace ((Z.of_nat (S i) - 1) * 10) with (Z.of_nat (i * 10)) by lia.
  apply (js_slice_window (i * 10) 10).
Qed.

(** X18. On mock data the pages of the home page partition the filtered
    list: pages [1] to [totalPages] put end to end are the list itself, every
    page holds at most 10 Buildings, and the last page is not empty unless the
    list is. *)
Theorem home_pages_partition (filteredBuildings : list Building.t) (totalBuildings : Z) :
  let T := Home.totalPages false totalBuildings filteredBuildings in
  List.concat (map (fun page => Home.currentBuildings false page filteredBuildings)
              (pages (Z.to_nat T)))
  = filteredBuildings
  /\ (forall page, 1 <= page ->
        (List.length (Home.currentBuildings false page filteredBuildings) <= 10)%nat)
  /\ (filteredBuildings <> [] ->
      Home.currentBuildings false T filteredBuildings <> []).
Proof.
  intros T. pose proof (totalPages_bounds filteredBuildings totalBuildings) as HT.
  cbn zeta in HT. fold T in HT. unfold Home.itemsPerPage in HT.
  split; [| split].
  - rewrite (pages_as_windows _ _ _ (fun i => currentBuildings_window i filteredBuildings)).
    rewrite windows_concat. apply firstn_all2. lia.
  - intros page Hp. replace page with (Z.of_nat (S (Z.to_nat (page - 1)))) by lia.
    rewrite currentBuildings_window. apply firstn_le_length.
  - intros Hne. assert (Hl : (0 < List.length filteredBuildings)%nat)
      by (destruct filteredBuildings; [contradiction | cbn; lia]).
    replace T with (Z.of_nat (S (Z.to_nat (T - 1)))) by lia.
    rewrite currentBuildings_window. intros E.
    apply (f_equal (@List.length _)) in E.
    rewrite length_firstn, length_skipn in E. cbn [List.length] in E. lia.
Qed.

(** ** The data hook *)

Lemma getBuildings_failed now be page limit message :
  table_failure be = Some message ->
  getBuildings now be page limit = Throw (SupabaseApiError 500 message).
Proof.
  intros H. unfold getBuildings. rewrite (run_failed _ _ _ H). reflexivity.
Qed.

Lemma getBuildings_healthy now be page limit :
  table_failure be = None -> exists res, getBuildings now be page limit = Ok res.
Proof. intros H. rewrite (getBuildings_items _ _ _ _ H). eauto. Qed.

(** X19. When the table endpoint fails, [fetchBuildings] in API mode leaves
    the hook with the Buildings and the total of the mock branch for the same
    filters and page, with the error message of the failed call prefixed by
    [Supabase API Error: ], and not loading. *)
Theorem fetchBuildings_falls_back (now : Clock) (be : Backend)
        (mockBuildings : list Building.t) (filters : SearchFilters.t)
        (page limit : Z) (s : UseBuildings.State) (message : string) :
  table_failure be = Some message ->
  let api := UseBuildings.fetchBuildings now be mockBuildings filters page limit true s in
  let mock := UseBuildings.fetchBuildings now be mockBuildings filters page limit false s in
  UseBuildings.buildings api = UseBuildings.buildings mock
  /\ UseBuildings.total api = UseBuildings.total mock
  /\ UseBuildings.error api = Some ("Supabase API Error: " ++ message)%string
  /\ UseBuildings.loading api = false.
Proof.
  intros Hf. unfold UseBuildings.fetchBuildings.
  rewrite (searchBuildings_failed _ _ _ _ Hf), (getBuildings_failed _ _ _ _ _ Hf).
  destruct (fetchBuildingsMock mockBuildings filters page limit) as [items n].
  cbn [negb]. destruct (_ || _ || _); repeat split; reflexivity.
Qed.

Lemma fetchBuildings_falls_back_witness :
  UseBuildings.error
    (UseBuildings.fetchBuildings Sample.now Sample.down [Sample.building]
       Sample.photosOnly 1 10 true UseBuildings.initial)
  = Some "Supabase API Error: connection refused".
Proof.
  apply (fetchBuildings_falls_back Sample.now Sample.down [Sample.building]
           Sample.photosOnly 1 10 UseBuildings.initial "connection refused").
  reflexivity.
Defined.

(** X20. In API mode, while the table endpoint answers: without a query, a
    building type or a prefecture the hook lists a page and ignores every other
    filter field, so the photo, video and location filters have no effect; with
    one of the three it searches, and the page and the limit have no effect. *)
Theorem fetchBuildings_routing (now : Clock) (be : Backend)
        (mockBuildings : list Building.t) (filters : SearchFilters.t)
        (page limit : Z) (s : UseBuildings.State) :
  table_failure be = None ->
  (routed_to_listing filters = true ->
   forall filters',
     routed_to_listing filters' = true ->
     UseBuildings.fetchBuildings now be mockBuildings filters page limit true s
     = UseBuildings.fetchBuildings now be mockBuildings filters' page limit true s)
  /\ (routed_to_listing filters = false ->
      forall page' limit',
        UseBuildings.fetchBuildings now be mockBuildings filters page limit true s
        = UseBuildings.fetchBuildings now be mockBuildings filters page' limit' true s).
Proof.
  intros Hf.
  assert (R : forall f,
             negb (JsString.is_empty (SearchFilters.query f))
             || (0 <? List.length (SearchFilters.buildingTypes f))%nat
             || (0 <? List.length (SearchFilters.prefectures f))%nat
             = negb (routed_to_listing f)).
  { intros f. unfold routed_to_listing.
    destruct (JsString.is_empty (SearchFilters.query f)),
      (0 <? List.length (SearchFilters.buildingTypes f))%nat,
      (0 <? List.length (SearchFilters.prefectures f))%nat; reflexivity. }
  unfold UseBuildings.fetchBuildings. split.
  - intros H filters' H'. rewrite !R, H, H'. cbn [negb].
    destruct (getBuildings_healthy now be page limit Hf) as [res ->].
    destruct (fetchBuildingsMock mockBuildings filters page limit),
      (fetchBuildingsMock mockBuildings filters' page limit). reflexivity.
  - intros H page' limit'. rewrite !R, H. cbn [negb].
    rewrite (searchBuildings_healthy _ _ _ Hf).
    destruct (fetchBuildingsMock mockBuildings filters page limit),
      (fetchBuildingsMock mockBuildings filters page' limit'). reflexivity.
Qed.

Lemma fetchBuildings_routing_witness :
  UseBuildings.fetchBuildings Sample.now Sample.store [Sample.building]
    Sample.photosOnly 1 10 true UseBuildings.initial
  = UseBuildings.fetchBuildings Sample.now Sample.store [Sample.building]
      (Sample.filtering EmptyString false None) 1 10 true UseBuildings.initial.
Proof.
  apply (fetchBuildings_routing Sample.now Sample.store [Sample.building]
           Sample.photosOnly 1 10 UseBuildings.initial); reflexivity.
Defined.

(** ** Suggestions, continued *)

Lemma firstn_In {A : Type} (n : nat) (l : list A) (x : A) :
  In x (firstn n l) -> In x l.
Proof.
  intros H. rewrite <- (firstn_skipn n l). apply in_or_app. left. exact H.
Qed.

Lemma firstn_NoDup {A : Type} (n : nat) (l : list A) :
  NoDup l -> NoDup (firstn n l).
Proof.
  intros H. rewrite <- (firstn_skipn n l) in H. apply NoDup_app_remove_r in H. exact H.
Qed.

Lemma set_add_In s l x : In x (set_add s l) -> x = s \/ In x l.
Proof.
  unfold set_add. destruct (existsb (String.eqb s) l); [auto |].
  intros H. apply in_app_or in H as [H|[<-|[]]]; auto.
Qed.

Lemma collect_sound (P : string -> Prop) q rows : forall l,
  (forall x, In x l -> P x) ->
  (forall r, In r rows ->
             (JsString.includes (JsString.toLowerCase (Row.title r))
                                (JsString.toLowerCase q) = true -> P (Row.title r))
             /\ (forall t, Row.titleEn r = Some t ->
                           JsString.includes (JsString.toLowerCase t)
                                             (JsString.toLowerCase q) = true -> P t)) ->
  forall x, In x (fold_left (collectSuggestion q) rows l) -> P x.
Proof.
  induction rows as [|r rows IH]; intros l Hl Hr x Hx; [apply Hl, Hx |].
  cbn [fold_left] in Hx. apply (IH (collectSuggestion q l r)); [| | exact Hx].
  - intros y Hy. destruct (Hr r (or_introl eq_refl)) as [H1 H2].
    unfold collectSuggestion in Hy.
    destruct (JsString.includes (JsString.toLowerCase (Row.title r))
                                (JsString.toLowerCase q)) eqn:E1;
      destruct (Row.titleEn r) as [t|] eqn:Et;
      try destruct (JsString.includes (JsString.toLowerCase t)
                                      (JsString.toLowerCase q)) eqn:E2;
      repeat match goal with
             | H : In _ (set_add _ _) |- _ => apply set_add_In in H as [->|H]
             end; eauto.
  - intros r' Hr'. apply Hr. right. exact Hr'.
Qed.

(** X21. Every suggestion is the title or the English title of a row of
    the table, and contains the query when both are put in lower case. *)
Theorem getSearchSuggestions_sound (be : Backend) (query s : string) :
  In s (getSearchSuggestions be query) ->
  JsString.includes (JsString.toLowerCase s) (JsString.toLowerCase query) = true
  /\ exists r, In r (buildings_table_2 be)
               /\ (s = Row.title r \/ Row.titleEn r = Some s).
Proof.
  unfold getSearchSuggestions, Builder.run.
  destruct (table_failure be); cbn [error data]; [intros [] |].
  cbn [suggestionQuery Builder.limit Builder.where_ Builder.select_columns
       order_of range_of limit_of].
  refine (collect_sound
            (fun x => JsString.includes (JsString.toLowerCase x)
                                        (JsString.toLowerCase query) = true
                      /\ exists r, In r (buildings_table_2 be)
                                   /\ (x = Row.title r \/ Row.titleEn r = Some x))
            query _ [] _ _ s); [intros x [] |].
  intros r Hr. assert (Hin : In r (buildings_table_2 be)).
  { apply firstn_In in Hr. unfold Builder.matching in Hr.
    apply filter_In in Hr as [Hr _]. exact Hr. }
  split; [intros E | intros t Et E]; (split; [exact E | exists r; auto]).
Qed.

Lemma getSearchSuggestions_sound_witness :
  JsString.includes (JsString.toLowerCase "bx3") (JsString.toLowerCase "X") = true
  /\ exists r, In r (buildings_table_2 Sample.six)
               /\ ("bx3" = Row.title r \/ Row.titleEn r = Some "bx3").
Proof.
  apply (getSearchSuggestions_sound Sample.six "X" "bx3").
  vm_compute. tauto.
Defined.

(** ** The search history *)

Section HistoryFacts.
Context {A B : Type}.

Lemma update_at_length i (f : A -> A) (l : list A) :
  List.length (Home.update_at i f l) = List.length l.
Proof.
  revert i. induction l as [|a l IH]; intros [|i]; cbn; auto.
Qed.

Lemma update_at_map (g : A -> B) i (f : A -> A) (l : list A) :
  (forall x, g (f x) = g x) -> map g (Home.update_at i f l) = map g l.
Proof.
  intros H. revert i. induction l as [|a l IH]; intros [|i]; cbn; auto.
  - rewrite H. reflexivity.
  - rewrite IH. reflexivity.
Qed.

Lemma update_at_In i (f : A -> A) (l : list A) x :
  nth_error l i = Some x -> In (f x) (Home.update_at i f l).
Proof.
  revert i. induction l as [|a l IH]; intros [|i]; cbn; try discriminate.
  - intros [= ->]. left. reflexivity.
  - intros H. right. apply IH, H.
Qed.

End HistoryFacts.

(** X22. Recording a search keeps the history within 20 entries and free of
    duplicate queries. A query that is not blank ends up in the history with the
    current time, counted once more than before, or once when it is new; a
    blank query leaves the history as it is. *)
Theorem recordSearch_history (now : Clock) (filters : SearchFilters.t)
        (searchHistory : list SearchHistory.t) :
  let q := SearchFilters.query filters in
  let after := Home.recordSearch now filters searchHistory in
  ((List.length searchHistory <= 20)%nat -> (List.length after <= 20)%nat)
  /\ (NoDup (map SearchHistory.query searchHistory) ->
      NoDup (map SearchHistory.query after))
  /\ (JsString.is_empty (JsString.trim q) = false ->
      exists h,
        In h after
        /\ SearchHistory.query h = q
        /\ SearchHistory.searchedAt h = toISOString now
        /\ ((exists old, In old searchHistory
                         /\ SearchHistory.query old = q
                         /\ SearchHistory.count h = SearchHistory.count old + 1)
            \/ ((forall old, In old searchHistory -> SearchHistory.query old <> q)
                /\ SearchHistory.count h = 1)))
  /\ (JsString.is_empty (JsString.trim q) = true -> after = searchHistory).
Proof.
  intros q after. subst after. unfold Home.recordSearch. fold q.
  destruct (JsString.is_empty (JsString.trim q)) eqn:Eq.
  { split; [auto |]. split; [auto |]. split; [discriminate | reflexivity]. }
  destruct (Home.findIndex (fun h => String.eqb (SearchHistory.query h) q) searchHistory)
    as [i|] eqn:Ei.
  - destruct (findIndex_Some _ _ _ Ei) as (x & Hx & Hp). apply String.eqb_eq in Hp.
    split; [rewrite update_at_length; auto |].
    split; [rewrite (update_at_map SearchHistory.query) by reflexivity; auto |].
    split; [| discriminate]. intros _.
    eexists. split; [apply (update_at_In _ _ _ _ Hx) |]. cbn.
    split; [exact Hp |]. split; [reflexivity |]. left. exists x.
    split; [apply (nth_error_In _ _ Hx) |]. auto.
  - rewrite findIndex_None in Ei.
    assert (Hnew : forall old, In old searchHistory -> SearchHistory.query old <> q).
    { intros old Ho E. specialize (Ei old Ho). cbn in Ei.
      rewrite E, String.eqb_refl in Ei. discriminate Ei. }
    split.
    { intros _. cbn [List.length]. pose proof (firstn_le_length 19 searchHistory). lia. }
    split.
    { intros Hn. cbn [map]. constructor.
      - intros Hin. apply in_map_iff in Hin as (old & E & Ho).
        apply firstn_In in Ho. apply (Hnew old Ho E).
      - rewrite <- firstn_map. apply firstn_NoDup, Hn. }
    split; [| discriminate]. intros _.
    eexists. split; [left; reflexivity |]. cbn. auto.
Qed.

Lemma recordSearch_history_witness :
  (List.length (Home.recordSearch Sample.now Sample.osakaPhotos []) <= 20)%nat.
Proof.
  apply (recordSearch_history Sample.now Sample.osakaPhotos []). cbn. lia.
Defined.

(** ** Likes and deletion *)

Lemma find_id_head (l : LikedBuilding.t) (ls : list LikedBuilding.t) id :
  LikedBuilding.id l = id ->
  find (fun x => LikedBuilding.id x =? id) (l :: ls) = Some l.
Proof. intros H. cbn. rewrite H, Z.eqb_refl. reflexivity. Qed.

(** X23. Liking a Building twice lists it once: the second press leaves the
    liked list as the first one left it, and the list never holds an id twice.
    On mock data the counter of every Building with that id has gone up by
    two all the same; in API mode the Buildings shown are not touched. *)
Theorem handleLike_twice (now : Clock) (useApi : bool) (buildings : list Building.t)
        (buildingId : Z) (s : Home.Lists) :
  let once := Home.handleLike now useApi buildings buildingId s in
  let twice := Home.handleLike now useApi buildings buildingId once in
  Home.likedBuildings twice = Home.likedBuildings once
  /\ (NoDup (map LikedBuilding.id (Home.likedBuildings s)) ->
      NoDup (map LikedBuilding.id (Home.likedBuildings once)))
  /\ (useApi = false ->
      map Building.likes (Home.filteredBuildings twice)
      = map (fun b => if Building.id b =? buildingId
                      then Building.likes b + 2 else Building.likes b)
            (Home.filteredBuildings s))
  /\ (useApi = true -> Home.filteredBuildings twice = Home.filteredBuildings s).
Proof.
  cbn zeta. unfold Home.handleLike. cbn [Home.likedBuildings Home.filteredBuildings].
  split; [| split; [| split]].
  - destruct (find (fun b => Building.id b =? buildingId) buildings) as [b|] eqn:Eb;
      [| reflexivity].
    destruct (find (fun l => LikedBuilding.id l =? buildingId) (Home.likedBuildings s))
      eqn:El; [rewrite El; reflexivity |].
    apply find_some in Eb as [_ Eb]. apply Z.eqb_eq in Eb.
    rewrite find_id_head by exact Eb. reflexivity.
  - intros Hn.
    destruct (find (fun b => Building.id b =? buildingId) buildings) as [b|] eqn:Eb;
      [| exact Hn].
    destruct (find (fun l => LikedBuilding.id l =? buildingId) (Home.likedBuildings s))
      eqn:El; [exact Hn |].
    apply find_some in Eb as [_ Eb]. apply Z.eqb_eq in Eb.
    cbn [map LikedBuilding.id]. constructor; [| exact Hn].
    intros Hin. apply in_map_iff in Hin as (l & E & Hl).
    pose proof (find_none _ _ El l Hl) as F. cbn in F.
    rewrite E, Eb, Z.eqb_refl in F. discriminate F.
  - intros ->. cbn [negb]. rewrite !map_map. apply map_ext. intros b.
    destruct (Building.id b =? buildingId) eqn:E; cbn [Home.with_likes Building.id Building.likes].
    + rewrite E. cbn. lia.
    + rewrite E. reflexivity.
  - intros ->. reflexivity.
Qed.

(** X24. The handlers of the home page never reorder or invent Buildings:
    liking a Building or a photo keeps the ids of the Buildings shown and of
    their photos; a confirmed deletion on mock data removes every Building
    with the id and nothing else; a deletion that is not confirmed, or in API
    mode, removes nothing. *)
Theorem handlers_keep_ids (now : Clock) (useApi : bool) (buildings : list Building.t)
        (id : Z) (s : Home.Lists) (confirmed : bool) :
  map Building.id (Home.filteredBuildings (Home.handleLike now useApi buildings id s))
  = map Building.id (Home.filteredBuildings s)
  /\ map (fun b => (Building.id b, map PhotoRow.id (Building.photos b)))
         (Home.handlePhotoLike useApi id (Home.filteredBuildings s))
     = map (fun b => (Building.id b, map PhotoRow.id (Building.photos b)))
           (Home.filteredBuildings s)
  /\ map Building.id (Home.handleDeleteBuilding true false id (Home.filteredBuildings s))
     = filter (fun i => negb (i =? id)) (map Building.id (Home.filteredBuildings s))
  /\ (confirmed = false \/ useApi = true ->
      Home.handleDeleteBuilding confirmed useApi id (Home.filteredBuildings s)
      = Home.filteredBuildings s).
Proof.
  split; [| split; [| split]].
  - unfold Home.handleLike. cbn [Home.filteredBuildings].
    destruct useApi; cbn [negb]; [reflexivity |].
    rewrite map_map. apply map_ext. intros b.
    destruct (Building.id b =? id); reflexivity.
  - unfold Home.handlePhotoLike. destruct useApi; cbn [negb]; [reflexivity |].
    rewrite map_map. apply map_ext. intros b.
    cbn [Home.with_photos Building.id Building.photos]. f_equal.
    rewrite map_map. apply map_ext. intros p.
    destruct (PhotoRow.id p =? id); reflexivity.
  - unfold Home.handleDeleteBuilding. cbn [negb].
    induction (Home.filteredBuildings s) as [|b l IH]; [reflexivity |].
    cbn [filter map]. destruct (Building.id b =? id); cbn [negb map]; rewrite IH; reflexivity.
  - unfold Home.handleDeleteBuilding. intros [-> | ->]; [reflexivity |].
    destruct confirmed; reflexivity.
Qed.

(** ** The availability toggle, continued *)

(** A health check that settles before anything else happens is a run of
    [checkApiStatus]. *)
Lemma effect_then_settle (s : AsyncToggle.State) (probe : result HealthStatus) :
  AsyncToggle.awaited s = 0%nat ->
  AsyncToggle.hook
    (AsyncToggle.run s
       (if Toggle.useApi (AsyncToggle.hook s) && Toggle.effect_due (AsyncToggle.hook s)
        then [AsyncToggle.RunEffect; AsyncToggle.Settle probe]
        else [AsyncToggle.RunEffect]))
  = Toggle.step (AsyncToggle.hook s) (Toggle.RunEffect probe).
Proof.
  destruct s as [[u st d n] a]. cbn. intros ->.
  destruct u, d, probe; reflexivity.
Qed.

Lemma step_invariant s e :
  AsyncToggle.invariant s -> AsyncToggle.invariant (AsyncToggle.step s e).
Proof.
  destruct s as [[u st d n] a]. unfold AsyncToggle.invariant. cbn.
  intros [J I]. destruct e as [|probe|b]; cbn.
  - destruct d; [| split; assumption]. destruct u; cbn; split; intros; try discriminate.
    + right. lia.
    + left. lia.
  - destruct a as [|a]; cbn; [split; assumption |].
    destruct probe; cbn; split; intros; try discriminate. right. reflexivity.
  - destruct (Bool.eqb b u); cbn; [split; assumption |].
    split; intros; [left; reflexivity | discriminate].
Qed.

Lemma run_invariant es : forall s,
  AsyncToggle.invariant s -> AsyncToggle.invariant (AsyncToggle.run s es).
Proof.
  unfold AsyncToggle.run. induction es as [|e es IH]; intros s H; [exact H |].
  cbn [fold_left]. apply IH, step_invariant, H.
Qed.

(** X25. Once nothing is pending, neither a run of the effect nor a
    health check, the status is no longer [checking], and when [useApi] is on
    the API is reported available; this holds after any interleaving of effect
    runs, settling health checks and [setUseApi] calls from mounting. *)
Theorem toggle_settled (flag : bool) (es : list AsyncToggle.Event) :
  let s := AsyncToggle.run (AsyncToggle.mount flag) es in
  AsyncToggle.settled s = true ->
  Toggle.apiStatus (AsyncToggle.hook s) <> Toggle.checking
  /\ (Toggle.useApi (AsyncToggle.hook s) = true ->
      Toggle.isApiAvailable (AsyncToggle.hook s) = true).
Proof.
  cbn zeta. intros Hs.
  destruct (run_invariant es (AsyncToggle.mount flag)) as [J I].
  { split; cbn; [intros _; left; reflexivity | discriminate]. }
  unfold AsyncToggle.settled in Hs. apply andb_true_iff in Hs as [Hd Ha].
  apply negb_true_iff in Hd. apply Nat.eqb_eq in Ha. split.
  - intros Hc. destruct (J Hc) as [H|H]; [congruence | lia].
  - intros Hu. destruct (I Hd Hu) as [H|H]; [lia |].
    unfold Toggle.isApiAvailable. rewrite H. reflexivity.
Qed.

Lemma toggle_settled_witness :
  Toggle.apiStatus
    (AsyncToggle.hook
       (AsyncToggle.run (AsyncToggle.mount true)
          [AsyncToggle.RunEffect; AsyncToggle.SetUseApi false; AsyncToggle.RunEffect;
           AsyncToggle.Settle (healthCheck Sample.store)]))
  <> Toggle.checking.
Proof.
  apply (toggle_settled true
           [AsyncToggle.RunEffect; AsyncToggle.SetUseApi false; AsyncToggle.RunEffect;
            AsyncToggle.Settle (healthCheck Sample.store)]).
  reflexivity.
Defined.

(** The converse is not an invariant: a health check started before
    [setUseApi(false)] reports the API available after the toggle was
    switched off. *)
Example toggle_off_yet_available :
  let s := AsyncToggle.run (AsyncToggle.mount true)
             [AsyncToggle.RunEffect; AsyncToggle.SetUseApi false; AsyncToggle.RunEffect;
              AsyncToggle.Settle (healthCheck Sample.store)] in
  AsyncToggle.settled s = true
  /\ Toggle.useApi (AsyncToggle.hook s) = false
  /\ Toggle.isApiAvailable (AsyncToggle.hook s) = true.
Proof. repeat split. Qed.



(** ** Architects *)

Lemma mapM_Forall2 {A B : Type} (f : A -> result B) (l : list A) (l' : list B) :
  mapM f l = Ok l' -> Forall2 (fun x y => f x = Ok y) l l'.
Proof.
  revert l'. induction l as [|a l IH]; intros l'; cbn.
  - intros [= <-]. constructor.
  - intros H. peel H. injection H as <-. constructor; [exact E | apply IH, E0].
Qed.

Lemma transformArchitect_stub ba a :
  transformArchitect ba = Ok a ->
  Js.get "websites" a = VArr []
  /\ (Js.truthy (Js.get "architectJa" a) = true ->
      Js.truthy (Js.get "architectEn" a) = true).
Proof.
  unfold transformArchitect. intros H. peel H. injection H as <-.
  cbn [Js.get Js.lookup String.eqb Ascii.eqb Bool.eqb].
  split; [reflexivity |]. unfold Js.or.
  match goal with
  | |- context [if Js.truthy ?v then _ else _] => destruct (Js.truthy v) eqn:Et
  end; auto.
Qed.

(** X27. The [architects] of the Building are the empty array when the row
    carries no [building_architects] join; otherwise there is one architect per
    element of the join, each with an empty [websites] list and with an
    [architectEn] that is not empty whenever its [architectJa] is not. *)
Theorem transformBuilding_architects (now : Clock) (data b : value) :
  transformBuilding now data = Ok b ->
  (absent (Js.get "building_architects" data) = true ->
   Js.get "architects" b = VArr [])
  /\ (forall items,
         Js.get "building_architects" data = VArr items ->
         exists l,
           Js.get "architects" b = VArr l
           /\ List.length l = List.length items
           /\ Forall (fun a =>
                        Js.get "websites" a = VArr []
                        /\ (Js.truthy (Js.get "architectJa" a) = true ->
                            Js.truthy (Js.get "architectEn" a) = true)) l).
Proof.
  intros H.
  destruct (transformBuilding_Ok_fields _ _ _ H) as (p1 & p2 & p3 & p4 & m & Em & ->).
  cbn [Js.get Js.lookup String.eqb Ascii.eqb Bool.eqb]. split.
  - intros Ha. change (Js.lookup "building_architects") with (Js.get "building_architects")
      in *.
    destruct (Js.get "building_architects" data); try discriminate Ha;
      cbn in Em; injection Em as <-; reflexivity.
  - intros items Ei. rewrite Ei in Em. cbn [optional_map] in Em.
    peel Em. injection Em as <-. exists x. split; [reflexivity |].
    apply mapM_Forall2 in E. split.
    + symmetry. apply (Forall2_length E).
    + clear Ei H. induction E; [constructor |].
      constructor; [eapply transformArchitect_stub; eassumption | assumption].
Qed.

Lemma transformBuilding_architects_witness :
  exists l,
    Js.get "architects"
      (Encode.building (Typed.transformBuilding Sample.now Sample.church)) = VArr l
    /\ List.length l = 1%nat.
Proof.
  destruct (transformBuilding_architects Sample.now (Encode.row Sample.church)
              (Encode.building (Typed.transformBuilding Sample.now Sample.church)))
    as [_ H]; [vm_compute; reflexivity |].
  destruct (H [Encode.building_architect Sample.ando] eq_refl) as (l & E & Hl & _).
  exists l. auto.
Defined.
